(** * The clustering launcher ([clustering_launcher.cpp])

    A shallow embedding of the launcher's [main]: the schedule file is a
    string of characters read through [getline] and the stream extraction
    operators, the operating system is an environment record that fixes what
    each system call returns, and a run is the list of system calls and
    diagnostics the process issues together with the way it ends. *)

From Stdlib Require Import ZArith List String Ascii Bool Lia.
Import ListNotations.

Local Open Scope string_scope.
Local Open Scope Z_scope.

(** ** Characters and the C++ stream primitives *)

Module Stream.

Definition newline : ascii := ascii_of_nat 10.
Definition nl : string := String newline EmptyString.

(** [isspace] in the "C" locale: space, and the controls from tab to
    carriage return. *)
Definition isspace (c : ascii) : bool :=
  let n := nat_of_ascii c in
  Nat.eqb n 32 || (Nat.leb 9 n && Nat.leb n 13).

Definition is_newline (c : ascii) : bool := Ascii.eqb c newline.

(** [std::string::c_str] seen as a C string: the characters before the
    first NUL. *)
Fixpoint c_str (s : string) : string :=
  match s with
  | EmptyString => EmptyString
  | String c s' => if Ascii.eqb c zero then EmptyString else String c (c_str s')
  end.

(** The characters [std::getline] extracts from a non-empty stream, and
    what is left after the delimiter. *)
Fixpoint getline_chars (ifs : string) : string * string :=
  match ifs with
  | EmptyString => (EmptyString, EmptyString)
  | String c rest =>
      if is_newline c then (EmptyString, rest)
      else let (line, rest') := getline_chars rest in (String c line, rest')
  end.

(** [std::getline(ifs, line)]: fails exactly when no character is left. *)
Definition getline (ifs : string) : option (string * string) :=
  match ifs with
  | EmptyString => None
  | _ => Some (getline_chars ifs)
  end.

(** The word formatted extraction stops at: white space stays in the
    stream. *)
Fixpoint skipws (s : string) : string :=
  match s with
  | EmptyString => EmptyString
  | String c s' => if isspace c then skipws s' else s
  end.

Fixpoint read_word (s : string) : string * string :=
  match s with
  | EmptyString => (EmptyString, EmptyString)
  | String c s' =>
      if isspace c then (EmptyString, s)
      else let (w, rest) := read_word s' in (String c w, rest)
  end.

(** [stream >> str] for a [std::string]: skip white space, then take the
    characters up to the next white space; fails when nothing is left. *)
Definition extract_string (stream : string) : option (string * string) :=
  match skipws stream with
  | EmptyString => None
  | s => Some (read_word s)
  end.

(** *** Extraction of an [unsigned] *)

Definition UINT_MAX : Z := 4294967295.

(** Arithmetic on [unsigned] wraps modulo [2^32]. *)
Definition wrap32 (x : Z) : Z := x mod 4294967296.

Definition digit_value (c : ascii) : option Z :=
  let n := nat_of_ascii c in
  if Nat.leb 48 n && Nat.leb n 57 then Some (Z.of_nat n - 48) else None.

(** The decimal digits at the head of [s], most significant first. *)
Fixpoint leading_digits (s : string) : list Z :=
  match s with
  | EmptyString => []
  | String c s' =>
      match digit_value c with
      | Some d => d :: leading_digits s'
      | None => []
      end
  end.

Definition decimal_value (ds : list Z) : Z :=
  fold_left (fun acc d => 10 * acc + d) ds 0.

(** [stream >> u] for an [unsigned u] with the default flags: white space
    is skipped, a sign is allowed, at least one decimal digit is required
    and whatever follows the digits stays in the stream.  A value above
    [UINT_MAX] sets the fail bit; a minus sign negates in [unsigned]. *)
Definition extract_unsigned (stream : string) : option Z :=
  let s := skipws stream in
  let '(negative, s) :=
    match s with
    | String "-"%char r => (true, r)
    | String "+"%char r => (false, r)
    | _ => (false, s)
    end in
  match leading_digits s with
  | [] => None
  | ds =>
      let v := decimal_value ds in
      if v >? UINT_MAX then None
      else Some (if negative then wrap32 (- v) else v)
  end.

(** *** Lines and tokens, as the schedule format describes them *)

(** The lines of a file: every newline ends a line, and characters after
    the last newline form a last line. *)
Fixpoint file_lines (s : string) : list string :=
  match s with
  | EmptyString => []
  | String c s' =>
      if is_newline c then EmptyString :: file_lines s'
      else match file_lines s' with
           | [] => [String c EmptyString]
           | l :: ls => String c l :: ls
           end
  end.

(** The white-space separated tokens of a line: the maximal runs of
    characters that are not white space, in order. *)
Definition starts_word (s : string) : bool :=
  match s with
  | EmptyString => false
  | String c _ => negb (isspace c)
  end.

Fixpoint tokens (line : string) : list string :=
  match line with
  | EmptyString => []
  | String c s' =>
      if isspace c then tokens s'
      else if starts_word s' then
        match tokens s' with
        | w :: ws => String c w :: ws
        | [] => [String c EmptyString]
        end
      else String c EmptyString :: tokens s'
  end.

End Stream.
Import Stream.

(** ** Exit statuses, system calls and the environment *)

Inductive rt_gomp_clustering_launcher_error_codes : Set :=
| RT_GOMP_CLUSTERING_LAUNCHER_SUCCESS
| RT_GOMP_CLUSTERING_LAUNCHER_FILE_OPEN_ERROR
| RT_GOMP_CLUSTERING_LAUNCHER_FILE_PARSE_ERROR
| RT_GOMP_CLUSTERING_LAUNCHER_UNSCHEDULABLE_ERROR
| RT_GOMP_CLUSTERING_LAUNCHER_FORK_EXECV_ERROR
| RT_GOMP_CLUSTERING_LAUNCHER_BARRIER_INITIALIZATION_ERROR
| RT_GOMP_CLUSTERING_LAUNCHER_ARGUMENT_ERROR.

(** The enumerators count from zero. *)
Definition enum_value (c : rt_gomp_clustering_launcher_error_codes) : Z :=
  match c with
  | RT_GOMP_CLUSTERING_LAUNCHER_SUCCESS => 0
  | RT_GOMP_CLUSTERING_LAUNCHER_FILE_OPEN_ERROR => 1
  | RT_GOMP_CLUSTERING_LAUNCHER_FILE_PARSE_ERROR => 2
  | RT_GOMP_CLUSTERING_LAUNCHER_UNSCHEDULABLE_ERROR => 3
  | RT_GOMP_CLUSTERING_LAUNCHER_FORK_EXECV_ERROR => 4
  | RT_GOMP_CLUSTERING_LAUNCHER_BARRIER_INITIALIZATION_ERROR => 5
  | RT_GOMP_CLUSTERING_LAUNCHER_ARGUMENT_ERROR => 6
  end.

Definition SIGTERM : Z := 15.
Definition ECHILD : Z := 10.

(** What the process does to the outside, in program order. *)
Inductive event : Type :=
| Stderr (text : string)
| Perror (text : string)
| Fork (ret : Z)
| Execvp (file : string) (args : list string)
| Execv (path : string) (args : list string)
| Wait (ret errno : Z)
| Init_single_use_barrier (name : string) (count : Z)
| Kill (pid sig : Z).

(** How a process that runs [main] ends: [main] returns, an exec call
    succeeds and the process carries on as another program, or the process is
    terminated by a signal. *)
Inductive outcome : Type :=
| Returned (status : Z)
| Image_replaced
| Terminated (sig : Z).

(** What [SIGTERM] does to the process.  The source installs no handler and
    touches neither the disposition nor the signal mask, and both are
    inherited over [fork] and [exec]: they are those the process was started
    with. *)
Inductive sigterm_state : Type :=
| Sigterm_default
| Sigterm_ignored
| Sigterm_blocked.

(** What the system calls return to the process under study.  [fork]
    returns 0 in a child, -1 on failure and the child's pid in the parent, so
    one record describes the launcher itself or any of the children it forks,
    up to the point where the child execs. *)
Record environment : Type := {
  argv : list string;
  (** [st_mtime] when [stat] returns 0, nothing when it returns -1 *)
  taskset_stat : option Z;
  schedule_stat : option Z;
  (** the return value of the [fork] for the scheduler script *)
  scheduler_fork : Z;
  (** whether the exec call of this process returns (that is, fails) *)
  exec_returns : bool;
  (** what the successive [wait] calls find: [(return value, errno, status
      of the child)]; the launcher passes [NULL] for the status *)
  scheduler_waits : list (Z * Z * Z);
  (** the schedule file when the stream opens it, nothing when it cannot *)
  schedule_file : option string;
  init_single_use_barrier_ret : Z;
  (** the return value of the [fork] for task [t] *)
  task_fork : Z -> Z;
  reaper_waits : list (Z * Z * Z);
  sigterm : sigterm_state
}.

(** [kill(0, SIGTERM)] signals every process of the caller's process group,
    the caller included.  With the default action the caller is terminated
    by the signal before the call returns; the call returns only where the
    signal is ignored, or blocked and left pending. *)
Definition kill_returns (e : environment) : bool :=
  match sigterm e with
  | Sigterm_default => false
  | Sigterm_ignored | Sigterm_blocked => true
  end.

(** ** Runs: a trace, then either the end of the process or a value *)

Definition M (A : Type) : Type := list event * (outcome + A).

Definition ret {A} (a : A) : M A := ([], inr a).

Definition bind {A B} (m : M A) (k : A -> M B) : M B :=
  match m with
  | (tr, inl o) => (tr, inl o)
  | (tr, inr a) => let (tr', r) := k a in ((tr ++ tr')%list, r)
  end.

Definition emit (ev : event) : M unit := ([ev], inr tt).

Definition return_ {A} (c : rt_gomp_clustering_launcher_error_codes) : M A :=
  ([], inl (Returned (enum_value c))).

Definition replaced {A} : M A := ([], inl Image_replaced).

Definition trace {A} (m : M A) : list event := fst m.

Declare Scope launcher_scope.
Delimit Scope launcher_scope with launcher.
Notation "x <- m ;; k" := (bind m (fun x => k))
  (at level 61, m at next level, right associativity) : launcher_scope.
Notation "' p <- m ;; k" := (bind m (fun x => let 'p := x in k))
  (at level 61, p pattern, m at next level, right associativity) : launcher_scope.
Notation "m ;; k" := (bind m (fun _ => k))
  (at level 61, right associativity) : launcher_scope.
Local Open Scope launcher_scope.

(** ** The launcher *)

Definition num_timing_params : nat := 11.
Definition num_skipped_timing_params : nat := 4.
Definition num_partition_params : nat := 3.
Definition barrier_name : string := "RT_GOMP_CLUSTERING_BARRIER".

(** [while (!(wait(NULL) == -1 && errno == ECHILD));] (lines 97 and 327).
    The list holds what the calls find before the kernel runs out of
    children; the status of a reaped child is not asked for. *)
Fixpoint wait_for_children (waits : list (Z * Z * Z)) : M unit :=
  match waits with
  | [] => emit (Wait (-1) ECHILD)
  | (r, errno, _) :: waits' =>
      emit (Wait r errno) ;;
      if (r =? -1) && (errno =? ECHILD) then ret tt
      else wait_for_children waits'
  end.

(** The condition of line 59. *)
Definition schedule_out_of_date (e : environment) : bool :=
  match schedule_stat e with
  | None => true
  | Some schedule_mtime =>
      match taskset_stat e with
      | Some taskset_mtime => taskset_mtime >? schedule_mtime
      | None => false
      end
  end.

(** Lines 55-98: bring the schedule file up to date. *)
Definition check_schedule (e : environment) (arg : string) : M unit :=
  if schedule_out_of_date e then
    match taskset_stat e with
    | None =>
        emit (Stderr ("ERROR: Cannot open taskset file: " ++ c_str (arg ++ ".rtpt"))) ;;
        return_ RT_GOMP_CLUSTERING_LAUNCHER_FILE_OPEN_ERROR
    | Some _ =>
        emit (Stderr ("Scheduling taskset " ++ arg ++ " ..." ++ nl)) ;;
        let pid := scheduler_fork e in
        emit (Fork pid) ;;
        if pid =? 0 then
          emit (Execvp "python" ["python"; "cluster.py"; arg]) ;;
          if exec_returns e then
            emit (Perror "Execv-ing scheduler script failed") ;;
            return_ RT_GOMP_CLUSTERING_LAUNCHER_FORK_EXECV_ERROR
          else replaced
        else if pid =? -1 then
          emit (Perror "Forking a new process for scheduler script failed") ;;
          return_ RT_GOMP_CLUSTERING_LAUNCHER_FORK_EXECV_ERROR
        else wait_for_children (scheduler_waits e)
    end
  else ret tt.

(** Line 111: [while (getline(ifs, line)) { num_lines += 1; }].  Every
    successful [getline] consumes a character, so the length of the stream
    bounds the number of turns. *)
Fixpoint count_lines_loop (fuel : nat) (ifs : string) (num_lines : Z) : Z :=
  match fuel with
  | O => num_lines
  | S fuel' =>
      match getline ifs with
      | Some (_, ifs') => count_lines_loop fuel' ifs' (wrap32 (num_lines + 1))
      | None => num_lines
      end
  end.

Definition count_lines (content : string) : Z :=
  count_lines_loop (S (String.length content)) content 0.

(** [kill(0, SIGTERM); return c;]: the process is in the group it signals,
    so it reaches the [return] only where [kill] returns, and is terminated
    by the signal otherwise. *)
Definition after_kill (e : environment)
    (c : rt_gomp_clustering_launcher_error_codes) : outcome :=
  if kill_returns e then Returned (enum_value c) else Terminated SIGTERM.

(** Every failure of the launch loop: diagnostic, [kill(0, SIGTERM)],
    [return c]. *)
Definition abort_tasks {A} (e : environment) (diagnostic : event)
    (c : rt_gomp_clustering_launcher_error_codes) : M A :=
  emit diagnostic ;; emit (Kill 0 SIGTERM) ;; ([], inl (after_kill e c)).

(** The three extraction loops of lines 212-224, 236-244 and 247-259: [n]
    extractions from [stream]; the extracted word is pushed on [argvector]
    when [keep] is set; a failed extraction aborts with [too_few]. *)
Fixpoint extract_params (e : environment) (keep : bool) (n : nat) (too_few : string)
    (stream : string) (argvector : list string) : M (string * list string) :=
  match n with
  | O => ret (stream, argvector)
  | S n' =>
      match extract_string stream with
      | Some (param, stream') =>
          extract_params e keep n' too_few stream'
            (if keep then (argvector ++ [param])%list else argvector)
      | None =>
          abort_tasks e (Stderr too_few) RT_GOMP_CLUSTERING_LAUNCHER_FILE_PARSE_ERROR
      end
  end.

(** Lines 227-232 and 262-267: one more extraction must fail. *)
Definition no_extra_param (e : environment) (too_many : string) (stream : string) : M unit :=
  match extract_string stream with
  | Some _ =>
      abort_tasks e (Stderr too_many) RT_GOMP_CLUSTERING_LAUNCHER_FILE_PARSE_ERROR
  | None => ret tt
  end.

(** Lines 275-279: [while (task_command_stream >> task_arg)]. *)
Fixpoint push_task_args (fuel : nat) (stream : string) (argvector : list string)
    : list string :=
  match fuel with
  | O => argvector
  | S fuel' =>
      match extract_string stream with
      | Some (task_arg, stream') => push_task_args fuel' stream' (argvector ++ [task_arg])%list
      | None => argvector
      end
  end.

(** Lines 210-232: the partition parameters. *)
Definition partition_params (e : environment) (program_name task_partition_stream : string)
    (argvector : list string) : M (list string) :=
  '(stream, argvector) <-
    extract_params e true num_partition_params
      ("ERROR: Too few partition parameters were provided for task " ++ c_str program_name)
      task_partition_stream argvector ;;
  no_extra_param e
    ("ERROR: Too many partition parameters were provided for task " ++ c_str program_name)
    stream ;;
  ret argvector.

(** Lines 234-267: the timing parameters. *)
Definition timing_params (e : environment) (program_name task_timing_stream : string)
    (argvector : list string) : M (list string) :=
  let too_few :=
    "ERROR: Too few timing parameters were provided for task " ++ c_str program_name in
  '(stream, argvector) <-
    extract_params e false num_skipped_timing_params too_few
      task_timing_stream argvector ;;
  '(stream, argvector) <-
    extract_params e true (num_timing_params - num_skipped_timing_params) too_few
      stream argvector ;;
  no_extra_param e
    ("ERROR: Too many timing parameters were provided for task " ++ c_str program_name)
    stream ;;
  ret argvector.

(** Lines 183-279: [task_manager_argvector] for one task, with the program
    name. *)
Definition task_manager_argvector (e : environment)
    (task_command_line task_timing_line task_partition_line : string)
    : M (string * list string) :=
  match extract_string task_command_line with
  | None =>
      abort_tasks e (Stderr "ERROR: Program name not provided for task")
        RT_GOMP_CLUSTERING_LAUNCHER_FILE_PARSE_ERROR
  | Some (program_name, task_command_stream) =>
      argvector <- partition_params e program_name task_partition_line [program_name] ;;
      argvector <- timing_params e program_name task_timing_line argvector ;;
      let argvector := (argvector ++ [barrier_name])%list in
      let argvector := (argvector ++ [program_name])%list in
      ret (program_name,
           push_task_args (String.length task_command_stream)
             task_command_stream argvector)
  end.

(** Lines 177-181: the three lines of a task; [&&] stops at the first
    [getline] that fails. *)
Definition getline3 (ifs : string) : option (string * string * string * string) :=
  match getline ifs with
  | None => None
  | Some (task_command_line, ifs) =>
      match getline ifs with
      | None => None
      | Some (task_timing_line, ifs) =>
          match getline ifs with
          | None => None
          | Some (task_partition_line, ifs) =>
              Some (task_command_line, task_timing_line, task_partition_line, ifs)
          end
      end
  end.

(** Lines 175-319: [for (unsigned t = 1; t <= num_tasks; ++t)], by
    recursion on the number of turns left.  [num_tasks] is at most
    [(2^32 - 3) / 3], so [++t] does not wrap. *)
Fixpoint launch_tasks (e : environment) (turns : nat) (t : Z) (ifs : string)
    : M unit :=
  match turns with
  | O => ret tt
  | S turns' =>
      match getline3 ifs with
      | Some (task_command_line, task_timing_line, task_partition_line, ifs') =>
          '(program_name, argvector) <-
            task_manager_argvector e task_command_line task_timing_line
              task_partition_line ;;
          emit (Stderr ("Forking and execv-ing task " ++ c_str program_name ++ nl)) ;;
          let pid := task_fork e t in
          emit (Fork pid) ;;
          if pid =? 0 then
            emit (Execv (c_str program_name) (map c_str argvector)) ;;
            if exec_returns e then
              abort_tasks e (Perror "Execv-ing a new task failed")
                RT_GOMP_CLUSTERING_LAUNCHER_FORK_EXECV_ERROR
            else replaced
          else if pid =? -1 then
            abort_tasks e (Perror "Forking a new process for task failed")
              RT_GOMP_CLUSTERING_LAUNCHER_FORK_EXECV_ERROR
          else launch_tasks e turns' (t + 1) ifs'
      | None =>
          abort_tasks e
            (Stderr "ERROR: Provide three lines for each task in the schedule (.rtps) file")
            RT_GOMP_CLUSTERING_LAUNCHER_FILE_PARSE_ERROR
      end
  end.

(** Lines 123-155: the schedulability line. *)
Definition check_schedulability (arg : string) (ifs : string) : M string :=
  match getline ifs with
  | Some (schedulability_line, ifs') =>
      match extract_unsigned schedulability_line with
      | Some schedulability =>
          if schedulability =? 0 then
            emit (Stderr ("Taskset is schedulable: " ++ arg ++ nl)) ;; ret ifs'
          else if schedulability =? 1 then
            emit (Stderr ("WARNING: Taskset may not be schedulable: " ++ arg ++ nl)) ;;
            ret ifs'
          else
            emit (Stderr ("ERROR: Taskset NOT schedulable: " ++ arg)) ;;
            return_ RT_GOMP_CLUSTERING_LAUNCHER_UNSCHEDULABLE_ERROR
      | None =>
          emit (Stderr "ERROR: Schedulability improperly specified") ;;
          return_ RT_GOMP_CLUSTERING_LAUNCHER_FILE_PARSE_ERROR
      end
  | None =>
      emit (Stderr "ERROR: Schedulability improperly specified") ;;
      return_ RT_GOMP_CLUSTERING_LAUNCHER_FILE_PARSE_ERROR
  end.

(** Lines 157-163: the core range line, read and dropped. *)
Definition core_range (ifs : string) : M string :=
  match getline ifs with
  | Some (core_range_line, ifs') => ret ifs'
  | None =>
      emit (Stderr "ERROR: Missing system first and last cores line") ;;
      return_ RT_GOMP_CLUSTERING_LAUNCHER_FILE_PARSE_ERROR
  end.

(** Line 112. *)
Definition num_tasks_of (num_lines : Z) : Z := wrap32 (num_lines - 2) / 3.

(** Line 113. *)
Definition line_count_ok (num_lines : Z) : bool :=
  (num_lines >=? 2) && (wrap32 (num_lines - 2) mod 3 =? 0).

(** Lines 108-330: the launcher once the schedule file is open. *)
Definition launch (e : environment) (arg : string) (content : string) : M unit :=
  let num_lines := count_lines content in
  let num_tasks := num_tasks_of num_lines in
  if negb (line_count_ok num_lines) then
    emit (Stderr "ERROR: Invalid number of lines in schedule file") ;;
    return_ RT_GOMP_CLUSTERING_LAUNCHER_FILE_PARSE_ERROR
  else
    (* ifs.clear(); ifs.seekg(0, std::ios::beg); *)
    ifs <- check_schedulability arg content ;;
    ifs <- core_range ifs ;;
    emit (Init_single_use_barrier barrier_name num_tasks) ;;
    if negb (init_single_use_barrier_ret e =? 0) then
      emit (Stderr "ERROR: Failed to initialize barrier") ;;
      return_ RT_GOMP_CLUSTERING_LAUNCHER_BARRIER_INITIALIZATION_ERROR
    else
      launch_tasks e (Z.to_nat num_tasks) 1 ifs ;;
      emit (Stderr ("All tasks started" ++ nl)) ;;
      wait_for_children (reaper_waits e) ;;
      emit (Stderr ("All tasks finished" ++ nl)) ;;
      ([], inl (Returned 0)).

(** Lines 28-331. *)
Definition main (e : environment) : M unit :=
  match argv e with
  | [_; arg] =>
      check_schedule e arg ;;
      match schedule_file e with
      | None =>
          emit (Stderr "ERROR: Cannot open schedule file") ;;
          return_ RT_GOMP_CLUSTERING_LAUNCHER_FILE_OPEN_ERROR
      | Some content => launch e arg content
      end
  | _ =>
      emit (Stderr "ERROR: The program must receive a single argument which is the taskset/schedule filename without any extension.") ;;
      return_ RT_GOMP_CLUSTERING_LAUNCHER_ARGUMENT_ERROR
  end.

(** * The schedule format

    The launcher once more, on the lines and tokens of the schedule file
    instead of the character stream; the refinement lemmas further down show
    that [task_manager_argvector] and [launch] compute these. *)

(** The projection as the schedule format describes it: the program name is
    the first token of the command line, the partition line has exactly
    [num_partition_params] tokens, the timing line exactly
    [num_timing_params], of which the first [num_skipped_timing_params] are
    dropped. *)
Definition projected_argvector (program_name : string)
    (task_args timing partition : list string) : list string :=
  ([program_name] ++ partition ++ skipn num_skipped_timing_params timing
     ++ [barrier_name; program_name] ++ task_args)%list.

(** A failure of the launch loop on the way to the return of the parse
    error. *)
Definition parse_abort {A} (e : environment) (text : string) : M A :=
  abort_tasks e (Stderr text) RT_GOMP_CLUSTERING_LAUNCHER_FILE_PARSE_ERROR.

(** The projector on the tokens of the three lines of a record. *)
Definition project_record (e : environment)
    (task_command_line task_timing_line task_partition_line : string)
    : M (string * list string) :=
  match tokens task_command_line with
  | [] => parse_abort e "ERROR: Program name not provided for task"
  | program_name :: task_args =>
      let partition := tokens task_partition_line in
      let timing := tokens task_timing_line in
      if (List.length partition <? num_partition_params)%nat then
        parse_abort e ("ERROR: Too few partition parameters were provided for task "
                     ++ c_str program_name)
      else if (num_partition_params <? List.length partition)%nat then
        parse_abort e ("ERROR: Too many partition parameters were provided for task "
                     ++ c_str program_name)
      else if (List.length timing <? num_timing_params)%nat then
        parse_abort e ("ERROR: Too few timing parameters were provided for task "
                     ++ c_str program_name)
      else if (num_timing_params <? List.length timing)%nat then
        parse_abort e ("ERROR: Too many timing parameters were provided for task "
                     ++ c_str program_name)
      else ret (program_name,
                projected_argvector program_name task_args timing partition)
  end.

(** The launch loop on the lines that follow the two header lines. *)
Fixpoint launch_records (e : environment) (turns : nat) (t : Z)
    (lines : list string) : M unit :=
  match turns with
  | O => ret tt
  | S turns' =>
      match lines with
      | task_command_line :: task_timing_line :: task_partition_line :: lines' =>
          '(program_name, argvector) <-
            project_record e task_command_line task_timing_line task_partition_line ;;
          emit (Stderr ("Forking and execv-ing task " ++ c_str program_name ++ nl)) ;;
          let pid := task_fork e t in
          emit (Fork pid) ;;
          if pid =? 0 then
            emit (Execv (c_str program_name) (map c_str argvector)) ;;
            if exec_returns e then
              abort_tasks e (Perror "Execv-ing a new task failed")
                RT_GOMP_CLUSTERING_LAUNCHER_FORK_EXECV_ERROR
            else replaced
          else if pid =? -1 then
            abort_tasks e (Perror "Forking a new process for task failed")
              RT_GOMP_CLUSTERING_LAUNCHER_FORK_EXECV_ERROR
          else launch_records e turns' (t + 1) lines'
      | _ =>
          parse_abort e "ERROR: Provide three lines for each task in the schedule (.rtps) file"
      end
  end.

(** The verdict of the first line: 0 and 1 go on, anything else stops. *)
Definition schedulability_gate {A} (arg : string) (schedulability_line : string)
    (continue : M A) : M A :=
  match extract_unsigned schedulability_line with
  | Some schedulability =>
      if schedulability =? 0 then
        emit (Stderr ("Taskset is schedulable: " ++ arg ++ nl)) ;; continue
      else if schedulability =? 1 then
        emit (Stderr ("WARNING: Taskset may not be schedulable: " ++ arg ++ nl)) ;;
        continue
      else
        emit (Stderr ("ERROR: Taskset NOT schedulable: " ++ arg)) ;;
        return_ RT_GOMP_CLUSTERING_LAUNCHER_UNSCHEDULABLE_ERROR
  | None =>
      emit (Stderr "ERROR: Schedulability improperly specified") ;;
      return_ RT_GOMP_CLUSTERING_LAUNCHER_FILE_PARSE_ERROR
  end.

(** What follows the two header lines: the barrier, the tasks, the reaper. *)
Definition start_tasks (e : environment) (num_tasks : Z) (lines : list string)
    : M unit :=
  emit (Init_single_use_barrier barrier_name num_tasks) ;;
  if negb (init_single_use_barrier_ret e =? 0) then
    emit (Stderr "ERROR: Failed to initialize barrier") ;;
    return_ RT_GOMP_CLUSTERING_LAUNCHER_BARRIER_INITIALIZATION_ERROR
  else
    launch_records e (Z.to_nat num_tasks) 1 lines ;;
    emit (Stderr ("All tasks started" ++ nl)) ;;
    wait_for_children (reaper_waits e) ;;
    emit (Stderr ("All tasks finished" ++ nl)) ;;
    ([], inl (Returned 0)).

(** The launcher on the lines of the schedule file. *)
Definition launch_lines (e : environment) (arg : string) (lines : list string)
    : M unit :=
  let num_lines := wrap32 (Z.of_nat (List.length lines)) in
  if negb (line_count_ok num_lines) then
    emit (Stderr "ERROR: Invalid number of lines in schedule file") ;;
    return_ RT_GOMP_CLUSTERING_LAUNCHER_FILE_PARSE_ERROR
  else
    match lines with
    | [] =>
        emit (Stderr "ERROR: Schedulability improperly specified") ;;
        return_ RT_GOMP_CLUSTERING_LAUNCHER_FILE_PARSE_ERROR
    | schedulability_line :: lines =>
        schedulability_gate arg schedulability_line
          match lines with
          | [] =>
              emit (Stderr "ERROR: Missing system first and last cores line") ;;
              return_ RT_GOMP_CLUSTERING_LAUNCHER_FILE_PARSE_ERROR
          | core_range_line :: lines =>
              start_tasks e (num_tasks_of num_lines) lines
          end
    end.

(** The diagnostic of lines 313-318. *)
Definition missing_group_diagnostic : string :=
  "ERROR: Provide three lines for each task in the schedule (.rtps) file".

(** [turns] groups of three lines can be read from the stream. *)
Fixpoint groups_read (turns : nat) (ifs : string) : bool :=
  match turns with
  | O => true
  | S turns' =>
      match getline3 ifs with
      | Some (_, _, _, ifs') => groups_read turns' ifs'
      | None => false
      end
  end.

(** The lines of a file that hold at least one character. *)
Definition non_empty_lines (content : string) : list string :=
  filter (fun line => negb (String.eqb line EmptyString)) (file_lines content).

(** A string without a NUL character. *)
Fixpoint nul_free (s : string) : bool :=
  match s with
  | EmptyString => true
  | String c s' => negb (Ascii.eqb c zero) && nul_free s'
  end.

(** * Processes and signals *)

(** [fork] created a child: [main] sees neither 0 nor -1. *)
Definition creates_child (pid : Z) : bool := negb (pid =? 0) && negb (pid =? -1).




(** [wait(NULL) == -1 && errno == ECHILD]. *)
Definition no_more_children (w : Z * Z * Z) : bool :=
  let '(r, errno, _) := w in (r =? -1) && (errno =? ECHILD).

(** The [wait] call as the launcher sees it: without the status. *)
Definition wait_event (w : Z * Z * Z) : event :=
  let '(r, errno, _) := w in Wait r errno.

(** The calls that return before the one that reports [ECHILD]. *)
Fixpoint waits_before_echild (waits : list (Z * Z * Z)) : list (Z * Z * Z) :=
  match waits with
  | [] => []
  | w :: waits' => if no_more_children w then [] else w :: waits_before_echild waits'
  end.

(** * Schedule files and environments of the scenarios *)

(** The one-task schedule of the scenario. *)
Definition scenario_file : string :=
  "0" ++ nl ++ "0-3" ++ nl ++ "workerA -x" ++ nl
  ++ "0 0 0 0 1 2 3 4 5 6 7" ++ nl ++ "part1 part2 part3" ++ nl.

(** The scenario with an empty core range line. *)
Definition empty_core_range_file : string :=
  "0" ++ nl ++ nl ++ "workerA -x" ++ nl
  ++ "0 0 0 0 1 2 3 4 5 6 7" ++ nl ++ "part1 part2 part3" ++ nl.

(** Two task records, the second with only two partition tokens. *)
Definition broken_second_task : string :=
  "workerA -x" ++ nl ++ "0 0 0 0 1 2 3 4 5 6 7" ++ nl ++ "part1 part2 part3" ++ nl
  ++ "workerB" ++ nl ++ "0 0 0 0 1 2 3 4 5 6 7" ++ nl ++ "part1 part2" ++ nl.



(** The process the launcher forks for the first task of [content], the
    schedule being up to date. *)
Definition first_child (content : string) : environment :=
  {| argv := ["clustering_launcher"; "demo"];
     taskset_stat := Some 1000;
     schedule_stat := Some 2000;
     scheduler_fork := 0;
     exec_returns := false;
     scheduler_waits := [];
     schedule_file := Some content;
     init_single_use_barrier_ret := 0;
     task_fork := fun _ => 0;
     reaper_waits := [];
     sigterm := Sigterm_default |}.

(** The launcher itself, every [fork] returning the pid [4000 + t]. *)
Definition launcher_process (content : string) : environment :=
  {| argv := ["clustering_launcher"; "demo"];
     taskset_stat := Some 1000;
     schedule_stat := Some 2000;
     scheduler_fork := 3999;
     exec_returns := false;
     scheduler_waits := [];
     schedule_file := Some content;
     init_single_use_barrier_ret := 0;
     task_fork := fun t => 4000 + t;
     reaper_waits := [(4001, 0, 0)];
     sigterm := Sigterm_default |}.

(** Neither the schedule nor the taskset exists. *)
Definition nothing_on_disk : environment :=
  {| argv := ["clustering_launcher"; "demo"];
     taskset_stat := None;
     schedule_stat := None;
     scheduler_fork := 3999;
     exec_returns := false;
     scheduler_waits := [(3999, 0, 0)];
     schedule_file := None;
     init_single_use_barrier_ret := 0;
     task_fork := fun t => 4000 + t;
     reaper_waits := [];
     sigterm := Sigterm_default |}.

(** The taskset exists and the schedule does not: the launcher forks, waits
    for the scheduler and goes on. *)
Definition schedule_missing : environment :=
  {| argv := ["clustering_launcher"; "demo"];
     taskset_stat := Some 1000;
     schedule_stat := None;
     scheduler_fork := 3999;
     exec_returns := false;
     scheduler_waits := [(3999, 0, 256)];
     schedule_file := Some scenario_file;
     init_single_use_barrier_ret := 0;
     task_fork := fun t => 4000 + t;
     reaper_waits := [(4001, 0, 0)];
     sigterm := Sigterm_default |}.

(** The environment [e] with another schedule file. *)
Definition with_schedule (e : environment) (content : string) : environment :=
  {| argv := argv e;
     taskset_stat := taskset_stat e;
     schedule_stat := schedule_stat e;
     scheduler_fork := scheduler_fork e;
     exec_returns := exec_returns e;
     scheduler_waits := scheduler_waits e;
     schedule_file := Some content;
     init_single_use_barrier_ret := init_single_use_barrier_ret e;
     task_fork := task_fork e;
     reaper_waits := reaper_waits e;
     sigterm := sigterm e |}.

(** The environment [e] for a process started with [SIGTERM] ignored. *)
Definition ignoring_sigterm (e : environment) : environment :=
  {| argv := argv e;
     taskset_stat := taskset_stat e;
     schedule_stat := schedule_stat e;
     scheduler_fork := scheduler_fork e;
     exec_returns := exec_returns e;
     scheduler_waits := scheduler_waits e;
     schedule_file := schedule_file e;
     init_single_use_barrier_ret := init_single_use_barrier_ret e;
     task_fork := task_fork e;
     reaper_waits := reaper_waits e;
     sigterm := Sigterm_ignored |}.

(** The scenario with a timing line of ten tokens. *)
Definition short_timing_file : string :=
  "0" ++ nl ++ "0-3" ++ nl ++ "workerA -x" ++ nl
  ++ "0 0 0 0 1 2 3 4 5 6" ++ nl ++ "part1 part2 part3" ++ nl.

(** * Schedules as lists of records *)

(** The lines of the task records of a schedule, three per record: command
    line, timing line, partition line. *)
Fixpoint record_lines (records : list (string * string * string)) : list string :=
  match records with
  | [] => []
  | (cmd, timing, part) :: records' => cmd :: timing :: part :: record_lines records'
  end.

(** The record has a program name, 3 partition tokens and 11 timing tokens. *)
Definition well_formed (record : string * string * string) : bool :=
  let '(cmd, timing, part) := record in
  match tokens cmd with
  | [] => false
  | _ :: _ =>
      Nat.eqb (List.length (tokens part)) num_partition_params
      && Nat.eqb (List.length (tokens timing)) num_timing_params
  end.

Definition program_of (record : string * string * string) : string :=
  let '(cmd, _, _) := record in
  match tokens cmd with
  | [] => EmptyString
  | program_name :: _ => program_name
  end.

Definition argvector_of (record : string * string * string) : list string :=
  let '(cmd, timing, part) := record in
  match tokens cmd with
  | [] => []
  | program_name :: task_args =>
      projected_argvector program_name task_args (tokens timing) (tokens part)
  end.

(** What the launcher does for the tasks it creates, from task [t] on: the
    notice of line 291 and the [fork] of line 294, task after task. *)
Fixpoint created_tasks (e : environment) (t : Z) (program_names : list string)
    : list event :=
  match program_names with
  | [] => []
  | program_name :: program_names' =>
      Stderr ("Forking and execv-ing task " ++ c_str program_name ++ nl)
        :: Fork (task_fork e t)
        :: created_tasks e (t + 1) program_names'
  end.

(** The notice of lines 131-138 for the verdicts that let the launcher go on. *)
Definition verdict_notice (arg : string) (schedulability : Z) : string :=
  if schedulability =? 0 then "Taskset is schedulable: " ++ arg ++ nl
  else "WARNING: Taskset may not be schedulable: " ++ arg ++ nl.

(** The events of the reaper, lines 324-329. *)
Definition reaper_events (e : environment) : list event :=
  (Stderr ("All tasks started" ++ nl)
     :: map wait_event (waits_before_echild (reaper_waits e))
     ++ [Wait (-1) ECHILD; Stderr ("All tasks finished" ++ nl)])%list.

Definition is_kill (ev : event) : bool :=
  match ev with
  | Kill _ _ => true
  | _ => false
  end.


Definition is_init (ev : event) : bool :=
  match ev with
  | Init_single_use_barrier _ _ => true
  | _ => false
  end.

Definition is_fork (ev : event) : bool :=
  match ev with
  | Fork _ => true
  | _ => false
  end.

(** A token: at least one character, none of them white space. *)
Fixpoint no_space (w : string) : bool :=
  match w with
  | EmptyString => true
  | String c w' => negb (isspace c) && no_space w'
  end.

Definition is_token (w : string) : bool :=
  match w with
  | EmptyString => false
  | _ => no_space w
  end.

(** A line written from tokens, one space between two of them. *)
Fixpoint join_tokens (ws : list string) : string :=
  match ws with
  | [] => EmptyString
  | [w] => w
  | w :: ws' => w ++ " " ++ join_tokens ws'
  end.

Fixpoint newline_free (line : string) : bool :=
  match line with
  | EmptyString => true
  | String c line' => negb (is_newline c) && newline_free line'
  end.

(** A file written from lines, each one ended by a newline. *)
Fixpoint join_lines (lines : list string) : string :=
  match lines with
  | [] => EmptyString
  | line :: lines' => line ++ nl ++ join_lines lines'
  end.

(** Two tasks and a commented verdict line. *)
Definition two_task_file : string :=
  "  +01 # marginal" ++ nl ++ "0-7" ++ nl
  ++ "workerA -x" ++ nl ++ "0 0 0 0 1 2 3 4 5 6 7" ++ nl ++ "part1 part2 part3" ++ nl
  ++ "workerB" ++ nl ++ "9 9 9 9 a b c d e f g" ++ nl ++ "p q r" ++ nl.

Definition two_task_records : list (string * string * string) :=
  [("workerA -x", "0 0 0 0 1 2 3 4 5 6 7", "part1 part2 part3");
   ("workerB", "9 9 9 9 a b c d e f g", "p q r")].

(** The lines of the scenario, then [n] empty lines. *)
Definition padded_scenario (n : nat) : string :=
  join_lines (["0"; "0-3"; "workerA -x"; "0 0 0 0 1 2 3 4 5 6 7"; "part1 part2 part3"]
                ++ repeat EmptyString n).

(** The scenario followed by [2^32] empty lines: a file of [2^32 + 5]
    lines. *)
Definition wrapping_scenario_file : string := padded_scenario (Z.to_nat 4294967296).

(** The process the launcher forks for the second task: the first [fork]
    returns a pid, the second returns 0. *)
Definition second_child (content : string) : environment :=
  {| argv := ["clustering_launcher"; "demo"];
     taskset_stat := Some 1000;
     schedule_stat := Some 2000;
     scheduler_fork := 3999;
     exec_returns := false;
     scheduler_waits := [];
     schedule_file := Some content;
     init_single_use_barrier_ret := 0;
     task_fork := fun t => if t =? 2 then 0 else 4000 + t;
     reaper_waits := [];
     sigterm := Sigterm_default |}.

(** The launcher when the barrier cannot be initialised. *)
Definition barrier_fails (content : string) : environment :=
  {| argv := ["clustering_launcher"; "demo"];
     taskset_stat := Some 1000;
     schedule_stat := Some 2000;
     scheduler_fork := 3999;
     exec_returns := false;
     scheduler_waits := [];
     schedule_file := Some content;
     init_single_use_barrier_ret := -1;
     task_fork := fun t => 4000 + t;
     reaper_waits := [];
     sigterm := Sigterm_default |}.

(** The launcher when the second [fork] fails. *)
Definition second_fork_fails (content : string) : environment :=
  {| argv := ["clustering_launcher"; "demo"];
     taskset_stat := Some 1000;
     schedule_stat := Some 2000;
     scheduler_fork := 3999;
     exec_returns := false;
     scheduler_waits := [];
     schedule_file := Some content;
     init_single_use_barrier_ret := 0;
     task_fork := fun t => if t =? 2 then -1 else 4000 + t;
     reaper_waits := [];
     sigterm := Sigterm_default |}.

(** The launcher called without the name of a schedule. *)
Definition no_argument : environment :=
  {| argv := ["clustering_launcher"];
     taskset_stat := Some 1000;
     schedule_stat := Some 2000;
     scheduler_fork := 3999;
     exec_returns := false;
     scheduler_waits := [];
     schedule_file := Some scenario_file;
     init_single_use_barrier_ret := 0;
     task_fork := fun t => 4000 + t;
     reaper_waits := [];
     sigterm := Sigterm_default |}.

(** An up-to-date schedule file that cannot be opened. *)
Definition schedule_unreadable : environment :=
  {| argv := ["clustering_launcher"; "demo"];
     taskset_stat := Some 1000;
     schedule_stat := Some 2000;
     scheduler_fork := 3999;
     exec_returns := false;
     scheduler_waits := [];
     schedule_file := None;
     init_single_use_barrier_ret := 0;
     task_fork := fun t => 4000 + t;
     reaper_waits := [];
     sigterm := Sigterm_default |}.

Definition EINTR : Z := 4.

(** Two children reaped, with an interrupted [wait] in between. *)
Definition interrupted_waits : list (Z * Z * Z) :=
  [(4001, 0, 0); (-1, EINTR, 0); (4002, 0, 256)].

(** A trace without a [kill]. *)
Definition no_kill (tr : list event) : Prop := Forall (fun ev => is_kill ev = false) tr.

(** * Facts about runs and about the stream primitives *)

Lemma bind_ret_l {A B} (a : A) (k : A -> M B) : bind (ret a) k = k a.
Proof. unfold bind, ret. destruct (k a). reflexivity. Qed.

Lemma bind_assoc {A B C} (m : M A) (f : A -> M B) (g : B -> M C) :
  bind (bind m f) g = bind m (fun x => bind (f x) g).
Proof.
  destruct m as [tr [o|a]]; [reflexivity|].
  unfold bind. destruct (f a) as [tr' [o|b]]; [reflexivity|].
  destruct (g b) as [tr'' r]. rewrite app_assoc. reflexivity.
Qed.

Lemma bind_end {A B} (tr : list event) (o : outcome) (k : A -> M B) :
  bind (tr, inl o) k = (tr, inl o).
Proof. reflexivity. Qed.

Lemma trace_bind {A B} (m : M A) (k : A -> M B) :
  trace (bind m k) =
    match snd m with
    | inl _ => trace m
    | inr a => (trace m ++ trace (k a))%list
    end.
Proof.
  destruct m as [tr [o|a]]; [reflexivity|].
  unfold bind, trace. simpl. destruct (k a). reflexivity.
Qed.

(** The two ends of [kill(0, SIGTERM); return c;]. *)
Lemma after_kill_cases (e : environment) (c : rt_gomp_clustering_launcher_error_codes) :
  (kill_returns e = true /\ after_kill e c = Returned (enum_value c))
  \/ (kill_returns e = false /\ after_kill e c = Terminated SIGTERM).
Proof. unfold after_kill. destruct (kill_returns e); auto. Qed.

Ltac after_kill_absurd X :=
  unfold after_kill in X;
  match type of X with
  | context [kill_returns ?e] => destruct (kill_returns e); discriminate X
  end.

Module StreamFacts.

Lemma getline_chars_lines (c : ascii) (s : string) :
  file_lines (String c s) =
    fst (getline_chars (String c s)) :: file_lines (snd (getline_chars (String c s))).
Proof.
  revert c; induction s as [|c' s IH]; intros c.
  - simpl. destruct (is_newline c); reflexivity.
  - specialize (IH c').
    change (file_lines (String c (String c' s))) with
      (if is_newline c then EmptyString :: file_lines (String c' s)
       else match file_lines (String c' s) with
            | [] => [String c EmptyString]
            | l :: ls => String c l :: ls
            end).
    change (getline_chars (String c (String c' s))) with
      (if is_newline c then (EmptyString, String c' s)
       else let (line, rest') := getline_chars (String c' s) in (String c line, rest')).
    destruct (is_newline c); [reflexivity|].
    rewrite IH. destruct (getline_chars (String c' s)); reflexivity.
Qed.

Lemma getline_lines (s line rest : string) :
  getline s = Some (line, rest) -> file_lines s = line :: file_lines rest.
Proof.
  destruct s as [|c s]; [discriminate|].
  rewrite getline_chars_lines. unfold getline.
  destruct (getline_chars (String c s)) as [l r]. simpl.
  intros H. injection H as -> ->. reflexivity.
Qed.

Lemma getline_None (s : string) : getline s = None -> file_lines s = [].
Proof. destruct s; [reflexivity | discriminate]. Qed.

Lemma file_lines_nil (s : string) : file_lines s = [] -> getline s = None.
Proof.
  destruct s as [|c s]; [reflexivity|].
  rewrite getline_chars_lines. discriminate.
Qed.

Lemma file_lines_cons (s line : string) (ls : list string) :
  file_lines s = line :: ls ->
  exists rest, getline s = Some (line, rest) /\ file_lines rest = ls.
Proof.
  destruct s as [|c s]; [discriminate|].
  rewrite getline_chars_lines. unfold getline.
  destruct (getline_chars (String c s)) as [l r]. simpl.
  intros H. injection H as -> H. eauto.
Qed.

Lemma getline_chars_shorter (s : string) :
  (String.length (snd (getline_chars s)) <= String.length s)%nat.
Proof.
  induction s as [|c s IH]; simpl; [lia|].
  destruct (is_newline c); simpl; [lia|].
  destruct (getline_chars s); simpl in *; lia.
Qed.

Lemma getline_shorter (s line rest : string) :
  getline s = Some (line, rest) -> (String.length rest < String.length s)%nat.
Proof.
  destruct s as [|c s]; [discriminate|].
  unfold getline. intros H. injection H as H.
  pose proof (getline_chars_shorter s) as L.
  revert H. simpl. destruct (is_newline c).
  - intros H. injection H as _ <-. lia.
  - destruct (getline_chars s); intros H. injection H as _ <-. simpl in L. lia.
Qed.

(** The counting loop counts the lines of the stream, in [unsigned]. *)
Lemma count_lines_loop_lines (fuel : nat) (ifs : string) (num_lines : Z) :
  (String.length ifs < fuel)%nat ->
  0 <= num_lines < 4294967296 ->
  count_lines_loop fuel ifs num_lines =
    wrap32 (num_lines + Z.of_nat (List.length (file_lines ifs))).
Proof.
  revert ifs num_lines; induction fuel as [|fuel IH]; intros ifs n Hf Hn; [lia|].
  simpl. destruct (getline ifs) as [[line rest]|] eqn:G.
  - rewrite (getline_lines _ _ _ G). apply getline_shorter in G.
    rewrite IH by (unfold wrap32; try lia; apply Z.mod_pos_bound; lia).
    unfold wrap32. rewrite Zplus_mod_idemp_l. f_equal.
    simpl List.length. lia.
  - rewrite (getline_None _ G). simpl. rewrite Z.add_0_r.
    unfold wrap32. rewrite Z.mod_small; lia.
Qed.

Lemma count_lines_spec (content : string) :
  count_lines content = wrap32 (Z.of_nat (List.length (file_lines content))).
Proof.
  unfold count_lines. rewrite count_lines_loop_lines by lia. reflexivity.
Qed.

Lemma count_lines_small (content : string) :
  Z.of_nat (List.length (file_lines content)) < 4294967296 ->
  count_lines content = Z.of_nat (List.length (file_lines content)).
Proof.
  intros H. rewrite count_lines_spec. unfold wrap32. apply Z.mod_small. lia.
Qed.

Lemma count_lines_range (content : string) :
  0 <= count_lines content < 4294967296.
Proof. rewrite count_lines_spec. apply Z.mod_pos_bound. lia. Qed.

Lemma count_lines_le (content : string) :
  count_lines content <= Z.of_nat (List.length (file_lines content)).
Proof.
  rewrite count_lines_spec. unfold wrap32. apply Z.mod_le; lia.
Qed.

(** *** Word extraction against [tokens] *)

Lemma read_word_tokens (c : ascii) (s : string) :
  isspace c = false ->
  tokens (String c s) =
    fst (read_word (String c s)) :: tokens (snd (read_word (String c s))).
Proof.
  revert c; induction s as [|c' s IH]; intros c Hc.
  - simpl. rewrite Hc. reflexivity.
  - change (tokens (String c (String c' s))) with
      (if isspace c then tokens (String c' s)
       else if negb (isspace c') then
         match tokens (String c' s) with
         | w :: ws => String c w :: ws
         | [] => [String c EmptyString]
         end
       else String c EmptyString :: tokens (String c' s)).
    change (read_word (String c (String c' s))) with
      (if isspace c then (EmptyString, String c (String c' s))
       else let (w, rest) := read_word (String c' s) in (String c w, rest)).
    rewrite Hc. destruct (isspace c') eqn:Hc'.
    + simpl read_word. rewrite Hc'. reflexivity.
    + rewrite (IH c' Hc').
      destruct (read_word (String c' s)); reflexivity.
Qed.

Lemma skipws_tokens (s : string) : tokens (skipws s) = tokens s.
Proof.
  induction s as [|c s IH]; [reflexivity|].
  simpl skipws. destruct (isspace c) eqn:Hc; [|reflexivity].
  simpl. rewrite Hc. exact IH.
Qed.

Lemma skipws_head (s : string) (c : ascii) (s' : string) :
  skipws s = String c s' -> isspace c = false.
Proof.
  induction s as [|c0 s IH]; [discriminate|].
  simpl. destruct (isspace c0) eqn:Hc; [exact IH|].
  intros H; injection H as <- _. exact Hc.
Qed.

Lemma skipws_shorter (s : string) :
  (String.length (skipws s) <= String.length s)%nat.
Proof.
  induction s as [|c s IH]; simpl; [lia|].
  destruct (isspace c); simpl; lia.
Qed.

Lemma read_word_shorter (c : ascii) (s : string) :
  isspace c = false ->
  (String.length (snd (read_word (String c s))) < String.length (String c s))%nat.
Proof.
  intros Hc. simpl. rewrite Hc.
  assert (L : forall s0, (String.length (snd (read_word s0)) <= String.length s0)%nat).
  { induction s0 as [|c0 s0 IH]; simpl; [lia|].
    destruct (isspace c0); simpl; [lia|].
    destruct (read_word s0); simpl in *; lia. }
  specialize (L s). destruct (read_word s); simpl in *; lia.
Qed.

Lemma extract_string_Some (s w rest : string) :
  extract_string s = Some (w, rest) ->
  tokens s = w :: tokens rest /\ (String.length rest < String.length s)%nat.
Proof.
  unfold extract_string. intros H.
  pose proof (skipws_shorter s) as L.
  rewrite <- (skipws_tokens s).
  destruct (skipws s) as [|c s'] eqn:E; [discriminate|].
  injection H as H.
  pose proof (skipws_head _ _ _ E) as Hc.
  rewrite (read_word_tokens c s' Hc).
  pose proof (read_word_shorter c s' Hc) as L'.
  change (read_word (String c s') = (w, rest)) in H.
  rewrite H in L' |- *. simpl in L, L' |- *.
  split; [reflexivity|lia].
Qed.

Lemma extract_string_None (s : string) :
  extract_string s = None -> tokens s = [].
Proof.
  unfold extract_string. intros H. rewrite <- (skipws_tokens s).
  destruct (skipws s); [reflexivity | discriminate].
Qed.

Lemma tokens_nil (s : string) : tokens s = [] -> extract_string s = None.
Proof.
  intros H. destruct (extract_string s) as [[w r]|] eqn:E; [|reflexivity].
  apply extract_string_Some in E. destruct E as [E _]. congruence.
Qed.

Lemma tokens_cons (s w : string) (ws : list string) :
  tokens s = w :: ws ->
  exists rest, extract_string s = Some (w, rest) /\ tokens rest = ws.
Proof.
  intros H. destruct (extract_string s) as [[w' r]|] eqn:E.
  - pose proof (extract_string_Some _ _ _ E) as [E' _].
    rewrite H in E'. injection E' as E1 E2. subst. eauto.
  - apply extract_string_None in E. congruence.
Qed.

End StreamFacts.
Import StreamFacts.

(** * The argument projector against the record format *)

Section Projector.

Variable e : environment.
Variable too_few too_many : string.

Lemma extract_params_enough (keep : bool) (n : nat) (stream : string)
    (argvector : list string) :
  (n <= List.length (tokens stream))%nat ->
  exists stream',
    extract_params e keep n too_few stream argvector =
      ret (stream',
           if keep then (argvector ++ firstn n (tokens stream))%list else argvector)
    /\ tokens stream' = skipn n (tokens stream).
Proof.
  revert stream argvector; induction n as [|n IH]; intros stream argvector Hn.
  - exists stream. simpl. rewrite app_nil_r. destruct keep; auto.
  - destruct (tokens stream) as [|w ws] eqn:T; [simpl in Hn; lia|].
    destruct (tokens_cons _ _ _ T) as (rest & E & R).
    simpl in Hn.
    destruct (IH rest (if keep then (argvector ++ [w])%list else argvector))
      as (stream' & E' & R'); [rewrite R; lia|].
    exists stream'. simpl. rewrite E, E', R', R. split; [|reflexivity].
    destruct keep; [|reflexivity]. rewrite <- app_assoc. reflexivity.
Qed.

Lemma extract_params_short (keep : bool) (n : nat) (stream : string)
    (argvector : list string) :
  (List.length (tokens stream) < n)%nat ->
  extract_params e keep n too_few stream argvector = parse_abort e too_few.
Proof.
  revert stream argvector; induction n as [|n IH]; intros stream argvector Hn; [lia|].
  simpl. destruct (tokens stream) as [|w ws] eqn:T.
  - rewrite (tokens_nil _ T). reflexivity.
  - destruct (tokens_cons _ _ _ T) as (rest & E & R).
    rewrite E. apply IH. rewrite R. simpl in Hn. lia.
Qed.

Lemma no_extra_param_none (stream : string) :
  tokens stream = [] -> no_extra_param e too_many stream = ret tt.
Proof. intros T. unfold no_extra_param. rewrite (tokens_nil _ T). reflexivity. Qed.

Lemma no_extra_param_some (stream : string) :
  tokens stream <> [] -> no_extra_param e too_many stream = parse_abort e too_many.
Proof.
  intros T. unfold no_extra_param.
  destruct (extract_string stream) as [[w r]|] eqn:E; [reflexivity|].
  apply extract_string_None in E. contradiction.
Qed.

End Projector.

Lemma push_task_args_tokens (fuel : nat) (stream : string) (argvector : list string) :
  (String.length stream <= fuel)%nat ->
  push_task_args fuel stream argvector = (argvector ++ tokens stream)%list.
Proof.
  revert stream argvector; induction fuel as [|fuel IH]; intros stream argvector Hf.
  - destruct stream; [|simpl in Hf; lia]. simpl. rewrite app_nil_r. reflexivity.
  - simpl. destruct (extract_string stream) as [[w r]|] eqn:E.
    + apply extract_string_Some in E. destruct E as [T L].
      rewrite IH by lia. rewrite T, <- app_assoc. reflexivity.
    + rewrite (extract_string_None _ E), app_nil_r. reflexivity.
Qed.

Lemma skipn_nil_length {A} (n : nat) (l : list A) :
  skipn n l = [] <-> (List.length l <= n)%nat.
Proof.
  split; intros H.
  - pose proof (length_skipn n l) as L. rewrite H in L. simpl in L. lia.
  - apply skipn_all2. exact H.
Qed.

Ltac params_lia :=
  unfold num_timing_params, num_skipped_timing_params, num_partition_params in *;
  simpl in *; lia.

(** Lines 210-232 accept the partition line when it has exactly three
    tokens, and then push them in order. *)
Lemma partition_params_spec (e : environment) (program_name stream : string) (argvector : list string) :
  partition_params e program_name stream argvector =
    if (List.length (tokens stream) <? num_partition_params)%nat then
      parse_abort e ("ERROR: Too few partition parameters were provided for task "
                   ++ c_str program_name)
    else if (num_partition_params <? List.length (tokens stream))%nat then
      parse_abort e ("ERROR: Too many partition parameters were provided for task "
                   ++ c_str program_name)
    else ret (argvector ++ tokens stream)%list.
Proof.
  unfold partition_params.
  destruct (Nat.ltb_spec (List.length (tokens stream)) num_partition_params) as [L|L].
  - rewrite extract_params_short by exact L. reflexivity.
  - destruct (extract_params_enough e
                ("ERROR: Too few partition parameters were provided for task "
                 ++ c_str program_name) true _ stream argvector L)
      as (stream' & E & T).
    rewrite E.
    destruct (Nat.ltb_spec num_partition_params (List.length (tokens stream))) as [L'|L'].
    + unfold ret at 1, bind at 1. rewrite no_extra_param_some; [reflexivity|].
      intros Hn. rewrite T in Hn. apply skipn_nil_length in Hn. params_lia.
    + unfold ret at 1, bind at 1. rewrite no_extra_param_none.
      * unfold ret, bind. cbv beta iota. rewrite firstn_all2 by exact L'. reflexivity.
      * rewrite T. apply skipn_nil_length. exact L'.
Qed.

(** Lines 234-267 accept the timing line when it has exactly eleven tokens,
    and then push the last seven in order. *)
Lemma timing_params_spec (e : environment) (program_name stream : string) (argvector : list string) :
  timing_params e program_name stream argvector =
    if (List.length (tokens stream) <? num_timing_params)%nat then
      parse_abort e ("ERROR: Too few timing parameters were provided for task "
                   ++ c_str program_name)
    else if (num_timing_params <? List.length (tokens stream))%nat then
      parse_abort e ("ERROR: Too many timing parameters were provided for task "
                   ++ c_str program_name)
    else ret (argvector ++ skipn num_skipped_timing_params (tokens stream))%list.
Proof.
  unfold timing_params.
  set (too_few := "ERROR: Too few timing parameters were provided for task "
                  ++ c_str program_name).
  destruct (Nat.ltb_spec (List.length (tokens stream)) num_timing_params) as [L|L].
  - destruct (Nat.lt_ge_cases (List.length (tokens stream)) num_skipped_timing_params)
      as [L4|L4].
    + rewrite extract_params_short by exact L4. reflexivity.
    + destruct (extract_params_enough e too_few false _ stream argvector L4)
        as (stream' & E & T).
      rewrite E. unfold ret at 1, bind at 1.
      rewrite extract_params_short; [reflexivity|].
      rewrite T, length_skipn. params_lia.
  - assert (L4 : (num_skipped_timing_params <= List.length (tokens stream))%nat)
      by params_lia.
    destruct (extract_params_enough e too_few false _ stream argvector L4)
      as (stream' & E & T).
    rewrite E. unfold ret at 1, bind at 1.
    assert (L7 : (num_timing_params - num_skipped_timing_params
                  <= List.length (tokens stream'))%nat).
    { rewrite T, length_skipn. params_lia. }
    destruct (extract_params_enough e too_few true _ stream' argvector L7)
      as (stream'' & E' & T').
    rewrite E'. unfold ret at 1, bind at 1.
    destruct (Nat.ltb_spec num_timing_params (List.length (tokens stream))) as [L'|L'].
    + rewrite no_extra_param_some; [reflexivity|].
      intros Hn. rewrite T', T in Hn. apply skipn_nil_length in Hn.
      rewrite length_skipn in Hn. params_lia.
    + rewrite no_extra_param_none.
      * unfold ret, bind. cbv beta iota. rewrite T, firstn_all2; [reflexivity|].
        rewrite length_skipn. params_lia.
      * rewrite T', T. apply skipn_nil_length. rewrite length_skipn. params_lia.
Qed.

(** The code of lines 183-279 computes the projection of the record. *)
Lemma task_manager_argvector_spec (e : environment) (cmd timing part : string) :
  task_manager_argvector e cmd timing part = project_record e cmd timing part.
Proof.
  unfold task_manager_argvector, project_record.
  destruct (tokens cmd) as [|program_name task_args] eqn:T.
  - rewrite (tokens_nil _ T). reflexivity.
  - destruct (tokens_cons _ _ _ T) as (rest & E & R). rewrite E.
    rewrite partition_params_spec.
    destruct (List.length (tokens part) <? num_partition_params)%nat; [reflexivity|].
    destruct (num_partition_params <? List.length (tokens part))%nat; [reflexivity|].
    unfold ret at 1, bind at 1. rewrite timing_params_spec.
    destruct (List.length (tokens timing) <? num_timing_params)%nat; [reflexivity|].
    destruct (num_timing_params <? List.length (tokens timing))%nat; [reflexivity|].
    unfold ret, bind. simpl app at 1.
    rewrite push_task_args_tokens by lia. rewrite R.
    unfold projected_argvector. simpl. rewrite <- !app_assoc. reflexivity.
Qed.

(** * The launcher against the lines of the schedule file *)

Section Refinement.

Variable e : environment.

Lemma getline3_lines (ifs : string) :
  match getline3 ifs with
  | Some (c, t, p, ifs') => file_lines ifs = c :: t :: p :: file_lines ifs'
  | None => (List.length (file_lines ifs) < 3)%nat
  end.
Proof.
  unfold getline3.
  destruct (getline ifs) as [[c i1]|] eqn:G1;
    [|rewrite (getline_None _ G1); simpl; lia].
  rewrite (getline_lines _ _ _ G1).
  destruct (getline i1) as [[t i2]|] eqn:G2;
    [|rewrite (getline_None _ G2); simpl; lia].
  rewrite (getline_lines _ _ _ G2).
  destruct (getline i2) as [[p i3]|] eqn:G3;
    [|rewrite (getline_None _ G3); simpl; lia].
  rewrite (getline_lines _ _ _ G3). reflexivity.
Qed.

Lemma launch_tasks_refines (turns : nat) (t : Z) (ifs : string) :
  launch_tasks e turns t ifs = launch_records e turns t (file_lines ifs).
Proof.
  revert t ifs; induction turns as [|turns IH]; intros t ifs; [reflexivity|].
  simpl. pose proof (getline3_lines ifs) as G.
  destruct (getline3 ifs) as [[[[c tm] p] ifs']|].
  - rewrite G, task_manager_argvector_spec.
    destruct (project_record e c tm p) as [tr [o|[program_name argvector]]];
      [reflexivity|].
    unfold bind, emit. simpl.
    destruct (task_fork e t =? 0); [reflexivity|].
    destruct (task_fork e t =? -1); [reflexivity|].
    rewrite IH. reflexivity.
  - destruct (file_lines ifs) as [|l1 [|l2 [|l3 ls]]]; try reflexivity.
    simpl in G. lia.
Qed.

Lemma check_schedulability_bind {A} (arg ifs : string) (k : string -> M A) :
  (ifs' <- check_schedulability arg ifs ;; k ifs') =
    match getline ifs with
    | Some (schedulability_line, ifs') =>
        schedulability_gate arg schedulability_line (k ifs')
    | None =>
        emit (Stderr "ERROR: Schedulability improperly specified") ;;
        return_ RT_GOMP_CLUSTERING_LAUNCHER_FILE_PARSE_ERROR
    end.
Proof.
  unfold check_schedulability, schedulability_gate.
  destruct (getline ifs) as [[l1 i1]|]; [|reflexivity].
  destruct (extract_unsigned l1) as [v|]; [|reflexivity].
  destruct (v =? 0); [rewrite bind_assoc, bind_ret_l; reflexivity|].
  destruct (v =? 1); [rewrite bind_assoc, bind_ret_l; reflexivity|reflexivity].
Qed.

Lemma core_range_bind {A} (ifs : string) (k : string -> M A) :
  (ifs' <- core_range ifs ;; k ifs') =
    match getline ifs with
    | Some (_, ifs') => k ifs'
    | None =>
        emit (Stderr "ERROR: Missing system first and last cores line") ;;
        return_ RT_GOMP_CLUSTERING_LAUNCHER_FILE_PARSE_ERROR
    end.
Proof.
  unfold core_range.
  destruct (getline ifs) as [[l2 i2]|]; [apply bind_ret_l|reflexivity].
Qed.

Lemma launch_lines_refines (arg content : string) :
  launch e arg content = launch_lines e arg (file_lines content).
Proof.
  unfold launch, launch_lines. rewrite count_lines_spec.
  destruct (negb (line_count_ok _)); [reflexivity|].
  rewrite check_schedulability_bind.
  destruct (getline content) as [[l1 i1]|] eqn:G1;
    [|rewrite (getline_None _ G1); reflexivity].
  rewrite (getline_lines _ _ _ G1). f_equal.
  rewrite core_range_bind.
  destruct (getline i1) as [[l2 i2]|] eqn:G2;
    [|rewrite (getline_None _ G2); reflexivity].
  rewrite (getline_lines _ _ _ G2). unfold start_tasks.
  rewrite launch_tasks_refines. reflexivity.
Qed.

End Refinement.

(** * The launcher's [main], phase by phase *)

Lemma main_launch (e : environment) (prog arg content : string) :
  argv e = [prog; arg] ->
  schedule_file e = Some content ->
  main e = (check_schedule e arg ;; launch e arg content).
Proof. unfold main. intros -> ->. reflexivity. Qed.

Lemma main_up_to_date (e : environment) (prog arg content : string) :
  argv e = [prog; arg] ->
  schedule_out_of_date e = false ->
  schedule_file e = Some content ->
  main e = launch e arg content.
Proof.
  intros Ha Hs Hf. rewrite (main_launch e prog arg content Ha Hf).
  unfold check_schedule. rewrite Hs.
  exact (bind_ret_l tt (fun _ => launch e arg content)).
Qed.

(** One turn of the launch loop on a record the projector accepts, in the
    three processes [fork] can return to. *)
Lemma launch_tasks_turn (e : environment) (turns : nat) (t : Z)
    (ifs ifs' cmd timing part program_name : string) (argvector : list string) :
  getline3 ifs = Some (cmd, timing, part, ifs') ->
  task_manager_argvector e cmd timing part = ret (program_name, argvector) ->
  launch_tasks e (S turns) t ifs =
    (emit (Stderr ("Forking and execv-ing task " ++ c_str program_name ++ nl)) ;;
     emit (Fork (task_fork e t)) ;;
     if task_fork e t =? 0 then
       emit (Execv (c_str program_name) (map c_str argvector)) ;;
       if exec_returns e then
         abort_tasks e (Perror "Execv-ing a new task failed")
           RT_GOMP_CLUSTERING_LAUNCHER_FORK_EXECV_ERROR
       else replaced
     else if task_fork e t =? -1 then
       abort_tasks e (Perror "Forking a new process for task failed")
         RT_GOMP_CLUSTERING_LAUNCHER_FORK_EXECV_ERROR
     else launch_tasks e turns (t + 1) ifs').
Proof.
  intros G P. simpl launch_tasks. rewrite G, P, bind_ret_l. reflexivity.
Qed.

(** * The claims *)

(** ** C1: the argument vector of a task *)

(** C1.  For a task record whose command line starts with a program name,
    whose partition line has the three tokens [p1 p2 p3] and whose timing line
    has the eleven tokens [t1 .. t11], the launcher assembles the argument
    vector [program name, p1, p2, p3, t5, ..., t11, barrier name, program
    name, remaining command-line tokens], and the child forked for that task
    calls [execv] on the program with exactly that vector (each entry through
    [c_str]). *)
Theorem C1_argument_vector
    (cmd timing part program_name : string) (task_args : list string)
    (p1 p2 p3 t1 t2 t3 t4 t5 t6 t7 t8 t9 t10 t11 : string) :
  tokens cmd = program_name :: task_args ->
  tokens part = [p1; p2; p3] ->
  tokens timing = [t1; t2; t3; t4; t5; t6; t7; t8; t9; t10; t11] ->
  let argvector :=
    ([program_name; p1; p2; p3; t5; t6; t7; t8; t9; t10; t11;
      barrier_name; program_name] ++ task_args)%list in
  (forall e : environment,
     task_manager_argvector e cmd timing part = ret (program_name, argvector))
  /\ forall (e : environment) (turns : nat) (t : Z) (ifs ifs' : string),
       getline3 ifs = Some (cmd, timing, part, ifs') ->
       task_fork e t = 0 ->
       exec_returns e = false ->
       launch_tasks e (S turns) t ifs =
         ([Stderr ("Forking and execv-ing task " ++ c_str program_name ++ nl);
           Fork 0;
           Execv (c_str program_name) (map c_str argvector)],
          inl Image_replaced).
Proof.
  intros Hc Hp Ht argvector.
  assert (P : forall e, task_manager_argvector e cmd timing part =
                         ret (program_name, argvector)).
  { intros e. rewrite task_manager_argvector_spec. unfold project_record.
    rewrite Hc, Hp, Ht. reflexivity. }
  split; [exact P|].
  intros e turns t ifs ifs' G F X.
  rewrite (launch_tasks_turn e turns t ifs ifs' _ _ _ _ _ G (P e)), F, X.
  reflexivity.
Qed.

(** The schedule of the scenario: one task, [workerA -x]. *)
Lemma C1_argument_vector_witness :
  file_lines scenario_file =
    ["0"; "0-3"; "workerA -x"; "0 0 0 0 1 2 3 4 5 6 7"; "part1 part2 part3"]
  /\ task_manager_argvector (first_child scenario_file)
       "workerA -x" "0 0 0 0 1 2 3 4 5 6 7" "part1 part2 part3" =
       ret ("workerA",
            ["workerA"; "part1"; "part2"; "part3"; "1"; "2"; "3"; "4"; "5"; "6"; "7";
             "RT_GOMP_CLUSTERING_BARRIER"; "workerA"; "-x"])
  /\ launch_tasks (first_child scenario_file) 1 1
       ("workerA -x" ++ nl ++ "0 0 0 0 1 2 3 4 5 6 7" ++ nl ++ "part1 part2 part3" ++ nl) =
       ([Stderr ("Forking and execv-ing task workerA" ++ nl);
         Fork 0;
         Execv "workerA"
           ["workerA"; "part1"; "part2"; "part3"; "1"; "2"; "3"; "4"; "5"; "6"; "7";
            "RT_GOMP_CLUSTERING_BARRIER"; "workerA"; "-x"]],
        inl Image_replaced)
  /\ main (first_child scenario_file) =
       ([Stderr ("Taskset is schedulable: demo" ++ nl);
         Init_single_use_barrier "RT_GOMP_CLUSTERING_BARRIER" 1;
         Stderr ("Forking and execv-ing task workerA" ++ nl);
         Fork 0;
         Execv "workerA"
           ["workerA"; "part1"; "part2"; "part3"; "1"; "2"; "3"; "4"; "5"; "6"; "7";
            "RT_GOMP_CLUSTERING_BARRIER"; "workerA"; "-x"]],
        inl Image_replaced).
Proof.
  pose proof (C1_argument_vector
                "workerA -x" "0 0 0 0 1 2 3 4 5 6 7" "part1 part2 part3"
                "workerA" ["-x"] "part1" "part2" "part3"
                "0" "0" "0" "0" "1" "2" "3" "4" "5" "6" "7"
                eq_refl eq_refl eq_refl) as [P L].
  split; [reflexivity|]. split; [exact (P (first_child scenario_file))|].
  split; [|reflexivity].
  exact (L (first_child scenario_file) O 1
           ("workerA -x" ++ nl ++ "0 0 0 0 1 2 3 4 5 6 7" ++ nl
            ++ "part1 part2 part3" ++ nl)
           EmptyString eq_refl eq_refl eq_refl).
Defined.

(** ** C2: the schedulability line *)

Lemma line_count_ok_spec (num_lines : Z) :
  0 <= num_lines < 4294967296 ->
  line_count_ok num_lines = true <-> 2 <= num_lines /\ (num_lines - 2) mod 3 = 0.
Proof.
  intros R. unfold line_count_ok, wrap32.
  rewrite andb_true_iff, Z.geb_le, Z.eqb_eq.
  split; intros [H1 H2]; (split; [exact H1|]).
  - rewrite (Z.mod_small (num_lines - 2) 4294967296) in H2 by lia. exact H2.
  - rewrite (Z.mod_small (num_lines - 2) 4294967296) by lia. exact H2.
Qed.

Lemma line_count_ok_two_lines (content : string) :
  line_count_ok (count_lines content) = true ->
  exists l1 l2 rest, file_lines content = l1 :: l2 :: rest.
Proof.
  intros H. apply (line_count_ok_spec _ (count_lines_range content)) in H.
  pose proof (count_lines_le content) as L. destruct H as [H _].
  destruct (file_lines content) as [|l1 [|l2 rest]];
    [exfalso; change (count_lines content <= 0) in L; lia
    |exfalso; change (count_lines content <= 1) in L; lia
    |eauto].
Qed.

(** The launcher on a file that passes the line-count check. *)
Lemma launch_accepted (e : environment) (arg content l1 l2 : string)
    (rest : list string) :
  file_lines content = l1 :: l2 :: rest ->
  line_count_ok (count_lines content) = true ->
  launch e arg content =
    schedulability_gate arg l1
      (start_tasks e (num_tasks_of (count_lines content)) rest).
Proof.
  intros L H. rewrite launch_lines_refines. unfold launch_lines.
  rewrite <- count_lines_spec, H, L. reflexivity.
Qed.

Lemma launch_rejected (e : environment) (arg content : string) :
  line_count_ok (count_lines content) = false ->
  launch e arg content =
    ([Stderr "ERROR: Invalid number of lines in schedule file"],
     inl (Returned (enum_value RT_GOMP_CLUSTERING_LAUNCHER_FILE_PARSE_ERROR))).
Proof. intros H. unfold launch. rewrite H. reflexivity. Qed.

(** C2, counterexample.  The first line of this file parses as 2, and the
    launcher returns the parse error of the line-count check, not the
    unschedulable error. *)
Lemma C2_counterexample :
  file_lines ("2" ++ nl) = ["2"]
  /\ extract_unsigned "2" = Some 2
  /\ main (launcher_process ("2" ++ nl)) =
       ([Stderr "ERROR: Invalid number of lines in schedule file"],
        inl (Returned (enum_value RT_GOMP_CLUSTERING_LAUNCHER_FILE_PARSE_ERROR)))
  /\ snd (main (launcher_process ("2" ++ nl))) <>
       inl (Returned (enum_value RT_GOMP_CLUSTERING_LAUNCHER_UNSCHEDULABLE_ERROR)).
Proof. repeat split; try reflexivity. discriminate. Qed.

(** C2, amended.  A file without a first line, and a file whose first line
    does not parse as an unsigned integer, end in the parse error.  For a file
    that passes the line-count check and whose first line parses as [v]: when
    [v] is 0 or 1 the launcher prints a notice and goes on to the barrier and
    the tasks; any other [v] makes it return the unschedulable error after one
    diagnostic, with no barrier and no process created. *)
Theorem C2_schedulability_gate (e : environment) (arg content : string) :
  (file_lines content = [] ->
   launch e arg content =
     ([Stderr "ERROR: Invalid number of lines in schedule file"],
      inl (Returned (enum_value RT_GOMP_CLUSTERING_LAUNCHER_FILE_PARSE_ERROR))))
  /\ (forall l1 rest,
        file_lines content = l1 :: rest ->
        extract_unsigned l1 = None ->
        exists text,
          launch e arg content =
            ([Stderr text],
             inl (Returned (enum_value RT_GOMP_CLUSTERING_LAUNCHER_FILE_PARSE_ERROR))))
  /\ (forall l1 rest v,
        file_lines content = l1 :: rest ->
        line_count_ok (count_lines content) = true ->
        extract_unsigned l1 = Some v ->
        (v = 0 \/ v = 1 ->
         exists notice,
           launch e arg content =
             (emit (Stderr notice) ;;
              start_tasks e (num_tasks_of (count_lines content)) (tl rest)))
        /\ (v <> 0 -> v <> 1 ->
            launch e arg content =
              ([Stderr ("ERROR: Taskset NOT schedulable: " ++ arg)],
               inl (Returned
                      (enum_value RT_GOMP_CLUSTERING_LAUNCHER_UNSCHEDULABLE_ERROR))))).
Proof.
  split; [|split].
  - intros L. apply launch_rejected. rewrite count_lines_spec, L. reflexivity.
  - intros l1 rest L P.
    destruct (line_count_ok (count_lines content)) eqn:H.
    + destruct (line_count_ok_two_lines _ H) as (l1' & l2 & rest' & L').
      rewrite L' in L. injection L as <- _.
      rewrite (launch_accepted e arg content _ _ _ L' H).
      unfold schedulability_gate. rewrite P. eexists. reflexivity.
    + rewrite (launch_rejected e arg content H). eexists. reflexivity.
  - intros l1 rest v L H P.
    destruct (line_count_ok_two_lines _ H) as (l1' & l2 & rest' & L').
    rewrite L' in L. injection L as <- <-.
    rewrite (launch_accepted e arg content _ _ _ L' H).
    unfold schedulability_gate. rewrite P. split.
    + intros [-> | ->]; eexists; reflexivity.
    + intros H0 H1.
      destruct (Z.eqb_spec v 0); [contradiction|].
      destruct (Z.eqb_spec v 1); [contradiction|]. reflexivity.
Qed.

(** A two-line schedule whose verdict is 2, and the scenario whose verdict
    is 0. *)
Lemma C2_schedulability_gate_witness :
  launch (launcher_process ("2" ++ nl ++ "0-3" ++ nl)) "demo" ("2" ++ nl ++ "0-3" ++ nl) =
    ([Stderr "ERROR: Taskset NOT schedulable: demo"],
     inl (Returned (enum_value RT_GOMP_CLUSTERING_LAUNCHER_UNSCHEDULABLE_ERROR)))
  /\ exists notice,
       launch (launcher_process scenario_file) "demo" scenario_file =
         (emit (Stderr notice) ;;
          start_tasks (launcher_process scenario_file) 1
            ["workerA -x"; "0 0 0 0 1 2 3 4 5 6 7"; "part1 part2 part3"]).
Proof.
  split.
  - refine (proj2 (proj2 (proj2 (C2_schedulability_gate
                                   (launcher_process ("2" ++ nl ++ "0-3" ++ nl)) "demo"
                                   ("2" ++ nl ++ "0-3" ++ nl)))
                     "2" ["0-3"] 2 eq_refl eq_refl eq_refl) _ _); discriminate.
  - exact (proj1 (proj2 (proj2 (C2_schedulability_gate
                                  (launcher_process scenario_file) "demo" scenario_file))
                    "0" ["0-3"; "workerA -x"; "0 0 0 0 1 2 3 4 5 6 7";
                         "part1 part2 part3"]
                    0 eq_refl eq_refl eq_refl)
             (or_introl eq_refl)).
Defined.

(** ** The two results of the projector *)

Lemma project_record_cases (e : environment) (cmd timing part : string) :
  (exists text, project_record e cmd timing part = parse_abort e text)
  \/ (exists program_name argvector,
        project_record e cmd timing part = ret (program_name, argvector)).
Proof.
  unfold project_record.
  destruct (tokens cmd) as [|program_name task_args]; [left; eauto|].
  destruct (_ <? _)%nat; [left; eauto|].
  destruct (_ <? _)%nat; [left; eauto|].
  destruct (_ <? _)%nat; [left; eauto|].
  destruct (_ <? _)%nat; [left; eauto|].
  right; eauto.
Qed.

(** ** C4: the line count and the size of the barrier *)

Lemma num_tasks_of_exact (num_lines : Z) :
  0 <= num_lines < 4294967296 ->
  line_count_ok num_lines = true ->
  num_tasks_of num_lines = (num_lines - 2) / 3
  /\ 3 * num_tasks_of num_lines + 2 = num_lines.
Proof.
  intros R H. apply (line_count_ok_spec _ R) in H. destruct H as [H2 H3].
  unfold num_tasks_of, wrap32. rewrite Z.mod_small by lia.
  split; [reflexivity|].
  pose proof (Z.div_mod (num_lines - 2) 3 ltac:(lia)). lia.
Qed.

Lemma num_tasks_of_range (num_lines : Z) :
  0 <= num_tasks_of num_lines <= 1431655765.
Proof.
  unfold num_tasks_of, wrap32.
  pose proof (Z.mod_pos_bound (num_lines - 2) 4294967296 ltac:(lia)) as B.
  split.
  - apply Z.div_pos; lia.
  - apply Z.div_le_upper_bound; lia.
Qed.

Lemma in_trace_emit_bind {A} (ev ev' : event) (m : M A) :
  In ev (trace (emit ev' ;; m)) <-> ev = ev' \/ In ev (trace m).
Proof.
  unfold emit, bind, trace. destruct m as [tr r]. simpl.
  split; intros [H|H]; auto.
Qed.

(** *** What the events of a run can be *)

Lemma Forall_trace_bind {A B} (P : event -> Prop) (m : M A) (k : A -> M B) :
  Forall P (trace m) ->
  (forall a, snd m = inr a -> Forall P (trace (k a))) ->
  Forall P (trace (bind m k)).
Proof.
  intros Hm Hk. rewrite trace_bind. destruct m as [tr [o|a]]; simpl in *.
  - exact Hm.
  - apply Forall_app. split; [exact Hm|]. apply Hk. reflexivity.
Qed.

Lemma Forall_trace_emit_bind {A} (P : event -> Prop) (ev : event) (m : M A) :
  P ev -> Forall P (trace m) -> Forall P (trace (emit ev ;; m)).
Proof.
  intros Hev Hm. apply Forall_trace_bind; [repeat constructor; exact Hev|].
  intros _ _. exact Hm.
Qed.

Section TraceInvariant.

Variable P : event -> Prop.
Variable count : Z.

Hypothesis P_stderr : forall text, text <> missing_group_diagnostic -> P (Stderr text).
Hypothesis P_init : P (Init_single_use_barrier barrier_name count).
Hypothesis P_other :
  forall ev,
    match ev with
    | Stderr _ | Init_single_use_barrier _ _ => False
    | _ => True
    end -> P ev.

Lemma return_invariant {A} c : Forall P (trace (@return_ A c)).
Proof. constructor. Qed.

Lemma abort_tasks_stderr_invariant (e : environment) {A} text c :
  text <> missing_group_diagnostic ->
  Forall P (trace (@abort_tasks A e (Stderr text) c)).
Proof.
  intros H. unfold abort_tasks.
  apply Forall_trace_emit_bind; [apply P_stderr; exact H|].
  apply Forall_trace_emit_bind; [apply P_other; exact I|constructor].
Qed.

Lemma abort_tasks_perror_invariant (e : environment) {A} text c :
  Forall P (trace (@abort_tasks A e (Perror text) c)).
Proof.
  unfold abort_tasks.
  apply Forall_trace_emit_bind; [apply P_other; exact I|].
  apply Forall_trace_emit_bind; [apply P_other; exact I|constructor].
Qed.

Lemma project_record_invariant (e : environment) (cmd timing part : string) :
  Forall P (trace (project_record e cmd timing part)).
Proof.
  unfold project_record, parse_abort.
  destruct (tokens cmd) as [|program_name task_args];
    [apply abort_tasks_stderr_invariant; discriminate|].
  repeat (destruct (_ <? _)%nat;
          [apply abort_tasks_stderr_invariant; simpl; discriminate|]).
  constructor.
Qed.

Lemma wait_for_children_invariant (waits : list (Z * Z * Z)) :
  Forall P (trace (wait_for_children waits)).
Proof.
  induction waits as [|[[r errno] status] waits IH]; simpl.
  - repeat constructor. apply P_other. exact I.
  - apply Forall_trace_emit_bind; [apply P_other; exact I|].
    destruct ((r =? -1) && (errno =? ECHILD)); [constructor|exact IH].
Qed.

(** With three lines left for every turn, the loop never reports a missing
    line. *)
Lemma launch_records_invariant (e : environment) (turns : nat) :
  forall (t : Z) (lines : list string),
    (3 * turns <= List.length lines)%nat ->
    Forall P (trace (launch_records e turns t lines)).
Proof.
  induction turns as [|turns IH]; intros t lines L; [constructor|].
  destruct lines as [|c [|tm [|p lines]]]; simpl in L; try lia.
  simpl launch_records.
  apply Forall_trace_bind; [apply project_record_invariant|].
  intros [program_name argvector] _.
  apply Forall_trace_emit_bind; [apply P_stderr; simpl; discriminate|].
  apply Forall_trace_emit_bind; [apply P_other; exact I|].
  destruct (task_fork e t =? 0).
  - apply Forall_trace_emit_bind; [apply P_other; exact I|].
    destruct (exec_returns e); [apply abort_tasks_perror_invariant|constructor].
  - destruct (task_fork e t =? -1); [apply abort_tasks_perror_invariant|].
    apply IH. lia.
Qed.

Lemma start_tasks_invariant (e : environment) (lines : list string) :
  (3 * Z.to_nat count <= List.length lines)%nat ->
  Forall P (trace (start_tasks e count lines)).
Proof.
  intros L. unfold start_tasks.
  apply Forall_trace_emit_bind; [exact P_init|].
  destruct (negb (init_single_use_barrier_ret e =? 0)).
  - apply Forall_trace_emit_bind; [apply P_stderr; discriminate|constructor].
  - apply Forall_trace_bind; [apply launch_records_invariant; exact L|].
    intros _ _.
    apply Forall_trace_emit_bind; [apply P_stderr; discriminate|].
    apply Forall_trace_bind; [apply wait_for_children_invariant|].
    intros _ _.
    apply Forall_trace_emit_bind; [apply P_stderr; discriminate|constructor].
Qed.

Lemma schedulability_gate_invariant (arg line : string) (continue : M unit) :
  Forall P (trace continue) ->
  Forall P (trace (schedulability_gate arg line continue)).
Proof.
  intros H. unfold schedulability_gate.
  destruct (extract_unsigned line) as [v|].
  - destruct (v =? 0);
      [apply Forall_trace_emit_bind; [apply P_stderr; discriminate|exact H]|].
    destruct (v =? 1);
      [apply Forall_trace_emit_bind; [apply P_stderr; discriminate|exact H]|].
    apply Forall_trace_emit_bind; [apply P_stderr; discriminate|constructor].
  - apply Forall_trace_emit_bind; [apply P_stderr; discriminate|constructor].
Qed.

Lemma launch_invariant (e : environment) (arg content : string) :
  count = num_tasks_of (count_lines content) ->
  Forall P (trace (launch e arg content)).
Proof.
  intros C. destruct (line_count_ok (count_lines content)) eqn:H.
  - destruct (line_count_ok_two_lines _ H) as (l1 & l2 & rest & L).
    rewrite (launch_accepted e arg content l1 l2 rest L H), <- C.
    apply schedulability_gate_invariant, start_tasks_invariant.
    destruct (num_tasks_of_exact _ (count_lines_range content) H) as [_ E].
    pose proof (count_lines_le content) as B. rewrite L in B.
    pose proof (num_tasks_of_range (count_lines content)) as R.
    rewrite <- C in E, R. simpl List.length in B. lia.
  - rewrite (launch_rejected e arg content H).
    repeat constructor. apply P_stderr. discriminate.
Qed.

End TraceInvariant.

Lemma launch_barrier_events (e : environment) (arg content : string) :
  Forall (fun ev =>
            match ev with
            | Init_single_use_barrier name n =>
                name = barrier_name /\ n = num_tasks_of (count_lines content)
            | _ => True
            end)
    (trace (launch e arg content)).
Proof.
  apply (launch_invariant _ (num_tasks_of (count_lines content))); auto.
  intros [] H; trivial; contradiction.
Qed.

(** C4.  For a schedule file of [total] lines, [total] within the range of
    the launcher's [unsigned] counter: unless [total >= 2] and [total - 2] is
    divisible by 3 the launcher prints the line-count diagnostic and returns
    the parse error; otherwise the task count is [N = (total - 2) / 3], with
    [3 * N + 2 = total], the launcher goes through the schedulability line to
    the barrier and the [N] turns of the launch loop, and it initialises the
    barrier with [N] when the first line holds 0 or 1.  No run initialises
    the barrier with another count. *)
Theorem C4_line_count (e : environment) (arg content : string) :
  Z.of_nat (List.length (file_lines content)) < 4294967296 ->
  let total := Z.of_nat (List.length (file_lines content)) in
  let N := (total - 2) / 3 in
  (~ (2 <= total /\ (total - 2) mod 3 = 0) ->
   launch e arg content =
     ([Stderr "ERROR: Invalid number of lines in schedule file"],
      inl (Returned (enum_value RT_GOMP_CLUSTERING_LAUNCHER_FILE_PARSE_ERROR))))
  /\ (2 <= total /\ (total - 2) mod 3 = 0 ->
      num_tasks_of (count_lines content) = N
      /\ 3 * N + 2 = total
      /\ exists l1 l2 rest,
           file_lines content = l1 :: l2 :: rest
           /\ launch e arg content = schedulability_gate arg l1 (start_tasks e N rest)
           /\ (extract_unsigned l1 = Some 0 \/ extract_unsigned l1 = Some 1 ->
               In (Init_single_use_barrier barrier_name N)
                 (trace (launch e arg content))))
  /\ (forall name n,
        In (Init_single_use_barrier name n) (trace (launch e arg content)) ->
        name = barrier_name /\ n = N /\ 2 <= total /\ (total - 2) mod 3 = 0).
Proof.
  intros Small total N.
  pose proof (count_lines_small content Small) as C. fold total in C.
  pose proof (count_lines_range content) as R.
  split; [|split].
  - intros Bad. apply launch_rejected.
    destruct (line_count_ok (count_lines content)) eqn:H; [|reflexivity].
    apply (line_count_ok_spec _ R) in H. rewrite C in H. contradiction.
  - intros Good.
    assert (H : line_count_ok (count_lines content) = true)
      by (apply (line_count_ok_spec _ R); rewrite C; exact Good).
    destruct (num_tasks_of_exact _ R H) as [E1 E2]. rewrite C in E1, E2.
    rewrite C. fold N in E1. rewrite E1 in E2.
    split; [exact E1|]. split; [exact E2|].
    destruct (line_count_ok_two_lines _ H) as (l1 & l2 & rest & L).
    exists l1, l2, rest. split; [exact L|].
    pose proof (launch_accepted e arg content l1 l2 rest L H) as A.
    rewrite C, E1 in A. split; [exact A|].
    intros V. rewrite A. unfold schedulability_gate, start_tasks.
    destruct V as [-> | ->]; simpl Z.eqb; cbv iota;
      apply in_trace_emit_bind; right; apply in_trace_emit_bind; left; reflexivity.
  - intros name n I.
    pose proof (launch_barrier_events e arg content) as F.
    rewrite Forall_forall in F. specialize (F _ I). simpl in F.
    destruct F as [-> ->].
    destruct (line_count_ok (count_lines content)) eqn:H.
    + destruct (num_tasks_of_exact _ R H) as [E1 _].
      apply (line_count_ok_spec _ R) in H. rewrite C in H, E1.
      rewrite C. tauto.
    + rewrite (launch_rejected e arg content H) in I. simpl in I.
      destruct I as [I|[]]. discriminate.
Qed.

Lemma C4_line_count_witness :
  Z.of_nat (List.length (file_lines scenario_file)) = 5
  /\ num_tasks_of (count_lines scenario_file) = 1
  /\ In (Init_single_use_barrier barrier_name 1)
       (trace (launch (launcher_process scenario_file) "demo" scenario_file)).
Proof.
  pose proof (C4_line_count (launcher_process scenario_file) "demo" scenario_file
                eq_refl) as [_ [Good _]].
  assert (G : 2 <= 5 /\ (5 - 2) mod 3 = 0) by (split; [discriminate|reflexivity]).
  destruct (Good G) as (N & _ & l1 & l2 & rest & L & _ & B).
  split; [reflexivity|]. split; [exact N|].
  apply B. left. rewrite L in *.
  change (file_lines scenario_file) with
    ["0"; "0-3"; "workerA -x"; "0 0 0 0 1 2 3 4 5 6 7"; "part1 part2 part3"] in L.
  injection L as <- _. reflexivity.
Defined.

(** ** C5: the token counts of the partition and timing lines *)

Lemma parse_abort_eq (e : environment) {A} (text : string) :
  @parse_abort A e text =
    ([Stderr text; Kill 0 SIGTERM],
     inl (after_kill e RT_GOMP_CLUSTERING_LAUNCHER_FILE_PARSE_ERROR)).
Proof. reflexivity. Qed.

(** C5.  The partition code (lines 210-232) accepts a line exactly when it
    has 3 tokens, and then pushes them in order; fewer tokens and more tokens
    print two different messages and abort.  The timing code (lines 234-267)
    accepts a line exactly when it has 11 tokens, and then pushes the last 7
    in order, the first 4 being dropped; fewer (10, say) and more (12, say)
    print a message and abort.  The abort is [kill(0, SIGTERM)] followed by
    the return of the parse error: the process returns it where it outlives
    its own signal ([SIGTERM] ignored or blocked) and is terminated by the
    signal otherwise.  These are the results of the projector on a record
    whose command line names a program, the timing line being looked at once
    the partition line is accepted. *)
Theorem C5_token_counts (e : environment)
    (program_name partition_line timing_line : string)
    (argvector : list string) :
  let partition := tokens partition_line in
  let timing := tokens timing_line in
  let few_partition :=
    "ERROR: Too few partition parameters were provided for task " ++ c_str program_name in
  let many_partition :=
    "ERROR: Too many partition parameters were provided for task " ++ c_str program_name in
  let few_timing :=
    "ERROR: Too few timing parameters were provided for task " ++ c_str program_name in
  let many_timing :=
    "ERROR: Too many timing parameters were provided for task " ++ c_str program_name in
  let ends : outcome :=
    if kill_returns e
    then Returned (enum_value RT_GOMP_CLUSTERING_LAUNCHER_FILE_PARSE_ERROR)
    else Terminated SIGTERM in
  let parse_error text : M (list string) :=
    ([Stderr text; Kill 0 SIGTERM], inl ends) in
  ((exists v, partition_params e program_name partition_line argvector = ret v)
   <-> List.length partition = 3%nat)
  /\ (List.length partition = 3%nat ->
      partition_params e program_name partition_line argvector =
        ret (argvector ++ partition)%list)
  /\ ((List.length partition < 3)%nat ->
      partition_params e program_name partition_line argvector = parse_error few_partition)
  /\ ((List.length partition > 3)%nat ->
      partition_params e program_name partition_line argvector = parse_error many_partition)
  /\ few_partition <> many_partition
  /\ ((exists v, timing_params e program_name timing_line argvector = ret v)
      <-> List.length timing = 11%nat)
  /\ (List.length timing = 11%nat ->
      timing_params e program_name timing_line argvector =
        ret (argvector ++ skipn 4 timing)%list
      /\ List.length (skipn 4 timing) = 7%nat)
  /\ ((List.length timing < 11)%nat ->
      timing_params e program_name timing_line argvector = parse_error few_timing)
  /\ ((List.length timing > 11)%nat ->
      timing_params e program_name timing_line argvector = parse_error many_timing)
  /\ (forall cmd task_args,
        tokens cmd = program_name :: task_args ->
        let record := task_manager_argvector e cmd timing_line partition_line in
        ((List.length partition < 3)%nat ->
         record = ([Stderr few_partition; Kill 0 SIGTERM], inl ends))
        /\ ((List.length partition > 3)%nat ->
            record = ([Stderr many_partition; Kill 0 SIGTERM], inl ends))
        /\ (List.length partition = 3%nat ->
            ((List.length timing < 11)%nat ->
             record = ([Stderr few_timing; Kill 0 SIGTERM], inl ends))
            /\ ((List.length timing > 11)%nat ->
                record = ([Stderr many_timing; Kill 0 SIGTERM], inl ends))
            /\ (List.length timing = 11%nat ->
                record =
                  ret (program_name,
                       ([program_name] ++ partition ++ skipn 4 timing
                          ++ [barrier_name; program_name] ++ task_args)%list)))).
Proof.
  intros partition timing few_partition many_partition few_timing many_timing
    ends parse_error.
  assert (Pp := partition_params_spec e program_name partition_line argvector).
  assert (Pt := timing_params_spec e program_name timing_line argvector).
  fold partition in Pp. fold timing in Pt.
  unfold num_partition_params in Pp.
  unfold num_timing_params, num_skipped_timing_params in Pt.
  rewrite !parse_abort_eq in Pp, Pt.
  change (after_kill e RT_GOMP_CLUSTERING_LAUNCHER_FILE_PARSE_ERROR) with ends in Pp, Pt.
  fold few_partition many_partition in Pp. fold few_timing many_timing in Pt.
  assert (Ap : List.length partition = 3%nat ->
               partition_params e program_name partition_line argvector =
                 ret (argvector ++ partition)%list).
  { intros H. rewrite Pp, H. reflexivity. }
  assert (Fp : (List.length partition < 3)%nat ->
               partition_params e program_name partition_line argvector =
                 parse_error few_partition).
  { intros H. rewrite Pp. apply Nat.ltb_lt in H. rewrite H. reflexivity. }
  assert (Mp : (List.length partition > 3)%nat ->
               partition_params e program_name partition_line argvector =
                 parse_error many_partition).
  { intros H. rewrite Pp.
    destruct (Nat.ltb_spec (List.length partition) 3); [lia|].
    apply Nat.ltb_lt in H. rewrite H. reflexivity. }
  assert (At : List.length timing = 11%nat ->
               timing_params e program_name timing_line argvector =
                 ret (argvector ++ skipn 4 timing)%list).
  { intros H. rewrite Pt, H. reflexivity. }
  assert (Ft : (List.length timing < 11)%nat ->
               timing_params e program_name timing_line argvector =
                 parse_error few_timing).
  { intros H. rewrite Pt. apply Nat.ltb_lt in H. rewrite H. reflexivity. }
  assert (Mt : (List.length timing > 11)%nat ->
               timing_params e program_name timing_line argvector =
                 parse_error many_timing).
  { intros H. rewrite Pt.
    destruct (Nat.ltb_spec (List.length timing) 11); [lia|].
    apply Nat.ltb_lt in H. rewrite H. reflexivity. }
  repeat match goal with |- _ /\ _ => split end;
    try assumption.
  - split; [|intros H; eexists; apply Ap; exact H].
    intros [v H].
    destruct (Nat.lt_trichotomy (List.length partition) 3) as [L|[L|L]];
      [rewrite (Fp L) in H; discriminate|exact L|rewrite (Mp L) in H; discriminate].
  - discriminate.
  - split; [|intros H; eexists; apply At; exact H].
    intros [v H].
    destruct (Nat.lt_trichotomy (List.length timing) 11) as [L|[L|L]];
      [rewrite (Ft L) in H; discriminate|exact L|rewrite (Mt L) in H; discriminate].
  - intros H. split; [apply At; exact H|]. rewrite length_skipn. lia.
  - intros cmd task_args Hc record. unfold record.
    rewrite task_manager_argvector_spec. unfold project_record.
    rewrite Hc. fold partition timing.
    unfold num_partition_params, num_timing_params.
    destruct (Nat.ltb_spec (List.length partition) 3) as [L1|L1];
      [repeat split; intros; first [reflexivity|lia]|].
    destruct (Nat.ltb_spec 3 (List.length partition)) as [L2|L2];
      [repeat split; intros; first [reflexivity|lia]|].
    destruct (Nat.ltb_spec (List.length timing) 11) as [L3|L3];
      [repeat split; intros; first [reflexivity|lia]|].
    destruct (Nat.ltb_spec 11 (List.length timing)) as [L4|L4];
      repeat split; intros; first [reflexivity|lia].
Qed.

Lemma C5_token_counts_witness :
  let e := launcher_process short_timing_file in
  partition_params e "workerA" "part1 part2 part3" ["workerA"] =
    ret ["workerA"; "part1"; "part2"; "part3"]
  /\ timing_params e "workerA" "0 0 0 0 1 2 3 4 5 6 7" [] =
       ret ["1"; "2"; "3"; "4"; "5"; "6"; "7"]
  /\ timing_params e "workerA" "0 0 0 0 1 2 3 4 5 6" [] =
       ([Stderr "ERROR: Too few timing parameters were provided for task workerA";
         Kill 0 SIGTERM],
        inl (Terminated SIGTERM))
  /\ timing_params (ignoring_sigterm e) "workerA" "0 0 0 0 1 2 3 4 5 6" [] =
       ([Stderr "ERROR: Too few timing parameters were provided for task workerA";
         Kill 0 SIGTERM],
        inl (Returned (enum_value RT_GOMP_CLUSTERING_LAUNCHER_FILE_PARSE_ERROR)))
  /\ timing_params (ignoring_sigterm e) "workerA" "0 0 0 0 1 2 3 4 5 6 7 8" [] =
       ([Stderr "ERROR: Too many timing parameters were provided for task workerA";
         Kill 0 SIGTERM],
        inl (Returned (enum_value RT_GOMP_CLUSTERING_LAUNCHER_FILE_PARSE_ERROR))).
Proof.
  intros e.
  destruct (C5_token_counts e "workerA" "part1 part2 part3" "0 0 0 0 1 2 3 4 5 6 7"
              ["workerA"]) as (_ & Ap & _).
  destruct (C5_token_counts e "workerA" "part1 part2 part3" "0 0 0 0 1 2 3 4 5 6 7"
              []) as (_ & _ & _ & _ & _ & _ & At & _).
  destruct (C5_token_counts e "workerA" "part1 part2 part3" "0 0 0 0 1 2 3 4 5 6"
              []) as (_ & _ & _ & _ & _ & _ & _ & Ft & _).
  destruct (C5_token_counts (ignoring_sigterm e) "workerA" "part1 part2 part3"
              "0 0 0 0 1 2 3 4 5 6" []) as (_ & _ & _ & _ & _ & _ & _ & Ft' & _).
  destruct (C5_token_counts (ignoring_sigterm e) "workerA" "part1 part2 part3"
              "0 0 0 0 1 2 3 4 5 6 7 8" []) as (_ & _ & _ & _ & _ & _ & _ & _ & Mt & _).
  split; [exact (Ap eq_refl)|].
  split; [exact (proj1 (At eq_refl))|].
  split; [apply Ft; simpl; lia|].
  split; [apply Ft'|apply Mt]; simpl; lia.
Defined.

(** The claim as written promises the parse error for a timing line of ten
    tokens.  The launcher of the scenario, started with the default
    disposition of [SIGTERM], prints the diagnostic, signals its own process
    group and is terminated by that signal: it returns no status. *)
Lemma C5_counterexample :
  List.length (tokens "0 0 0 0 1 2 3 4 5 6") = 10%nat
  /\ main (launcher_process short_timing_file) =
       ([Stderr ("Taskset is schedulable: demo" ++ nl);
         Init_single_use_barrier "RT_GOMP_CLUSTERING_BARRIER" 1;
         Stderr "ERROR: Too few timing parameters were provided for task workerA";
         Kill 0 SIGTERM],
        inl (Terminated SIGTERM))
  /\ snd (main (launcher_process short_timing_file)) <>
       inl (Returned (enum_value RT_GOMP_CLUSTERING_LAUNCHER_FILE_PARSE_ERROR)).
Proof. split; [reflexivity|]. split; [reflexivity|]. discriminate. Qed.

(** ** C6: bringing the schedule up to date *)

(** The wait loop goes on until [wait] returns -1 with [ECHILD], and then
    lets [main] continue. *)
Lemma wait_for_children_spec (waits : list (Z * Z * Z)) :
  wait_for_children waits =
    ((map wait_event (waits_before_echild waits) ++ [Wait (-1) ECHILD])%list, inr tt).
Proof.
  induction waits as [|[[r errno] status] waits IH]; [reflexivity|].
  simpl. destruct (Z.eqb_spec r (-1)) as [->|]; simpl.
  - destruct (Z.eqb_spec errno ECHILD) as [->|]; [reflexivity|].
    rewrite IH. reflexivity.
  - rewrite IH. reflexivity.
Qed.

(** The statuses of the children do not reach the launcher. *)
Lemma wait_for_children_status (waits waits' : list (Z * Z * Z)) :
  map fst waits = map fst waits' ->
  wait_for_children waits = wait_for_children waits'.
Proof.
  revert waits'; induction waits as [|[[r errno] status] waits IH];
    intros [|[[r' errno'] status'] waits'] H; try discriminate; [reflexivity|].
  simpl in H. injection H as <- <- H. simpl. rewrite (IH _ H). reflexivity.
Qed.

(** C6, counterexample.  The derived file is missing and the launcher
    returns without forking for the scheduler. *)
Lemma C6_counterexample :
  schedule_stat nothing_on_disk = None
  /\ main nothing_on_disk =
       ([Stderr "ERROR: Cannot open taskset file: demo.rtpt"],
        inl (Returned (enum_value RT_GOMP_CLUSTERING_LAUNCHER_FILE_OPEN_ERROR)))
  /\ ~ (exists pid, In (Fork pid) (trace (main nothing_on_disk)))
  /\ ~ (exists file args, In (Execvp file args) (trace (main nothing_on_disk))).
Proof.
  split; [reflexivity|]. split; [reflexivity|].
  split; [intros [pid [H|[]]]|intros (file & args & [H|[]])]; discriminate H.
Qed.

(** C6, amended.  The launcher forks for the scheduler script exactly when
    the taskset file exists and the schedule file is missing or strictly older
    than the taskset file.  When both files are missing it prints one
    diagnostic and returns the file-open error: no fork, and the schedule file
    is neither opened nor parsed.  In the child the scheduler is
    [python cluster.py <base name>].  In the parent the launcher calls [wait]
    until it returns -1 with [ECHILD], whatever the statuses of the children,
    and only then goes on to the schedule file. *)
Theorem C6_schedule_freshness (e : environment) (prog arg : string) :
  argv e = [prog; arg] ->
  let derived_missing := schedule_stat e = None in
  let source_newer :=
    exists taskset_mtime schedule_mtime,
      taskset_stat e = Some taskset_mtime /\ schedule_stat e = Some schedule_mtime
      /\ taskset_mtime > schedule_mtime in
  ((exists pid, In (Fork pid) (trace (check_schedule e arg)))
   <-> taskset_stat e <> None /\ (derived_missing \/ source_newer))
  /\ (derived_missing -> taskset_stat e = None ->
      main e =
        ([Stderr ("ERROR: Cannot open taskset file: " ++ c_str (arg ++ ".rtpt"))],
         inl (Returned (enum_value RT_GOMP_CLUSTERING_LAUNCHER_FILE_OPEN_ERROR))))
  /\ (taskset_stat e <> None -> derived_missing \/ source_newer ->
      (scheduler_fork e = 0 ->
       exists tr r,
         check_schedule e arg =
           ((Stderr ("Scheduling taskset " ++ arg ++ " ..." ++ nl) :: Fork 0
               :: Execvp "python" ["python"; "cluster.py"; arg] :: tr)%list, inl r))
      /\ (scheduler_fork e <> 0 -> scheduler_fork e <> -1 ->
          check_schedule e arg =
            ((Stderr ("Scheduling taskset " ++ arg ++ " ..." ++ nl)
               :: Fork (scheduler_fork e)
               :: map wait_event (waits_before_echild (scheduler_waits e))
               ++ [Wait (-1) ECHILD])%list,
             inr tt)
          /\ forall waits,
               map fst waits = map fst (scheduler_waits e) ->
               wait_for_children waits = wait_for_children (scheduler_waits e)))
  /\ (forall content,
        schedule_file e = Some content ->
        main e = (check_schedule e arg ;; launch e arg content)).
Proof.
  intros Ha derived_missing source_newer.
  assert (Cond : schedule_out_of_date e = true <-> derived_missing \/ source_newer).
  { unfold schedule_out_of_date, derived_missing, source_newer.
    destruct (schedule_stat e) as [sm|]; [|tauto].
    destruct (taskset_stat e) as [tm|].
    - rewrite Z.gtb_gt. split.
      + intros H. right. exists tm, sm. auto.
      + intros [H|(tm' & sm' & E1 & E2 & H)]; [discriminate|].
        injection E1 as <-. injection E2 as <-. exact H.
    - split; [discriminate|].
      intros [H|(tm' & sm' & E1 & _)]; discriminate. }
  split; [|split; [|split]].
  - unfold check_schedule.
    destruct (schedule_out_of_date e) eqn:O.
    + destruct (taskset_stat e) as [tm|].
      * split; [intros _; split; [discriminate|apply Cond; reflexivity]|].
        intros _. exists (scheduler_fork e).
        apply in_trace_emit_bind. right. apply in_trace_emit_bind. left. reflexivity.
      * split; [|intros [H _]; contradiction].
        intros [pid [H|[]]]. discriminate H.
    + split; [intros [pid []]|].
      intros [_ H]. apply Cond in H. discriminate.
  - intros Hd Hs. unfold main. rewrite Ha. unfold check_schedule.
    assert (O : schedule_out_of_date e = true) by (apply Cond; left; exact Hd).
    rewrite O, Hs. reflexivity.
  - intros Hs Hc. apply Cond in Hc. unfold check_schedule. rewrite Hc.
    destruct (taskset_stat e) as [tm|]; [|contradiction]. split.
    + intros ->. simpl. destruct (exec_returns e); do 2 eexists; reflexivity.
    + intros H0 H1.
      destruct (Z.eqb_spec (scheduler_fork e) 0); [contradiction|].
      destruct (Z.eqb_spec (scheduler_fork e) (-1)); [contradiction|].
      split; [rewrite wait_for_children_spec; reflexivity|].
      intros waits. apply wait_for_children_status.
  - intros content Hf. exact (main_launch e prog arg content Ha Hf).
Qed.

Lemma C6_schedule_freshness_witness :
  check_schedule schedule_missing "demo" =
    ([Stderr ("Scheduling taskset demo ..." ++ nl); Fork 3999; Wait 3999 0;
      Wait (-1) ECHILD],
     inr tt)
  /\ exists pid, In (Fork pid) (trace (check_schedule schedule_missing "demo")).
Proof.
  pose proof (C6_schedule_freshness schedule_missing "clustering_launcher" "demo"
                eq_refl) as (I & _ & S & _).
  assert (Hs : taskset_stat schedule_missing <> None) by discriminate.
  split.
  - refine (proj1 (proj2 (S Hs (or_introl eq_refl)) _ _)); discriminate.
  - apply I. split; [exact Hs|]. left. reflexivity.
Defined.

(** ** C7: the line count of an accepted schedule *)

(** C7, counterexample.  The launcher accepts this file and runs its one
    task to the end, and the file has four non-empty lines, not [1 * 3 + 2]. *)
Lemma C7_counterexample :
  main (launcher_process empty_core_range_file) =
    ([Stderr ("Taskset is schedulable: demo" ++ nl);
      Init_single_use_barrier barrier_name 1;
      Stderr ("Forking and execv-ing task workerA" ++ nl);
      Fork 4001;
      Stderr ("All tasks started" ++ nl);
      Wait 4001 0;
      Wait (-1) ECHILD;
      Stderr ("All tasks finished" ++ nl)],
     inl (Returned 0))
  /\ num_tasks_of (count_lines empty_core_range_file) = 1
  /\ Z.of_nat (List.length (non_empty_lines empty_core_range_file)) = 4
  /\ num_tasks_of (count_lines empty_core_range_file) * 3 + 2 <>
       Z.of_nat (List.length (non_empty_lines empty_core_range_file)).
Proof. repeat split; try reflexivity. discriminate. Qed.

(** C7, amended.  For every schedule file that gets past the line-count
    check, the number of tasks [N] satisfies [N * 3 + 2 = total], where
    [total] is the number of all lines of the file, empty ones included
    ([total] within the range of the launcher's [unsigned] counter); [N] is
    the count the barrier is initialised with and the number of turns of the
    launch loop. *)
Theorem C7_line_invariant (e : environment) (arg content : string) :
  Z.of_nat (List.length (file_lines content)) < 4294967296 ->
  launch e arg content <>
    ([Stderr "ERROR: Invalid number of lines in schedule file"],
     inl (Returned (enum_value RT_GOMP_CLUSTERING_LAUNCHER_FILE_PARSE_ERROR))) ->
  let N := num_tasks_of (count_lines content) in
  N * 3 + 2 = Z.of_nat (List.length (file_lines content))
  /\ exists l1 l2 records,
       file_lines content = l1 :: l2 :: records
       /\ List.length records = (3 * Z.to_nat N)%nat
       /\ launch e arg content = schedulability_gate arg l1 (start_tasks e N records).
Proof.
  intros Small Accepted N.
  destruct (line_count_ok (count_lines content)) eqn:H;
    [|contradiction (Accepted (launch_rejected e arg content H))].
  destruct (num_tasks_of_exact _ (count_lines_range content) H) as [_ E].
  fold N in E. rewrite (count_lines_small content Small) in E.
  split; [lia|].
  destruct (line_count_ok_two_lines _ H) as (l1 & l2 & records & L).
  exists l1, l2, records. split; [exact L|].
  split; [|exact (launch_accepted e arg content l1 l2 records L H)].
  pose proof (num_tasks_of_range (count_lines content)) as R. fold N in R.
  rewrite L in E. simpl List.length in E. lia.
Qed.

Lemma C7_line_invariant_witness :
  num_tasks_of (count_lines empty_core_range_file) * 3 + 2 = 5
  /\ file_lines empty_core_range_file =
       ["0"; EmptyString; "workerA -x"; "0 0 0 0 1 2 3 4 5 6 7"; "part1 part2 part3"].
Proof.
  split; [|reflexivity].
  refine (proj1 (C7_line_invariant (launcher_process empty_core_range_file) "demo"
                   empty_core_range_file eq_refl _)).
  discriminate.
Defined.

(** ** C8: the core range line is not used *)

Lemma launch_records_with_schedule (e : environment) (content : string) (turns : nat) :
  forall (t : Z) (lines : list string),
    launch_records (with_schedule e content) turns t lines =
      launch_records e turns t lines.
Proof.
  induction turns as [|turns IH]; intros t lines; [reflexivity|].
  simpl. destruct lines as [|c [|tm [|p lines]]]; try reflexivity.
  change (project_record (with_schedule e content) c tm p)
    with (project_record e c tm p).
  destruct (project_record e c tm p) as [tr [o|[program_name argvector]]]; [reflexivity|].
  unfold bind, emit. simpl.
  destruct (task_fork e t =? 0); [reflexivity|].
  destruct (task_fork e t =? -1); [reflexivity|].
  rewrite IH. reflexivity.
Qed.

Lemma launch_with_schedule (e : environment) (arg content c : string) :
  launch (with_schedule e c) arg content = launch e arg content.
Proof.
  rewrite !launch_lines_refines. unfold launch_lines.
  destruct (negb (line_count_ok _)); [reflexivity|].
  destruct (file_lines content) as [|l1 [|l2 records]]; try reflexivity.
  unfold start_tasks. rewrite launch_records_with_schedule. reflexivity.
Qed.

(** C8.  Two schedule files with the same lines except for the content of
    line 2 give the same run: the same events in the same order (so the same
    barrier count and the same argument vectors) and the same end.  A file
    with fewer than two lines ends in the parse error. *)
Theorem C8_core_range_unused (e : environment) (arg content : string) :
  (forall content' l1 l2 l2' records,
     file_lines content = l1 :: l2 :: records ->
     file_lines content' = l1 :: l2' :: records ->
     launch e arg content = launch e arg content'
     /\ main (with_schedule e content) = main (with_schedule e content'))
  /\ ((List.length (file_lines content) < 2)%nat ->
      launch e arg content =
        ([Stderr "ERROR: Invalid number of lines in schedule file"],
         inl (Returned (enum_value RT_GOMP_CLUSTERING_LAUNCHER_FILE_PARSE_ERROR)))).
Proof.
  split.
  - intros content' l1 l2 l2' records L L'.
    assert (E : forall env a, launch env a content = launch env a content').
    { intros env a. rewrite !launch_lines_refines, L, L'. reflexivity. }
    split; [apply E|].
    unfold main. simpl.
    destruct (argv e) as [|prog [|a [|x args]]]; try reflexivity.
    change (check_schedule (with_schedule e content) a)
      with (check_schedule (with_schedule e content') a).
    rewrite !launch_with_schedule, E. reflexivity.
  - intros L. apply launch_rejected.
    destruct (line_count_ok (count_lines content)) eqn:H; [|reflexivity].
    destruct (line_count_ok_two_lines _ H) as (l1 & l2 & rest & E).
    rewrite E in L. simpl in L. lia.
Qed.

Lemma C8_core_range_unused_witness :
  launch (launcher_process scenario_file) "demo" scenario_file =
    launch (launcher_process scenario_file) "demo" empty_core_range_file
  /\ launch (launcher_process scenario_file) "demo" ("0" ++ nl) =
       ([Stderr "ERROR: Invalid number of lines in schedule file"],
        inl (Returned (enum_value RT_GOMP_CLUSTERING_LAUNCHER_FILE_PARSE_ERROR))).
Proof.
  split.
  - exact (proj1 (proj1 (C8_core_range_unused (launcher_process scenario_file) "demo"
                           scenario_file)
                    empty_core_range_file "0" "0-3" EmptyString
                    ["workerA -x"; "0 0 0 0 1 2 3 4 5 6 7"; "part1 part2 part3"]
                    eq_refl eq_refl)).
  - refine (proj2 (C8_core_range_unused (launcher_process scenario_file) "demo"
                     ("0" ++ nl)) _).
    simpl. lia.
Defined.

(** ** C9: the launch loop never misses a line *)

Lemma groups_read_enough (turns : nat) :
  forall ifs : string,
    (3 * turns <= List.length (file_lines ifs))%nat -> groups_read turns ifs = true.
Proof.
  induction turns as [|turns IH]; intros ifs L; [reflexivity|].
  simpl. pose proof (getline3_lines ifs) as G.
  destruct (getline3 ifs) as [[[[c tm] p] ifs']|]; [|lia].
  apply IH. rewrite G in L. simpl in L. lia.
Qed.

Lemma check_schedule_never_missing_group (e : environment) (arg : string) :
  Forall (fun ev => ev <> Stderr missing_group_diagnostic) (trace (check_schedule e arg)).
Proof.
  unfold check_schedule.
  destruct (schedule_out_of_date e); [|constructor].
  destruct (taskset_stat e).
  - apply Forall_trace_emit_bind; [discriminate|].
    apply Forall_trace_emit_bind; [discriminate|].
    destruct (scheduler_fork e =? 0).
    + apply Forall_trace_emit_bind; [discriminate|].
      destruct (exec_returns e); repeat constructor. discriminate.
    + destruct (scheduler_fork e =? -1); [repeat constructor; discriminate|].
      apply wait_for_children_invariant. intros ev H. destruct ev; try discriminate.
      contradiction.
  - repeat constructor. simpl. discriminate.
Qed.

(** C9.  No run of the launcher prints the diagnostic of the missing-line
    branch (lines 313-318): no run takes that branch.  On a file that passes
    the line-count check, after the two header lines, the three lines of each
    of the [N] tasks can be read. *)
Theorem C9_missing_line_unreachable (e : environment) (arg content : string) :
  ~ In (Stderr "ERROR: Provide three lines for each task in the schedule (.rtps) file")
      (trace (launch e arg content))
  /\ ~ In (Stderr "ERROR: Provide three lines for each task in the schedule (.rtps) file")
         (trace (main e))
  /\ (line_count_ok (count_lines content) = true ->
      exists schedulability_line core_range_line ifs1 ifs2,
        getline content = Some (schedulability_line, ifs1)
        /\ getline ifs1 = Some (core_range_line, ifs2)
        /\ groups_read (Z.to_nat (num_tasks_of (count_lines content))) ifs2 = true).
Proof.
  assert (Launch : forall env a c,
            Forall (fun ev => ev <> Stderr missing_group_diagnostic)
              (trace (launch env a c))).
  { intros env a c.
    apply (launch_invariant _ (num_tasks_of (count_lines c)));
      [intros text H E; injection E as E; contradiction
      |discriminate
      |intros ev H; destruct ev; try discriminate; contradiction
      |reflexivity]. }
  split; [|split].
  - intros I. pose proof (Launch e arg content) as F.
    rewrite Forall_forall in F. exact (F _ I eq_refl).
  - intros I.
    assert (F : Forall (fun ev => ev <> Stderr missing_group_diagnostic) (trace (main e))).
    { unfold main.
      destruct (argv e) as [|prog [|a [|x args]]];
        try (repeat constructor; discriminate).
      apply Forall_trace_bind; [apply check_schedule_never_missing_group|].
      intros _ _. destruct (schedule_file e) as [c|]; [apply Launch|].
      repeat constructor. discriminate. }
    rewrite Forall_forall in F. exact (F _ I eq_refl).
  - intros H.
    destruct (line_count_ok_two_lines _ H) as (l1 & l2 & rest & L).
    destruct (file_lines_cons _ _ _ L) as (ifs1 & G1 & L1).
    destruct (file_lines_cons _ _ _ L1) as (ifs2 & G2 & L2).
    exists l1, l2, ifs1, ifs2. split; [exact G1|]. split; [exact G2|].
    apply groups_read_enough. rewrite L2.
    destruct (num_tasks_of_exact _ (count_lines_range content) H) as [_ E].
    pose proof (count_lines_le content) as B. rewrite L in B.
    pose proof (num_tasks_of_range (count_lines content)) as R.
    simpl List.length in B. lia.
Qed.

Lemma C9_missing_line_unreachable_witness :
  exists ifs,
    groups_read 1 ifs = true
    /\ getline3 ifs =
         Some ("workerA -x", "0 0 0 0 1 2 3 4 5 6 7", "part1 part2 part3", EmptyString).
Proof.
  destruct (proj2 (proj2 (C9_missing_line_unreachable
                            (launcher_process scenario_file) "demo" scenario_file))
              eq_refl)
    as (l1 & l2 & ifs1 & ifs2 & G1 & G2 & R).
  exists ifs2. split; [exact R|].
  injection G1 as _ <-. injection G2 as _ <-. reflexivity.
Defined.

(** ** C10: the tokens are counted, never read as numbers *)

Lemma c_str_nul_free (s : string) : nul_free s = true -> c_str s = s.
Proof.
  induction s as [|c s IH]; [reflexivity|].
  simpl. destruct (Ascii.eqb c zero); [discriminate|].
  intros H. rewrite (IH H). reflexivity.
Qed.

Lemma map_c_str_nul_free (l : list string) :
  forallb nul_free l = true -> map c_str l = l.
Proof.
  induction l as [|s l IH]; [reflexivity|].
  simpl. intros H. apply andb_true_iff in H. destruct H as [Hs Hl].
  rewrite (c_str_nul_free s Hs), (IH Hl). reflexivity.
Qed.

(** C10.  The projector accepts a task record exactly when the command line
    has a first token, the partition line 3 tokens and the timing line 11
    tokens: what the tokens are plays no part.  On an accepted record the
    three partition tokens and the last seven timing tokens are in the
    argument vector as they stand in the file, at their positions, and the
    child's [execv] receives that vector through [c_str], which changes
    nothing when no token holds a NUL character. *)
Theorem C10_no_numeric_validation (e : environment) (cmd timing part : string) :
  ((exists r, task_manager_argvector e cmd timing part = ret r)
   <-> tokens cmd <> [] /\ List.length (tokens part) = 3%nat
       /\ List.length (tokens timing) = 11%nat)
  /\ (forall program_name task_args,
        tokens cmd = program_name :: task_args ->
        List.length (tokens part) = 3%nat ->
        List.length (tokens timing) = 11%nat ->
        let argvector :=
          ([program_name] ++ tokens part ++ skipn 4 (tokens timing)
             ++ [barrier_name; program_name] ++ task_args)%list in
        task_manager_argvector e cmd timing part = ret (program_name, argvector)
        /\ (forall (turns : nat) (t : Z) (ifs ifs' : string),
              getline3 ifs = Some (cmd, timing, part, ifs') ->
              task_fork e t = 0 ->
              exists notice tr r,
                launch_tasks e (S turns) t ifs =
                  ((Stderr notice :: Fork 0
                      :: Execv (c_str program_name) (map c_str argvector) :: tr)%list,
                   inl r))
        /\ (forallb nul_free argvector = true -> map c_str argvector = argvector)).
Proof.
  assert (S := task_manager_argvector_spec e cmd timing part).
  unfold project_record in S.
  split.
  - rewrite S. destruct (tokens cmd) as [|program_name task_args].
    + split; [intros [r H]; discriminate|intros [H _]; contradiction].
    + destruct (Nat.ltb_spec (List.length (tokens part)) num_partition_params)
        as [L1|L1];
        [split; [intros [r H]; discriminate|intros (_ & H & _); params_lia]|].
      destruct (Nat.ltb_spec num_partition_params (List.length (tokens part)))
        as [L2|L2];
        [split; [intros [r H]; discriminate|intros (_ & H & _); params_lia]|].
      destruct (Nat.ltb_spec (List.length (tokens timing)) num_timing_params)
        as [L3|L3];
        [split; [intros [r H]; discriminate|intros (_ & _ & H); params_lia]|].
      destruct (Nat.ltb_spec num_timing_params (List.length (tokens timing)))
        as [L4|L4];
        [split; [intros [r H]; discriminate|intros (_ & _ & H); params_lia]|].
      split; [intros _|intros _; eexists; reflexivity].
      split; [discriminate|]. split; params_lia.
  - intros program_name task_args Hc Hp Ht argvector.
    assert (P : task_manager_argvector e cmd timing part = ret (program_name, argvector)).
    { rewrite S, Hc, Hp, Ht. reflexivity. }
    split; [exact P|]. split; [|apply map_c_str_nul_free].
    intros turns t ifs ifs' G F.
    rewrite (launch_tasks_turn e turns t ifs ifs' _ _ _ _ _ G P), F. simpl.
    destruct (exec_returns e); do 3 eexists; reflexivity.
Qed.

(** A record whose partition and timing tokens are not numbers. *)
Lemma C10_no_numeric_validation_witness :
  task_manager_argvector (launcher_process scenario_file)
    "workerA -x" "a b c d fast NaN 1e9 -3 0x10 seven ?"
    "core0 cluster-A big.LITTLE" =
    ret ("workerA",
         ["workerA"; "core0"; "cluster-A"; "big.LITTLE";
          "fast"; "NaN"; "1e9"; "-3"; "0x10"; "seven"; "?";
          "RT_GOMP_CLUSTERING_BARRIER"; "workerA"; "-x"]).
Proof.
  exact (proj1 (proj2 (C10_no_numeric_validation (launcher_process scenario_file)
                         "workerA -x"
                         "a b c d fast NaN 1e9 -3 0x10 seven ?"
                         "core0 cluster-A big.LITTLE")
                  "workerA" ["-x"] eq_refl eq_refl eq_refl)).
Defined.

(** * More of the launcher: whole runs *)

Lemma project_well_formed (e : environment) (cmd timing part : string) :
  well_formed (cmd, timing, part) = true ->
  project_record e cmd timing part =
    ret (program_of (cmd, timing, part), argvector_of (cmd, timing, part)).
Proof.
  unfold well_formed, project_record, program_of, argvector_of.
  destruct (tokens cmd) as [|program_name task_args]; [discriminate|].
  intros H. apply andb_true_iff in H. destruct H as [Hp Ht].
  apply Nat.eqb_eq in Hp, Ht. rewrite Hp, Ht. reflexivity.
Qed.

Lemma project_ret_well_formed (e : environment) (cmd timing part program_name : string)
    (argvector : list string) :
  project_record e cmd timing part = ret (program_name, argvector) ->
  well_formed (cmd, timing, part) = true
  /\ program_name = program_of (cmd, timing, part)
  /\ argvector = argvector_of (cmd, timing, part).
Proof.
  unfold well_formed, project_record, program_of, argvector_of.
  destruct (tokens cmd) as [|p task_args]; [discriminate|].
  destruct (Nat.ltb_spec (List.length (tokens part)) num_partition_params) as [L1|L1];
    [discriminate|].
  destruct (Nat.ltb_spec num_partition_params (List.length (tokens part))) as [L2|L2];
    [discriminate|].
  destruct (Nat.ltb_spec (List.length (tokens timing)) num_timing_params) as [L3|L3];
    [discriminate|].
  destruct (Nat.ltb_spec num_timing_params (List.length (tokens timing))) as [L4|L4];
    [discriminate|].
  intros H. injection H as <- <-.
  split; [|split; reflexivity].
  apply andb_true_iff. split; apply Nat.eqb_eq; lia.
Qed.

(** One turn of [launch_records] on a record the projector accepts. *)
Lemma launch_records_turn (e : environment) (turns : nat) (t : Z)
    (cmd timing part program_name : string) (argvector lines : list string) :
  project_record e cmd timing part = ret (program_name, argvector) ->
  launch_records e (S turns) t (cmd :: timing :: part :: lines) =
    (emit (Stderr ("Forking and execv-ing task " ++ c_str program_name ++ nl)) ;;
     emit (Fork (task_fork e t)) ;;
     if task_fork e t =? 0 then
       emit (Execv (c_str program_name) (map c_str argvector)) ;;
       if exec_returns e then
         abort_tasks e (Perror "Execv-ing a new task failed")
           RT_GOMP_CLUSTERING_LAUNCHER_FORK_EXECV_ERROR
       else replaced
     else if task_fork e t =? -1 then
       abort_tasks e (Perror "Forking a new process for task failed")
         RT_GOMP_CLUSTERING_LAUNCHER_FORK_EXECV_ERROR
     else launch_records e turns (t + 1) lines).
Proof. intros P. simpl launch_records. rewrite P, bind_ret_l. reflexivity. Qed.

Lemma creates_child_tests (pid : Z) :
  creates_child pid = true -> (pid =? 0) = false /\ (pid =? -1) = false.
Proof.
  unfold creates_child. intros H. apply andb_true_iff in H.
  destruct H as [H0 H1]. apply negb_true_iff in H0, H1. auto.
Qed.

Lemma prepend_events {A} (ev1 ev2 : event) (m : M A) :
  (emit ev1 ;; emit ev2 ;; m) = ((ev1 :: ev2 :: fst m)%list, snd m).
Proof. destruct m as [tr r]. reflexivity. Qed.

(** The launch loop on well-formed records whose forks all succeed: the
    tasks are created in the order of the file, then the loop goes on with
    the turns and the lines that are left. *)
Lemma launch_records_created (e : environment)
    (records : list (string * string * string)) :
  forall (turns : nat) (t : Z) (rest : list string),
    forallb well_formed records = true ->
    (forall i, 0 <= i < Z.of_nat (List.length records) ->
               creates_child (task_fork e (t + i)) = true) ->
    launch_records e (List.length records + turns) t (record_lines records ++ rest)%list =
      let (tr, r) := launch_records e turns (t + Z.of_nat (List.length records)) rest in
      ((created_tasks e t (map program_of records) ++ tr)%list, r).
Proof.
  induction records as [|[[cmd timing] part] records IH]; intros turns t rest W F.
  - simpl. rewrite Z.add_0_r. destruct (launch_records e turns t rest). reflexivity.
  - simpl in W. apply andb_true_iff in W. destruct W as [W1 W].
    change (well_formed (cmd, timing, part) = true) in W1.
    simpl List.length. simpl record_lines. simpl Nat.add.
    change ((cmd :: timing :: part :: record_lines records) ++ rest)%list
      with (cmd :: timing :: part :: (record_lines records ++ rest))%list.
    rewrite (launch_records_turn e _ t cmd timing part _ _ _ (project_well_formed _ _ _ _ W1)).
    assert (F0 : creates_child (task_fork e t) = true).
    { rewrite <- (Z.add_0_r t). apply F. simpl List.length. lia. }
    destruct (creates_child_tests _ F0) as [T0 T1]. rewrite T0, T1.
    rewrite prepend_events.
    rewrite (IH turns (t + 1) rest W).
    + replace (t + 1 + Z.of_nat (List.length records))
        with (t + Z.of_nat (S (List.length records))) by lia.
      destruct (launch_records e turns _ rest) as [tr r]. reflexivity.
    + intros i Hi. replace (t + 1 + i) with (t + (i + 1)) by lia.
      apply F. simpl List.length. lia.
Qed.

Lemma record_lines_length (records : list (string * string * string)) :
  List.length (record_lines records) = (3 * List.length records)%nat.
Proof.
  induction records as [|[[c tm] p] records IH]; [reflexivity|].
  simpl. rewrite IH. lia.
Qed.

(** X1.  A schedule of [N] well-formed records, with a verdict line that
    parses as 0 or 1, an up-to-date schedule file, a barrier that initialises
    and forks that all succeed: the launcher prints the verdict notice,
    initialises the barrier with [N], creates the [N] tasks in the order of
    the file (notice, then [fork], for tasks 1 to [N]), reaps until [wait]
    reports [ECHILD] and returns 0. *)
Theorem X1_successful_launch (e : environment) (prog arg content verdict core : string)
    (records : list (string * string * string)) (schedulability : Z) :
  argv e = [prog; arg] ->
  schedule_out_of_date e = false ->
  schedule_file e = Some content ->
  file_lines content = verdict :: core :: record_lines records ->
  Z.of_nat (List.length (file_lines content)) < 4294967296 ->
  extract_unsigned verdict = Some schedulability ->
  schedulability = 0 \/ schedulability = 1 ->
  init_single_use_barrier_ret e = 0 ->
  forallb well_formed records = true ->
  (forall t, 1 <= t <= Z.of_nat (List.length records) ->
             creates_child (task_fork e t) = true) ->
  main e =
    ((Stderr (verdict_notice arg schedulability)
        :: Init_single_use_barrier barrier_name (Z.of_nat (List.length records))
        :: created_tasks e 1 (map program_of records)
        ++ reaper_events e)%list,
     inl (Returned 0)).
Proof.
  intros Ha Ho Hf L Small V V01 B W F.
  rewrite (main_up_to_date e prog arg content Ha Ho Hf).
  pose proof (count_lines_small content Small) as C.
  rewrite L in C. simpl List.length in C. rewrite record_lines_length in C.
  assert (Ok : line_count_ok (count_lines content) = true).
  { apply (line_count_ok_spec _ (count_lines_range content)). rewrite C.
    split; [lia|].
    replace (Z.of_nat (S (S (3 * List.length records))) - 2)
      with (Z.of_nat (List.length records) * 3) by lia.
    apply Z.mod_mul. lia. }
  destruct (num_tasks_of_exact _ (count_lines_range content) Ok) as [_ E].
  assert (N : num_tasks_of (count_lines content) = Z.of_nat (List.length records))
    by lia.
  rewrite (launch_accepted e arg content verdict core _ L Ok), N.
  unfold schedulability_gate. rewrite V.
  assert (G : launch_records e (Z.to_nat (Z.of_nat (List.length records))) 1
                (record_lines records) =
              (created_tasks e 1 (map program_of records), inr tt)).
  { rewrite Nat2Z.id.
    pose proof (launch_records_created e records 0 1 [] W) as R.
    rewrite Nat.add_0_r, app_nil_r in R. rewrite R.
    - unfold launch_records, ret. rewrite app_nil_r. reflexivity.
    - intros i Hi. apply F. lia. }
  assert (S : start_tasks e (Z.of_nat (List.length records)) (record_lines records) =
              ((Init_single_use_barrier barrier_name (Z.of_nat (List.length records))
                  :: created_tasks e 1 (map program_of records)
                  ++ reaper_events e)%list,
               inl (Returned 0))).
  { unfold start_tasks. rewrite B, G. simpl negb. cbv iota.
    rewrite wait_for_children_spec. unfold reaper_events, bind, emit. simpl.
    rewrite ?app_nil_r, <- ?app_assoc. reflexivity. }
  rewrite S. unfold verdict_notice.
  destruct V01 as [-> | ->]; reflexivity.
Qed.

Lemma X1_successful_launch_witness :
  main (launcher_process two_task_file) =
    ([Stderr ("WARNING: Taskset may not be schedulable: demo" ++ nl);
      Init_single_use_barrier barrier_name 2;
      Stderr ("Forking and execv-ing task workerA" ++ nl); Fork 4001;
      Stderr ("Forking and execv-ing task workerB" ++ nl); Fork 4002;
      Stderr ("All tasks started" ++ nl);
      Wait 4001 0; Wait (-1) ECHILD;
      Stderr ("All tasks finished" ++ nl)],
     inl (Returned 0)).
Proof.
  refine (X1_successful_launch (launcher_process two_task_file)
            "clustering_launcher" "demo" two_task_file "  +01 # marginal" "0-7"
            two_task_records 1
            eq_refl eq_refl eq_refl eq_refl eq_refl eq_refl (or_intror eq_refl)
            eq_refl eq_refl _).
  intros t Ht. change (1 <= t <= 2) in Ht.
  change (negb (4000 + t =? 0) && negb (4000 + t =? -1) = true).
  apply andb_true_iff. split; apply negb_true_iff, Z.eqb_neq; lia.
Defined.

(** ** The shape of every run of the launch loop *)

(** A turn that does not create a task ends the run, whatever the number of
    turns left. *)
Lemma launch_records_last_turn (e : environment) (turns : nat) (t : Z)
    (lines : list string) (tr : list event) (o : outcome) :
  launch_records e 1 t lines = (tr, inl o) ->
  launch_records e (S turns) t lines = (tr, inl o).
Proof.
  destruct lines as [|c [|tm [|p lines]]]; try (simpl; intros H; exact H).
  destruct (project_record_cases e c tm p) as [[text P]|(prog & vec & P)].
  - simpl. rewrite P. intros H. exact H.
  - rewrite !(launch_records_turn e _ t c tm p prog vec lines P).
    destruct (task_fork e t =? 0); [intros H; exact H|].
    destruct (task_fork e t =? -1); [intros H; exact H|].
    rewrite !prepend_events. simpl. discriminate.
Qed.

(** Every run of the launch loop creates the tasks of a number of
    well-formed records, in order, and then either has used all its turns or
    ends in a turn that creates no task. *)
Lemma launch_records_shape (e : environment) (turns : nat) :
  forall (t : Z) (lines : list string) (tr : list event) (r : outcome + unit),
    launch_records e turns t lines = (tr, r) ->
    exists (records : list (string * string * string)) (rest : list string)
           (last : list event),
      lines = (record_lines records ++ rest)%list
      /\ forallb well_formed records = true
      /\ (forall i, 0 <= i < Z.of_nat (List.length records) ->
                    creates_child (task_fork e (t + i)) = true)
      /\ tr = (created_tasks e t (map program_of records) ++ last)%list
      /\ ((List.length records = turns /\ last = [] /\ r = inr tt)
          \/ ((List.length records < turns)%nat
              /\ exists o,
                   r = inl o
                   /\ launch_records e 1 (t + Z.of_nat (List.length records)) rest =
                        (last, inl o))).
Proof.
  induction turns as [|turns IH]; intros t lines tr r H.
  - simpl in H. injection H as <- <-.
    exists [], lines, []. repeat split; auto.
    intros i Hi. simpl in Hi. lia.
  - assert (Stop : forall o, launch_records e 1 t lines = (tr, inl o) -> r = inl o ->
              exists (records : list (string * string * string)) (rest : list string)
                     (last : list event),
                lines = (record_lines records ++ rest)%list
                /\ forallb well_formed records = true
                /\ (forall i, 0 <= i < Z.of_nat (List.length records) ->
                              creates_child (task_fork e (t + i)) = true)
                /\ tr = (created_tasks e t (map program_of records) ++ last)%list
                /\ ((List.length records = S turns /\ last = [] /\ r = inr tt)
                    \/ ((List.length records < S turns)%nat
                        /\ exists o,
                             r = inl o
                             /\ launch_records e 1 (t + Z.of_nat (List.length records))
                                  rest = (last, inl o)))).
    { intros o H1 ->. exists [], lines, tr. repeat split; auto.
      - intros i Hi. simpl in Hi. lia.
      - right. split; [simpl; lia|]. exists o. rewrite Z.add_0_r. auto. }
    destruct lines as [|c [|tm [|p lines]]];
      try (simpl in H; injection H as <- <-; eapply Stop; reflexivity).
    destruct (project_record_cases e c tm p) as [[text P]|(prog & vec & P)].
    + simpl in H. rewrite P in H. injection H as <- <-.
      eapply Stop; [simpl; rewrite P|]; reflexivity.
    + rewrite (launch_records_turn e _ t c tm p prog vec lines P) in H.
      pose proof (launch_records_turn e 0 t c tm p prog vec lines P) as H1.
      destruct (task_fork e t =? 0) eqn:T0.
      { destruct (exec_returns e); injection H as <- <-;
          (eapply Stop; [exact H1|reflexivity]). }
      destruct (task_fork e t =? -1) eqn:T1.
      { injection H as <- <-. eapply Stop; [exact H1|reflexivity]. }
      clear H1 Stop. rewrite prepend_events in H.
      destruct (launch_records e turns (t + 1) lines) as [tr' r'] eqn:R.
      simpl in H. injection H as <- <-.
      destruct (IH _ _ _ _ R) as (records & rest & last & -> & W & F & -> & E).
      destruct (project_ret_well_formed _ _ _ _ _ _ P) as (W1 & -> & _).
      exists ((c, tm, p) :: records), rest, last.
      split; [reflexivity|]. split; [simpl; rewrite W; apply andb_true_iff; auto|].
      split; [|split; [reflexivity|]].
      * intros i Hi. destruct (Z.eq_dec i 0) as [->|Ne].
        -- rewrite Z.add_0_r. unfold creates_child. rewrite T0, T1. reflexivity.
        -- replace (t + i) with (t + 1 + (i - 1)) by lia. apply F.
           simpl List.length in Hi. lia.
      * simpl List.length.
        replace (t + Z.of_nat (S (List.length records)))
          with (t + 1 + Z.of_nat (List.length records)) by lia.
        destruct E as [(E1 & E2 & E3)|(E1 & o & E2 & E3)].
        -- left. auto.
        -- right. split; [lia|]. exists o. auto.
Qed.

(** The four ways a turn can end the run. *)
Lemma launch_records_stop (e : environment) (t : Z) (lines : list string)
    (last : list event) (o : outcome) :
  launch_records e 1 t lines = (last, inl o) ->
  (exists text,
     last = [Stderr text; Kill 0 SIGTERM]
     /\ o = after_kill e RT_GOMP_CLUSTERING_LAUNCHER_FILE_PARSE_ERROR
     /\ match lines with
        | c :: tm :: p :: _ => well_formed (c, tm, p) = false
        | _ => True
        end)
  \/ (exists c tm p lines',
        lines = c :: tm :: p :: lines'
        /\ well_formed (c, tm, p) = true
        /\ let notice :=
             Stderr ("Forking and execv-ing task " ++ c_str (program_of (c, tm, p)) ++ nl) in
           let exec :=
             Execv (c_str (program_of (c, tm, p))) (map c_str (argvector_of (c, tm, p))) in
           (task_fork e t = -1
            /\ last = [notice; Fork (-1);
                       Perror "Forking a new process for task failed"; Kill 0 SIGTERM]
            /\ o = after_kill e RT_GOMP_CLUSTERING_LAUNCHER_FORK_EXECV_ERROR)
           \/ (task_fork e t = 0 /\ exec_returns e = true
               /\ last = [notice; Fork 0; exec;
                          Perror "Execv-ing a new task failed"; Kill 0 SIGTERM]
               /\ o = after_kill e RT_GOMP_CLUSTERING_LAUNCHER_FORK_EXECV_ERROR)
           \/ (task_fork e t = 0 /\ exec_returns e = false
               /\ last = [notice; Fork 0; exec]
               /\ o = Image_replaced)).
Proof.
  intros H.
  destruct lines as [|c [|tm [|p lines]]];
    try (simpl in H; injection H as <- <-; left; eexists; repeat split; reflexivity).
  destruct (project_record_cases e c tm p) as [[text P]|(prog & vec & P)].
  - simpl in H. rewrite P in H. injection H as <- <-.
    left. exists text. repeat split.
    destruct (well_formed (c, tm, p)) eqn:W; [|reflexivity].
    rewrite (project_well_formed _ _ _ _ W) in P. discriminate.
  - rewrite (launch_records_turn e 0 t c tm p prog vec lines P) in H.
    destruct (project_ret_well_formed _ _ _ _ _ _ P) as (W & -> & ->).
    right. exists c, tm, p, lines. split; [reflexivity|]. split; [exact W|].
    destruct (Z.eqb_spec (task_fork e t) 0) as [T0|T0].
    + rewrite T0 in *. destruct (exec_returns e); injection H as <- <-.
      * right; left. repeat split.
      * right; right. repeat split.
    + destruct (Z.eqb_spec (task_fork e t) (-1)) as [T1|T1].
      * rewrite T1 in *. injection H as <- <-. left. repeat split.
      * simpl in H. discriminate.
Qed.

(** What [start_tasks] makes of the run of the launch loop. *)
Lemma start_tasks_run (e : environment) (num_tasks : Z) (lines : list string)
    (tr : list event) (r : outcome + unit) :
  init_single_use_barrier_ret e = 0 ->
  launch_records e (Z.to_nat num_tasks) 1 lines = (tr, r) ->
  start_tasks e num_tasks lines =
    match r with
    | inl o => (Init_single_use_barrier barrier_name num_tasks :: tr, inl o)
    | inr _ =>
        ((Init_single_use_barrier barrier_name num_tasks :: tr ++ reaper_events e)%list,
         inl (Returned 0))
    end.
Proof.
  intros B R. unfold start_tasks. rewrite B, R. simpl negb. cbv iota.
  destruct r as [o|[]]; [reflexivity|].
  rewrite wait_for_children_spec. unfold reaper_events, bind, emit. simpl.
  rewrite ?app_nil_r, <- ?app_assoc. reflexivity.
Qed.

Lemma start_tasks_barrier_failure (e : environment) (num_tasks : Z)
    (lines : list string) :
  init_single_use_barrier_ret e <> 0 ->
  start_tasks e num_tasks lines =
    ([Init_single_use_barrier barrier_name num_tasks;
      Stderr "ERROR: Failed to initialize barrier"],
     inl (Returned (enum_value RT_GOMP_CLUSTERING_LAUNCHER_BARRIER_INITIALIZATION_ERROR))).
Proof.
  intros B. unfold start_tasks.
  destruct (Z.eqb_spec (init_single_use_barrier_ret e) 0); [contradiction|].
  reflexivity.
Qed.

(** The launcher on an accepted file whose verdict lets it go on. *)
Lemma launch_goes_on (e : environment) (arg content l1 l2 : string)
    (lines : list string) (v : Z) :
  file_lines content = l1 :: l2 :: lines ->
  line_count_ok (count_lines content) = true ->
  extract_unsigned l1 = Some v ->
  v = 0 \/ v = 1 ->
  launch e arg content =
    (Stderr (verdict_notice arg v)
       :: fst (start_tasks e (num_tasks_of (count_lines content)) lines),
     snd (start_tasks e (num_tasks_of (count_lines content)) lines)).
Proof.
  intros L Ok V V01. rewrite (launch_accepted e arg content l1 l2 lines L Ok).
  unfold schedulability_gate, verdict_notice. rewrite V.
  destruct (start_tasks e _ lines) as [tr r].
  destruct V01 as [-> | ->]; reflexivity.
Qed.

(** The ways [launch] can end, with the events of each. *)
Lemma launch_cases (e : environment) (arg content : string) :
  (line_count_ok (count_lines content) = false
   /\ launch e arg content =
        ([Stderr "ERROR: Invalid number of lines in schedule file"],
         inl (Returned (enum_value RT_GOMP_CLUSTERING_LAUNCHER_FILE_PARSE_ERROR))))
  \/ exists l1 l2 lines,
       file_lines content = l1 :: l2 :: lines
       /\ line_count_ok (count_lines content) = true
       /\ ((extract_unsigned l1 = None
            /\ launch e arg content =
                 ([Stderr "ERROR: Schedulability improperly specified"],
                  inl (Returned (enum_value RT_GOMP_CLUSTERING_LAUNCHER_FILE_PARSE_ERROR))))
           \/ (exists v,
                 extract_unsigned l1 = Some v /\ v <> 0 /\ v <> 1
                 /\ launch e arg content =
                      ([Stderr ("ERROR: Taskset NOT schedulable: " ++ arg)],
                       inl (Returned
                              (enum_value RT_GOMP_CLUSTERING_LAUNCHER_UNSCHEDULABLE_ERROR))))
           \/ (exists v,
                 extract_unsigned l1 = Some v /\ (v = 0 \/ v = 1)
                 /\ init_single_use_barrier_ret e <> 0
                 /\ launch e arg content =
                      ([Stderr (verdict_notice arg v);
                        Init_single_use_barrier barrier_name
                          (num_tasks_of (count_lines content));
                        Stderr "ERROR: Failed to initialize barrier"],
                       inl (Returned
                              (enum_value
                                 RT_GOMP_CLUSTERING_LAUNCHER_BARRIER_INITIALIZATION_ERROR))))
           \/ (exists v tr r,
                 extract_unsigned l1 = Some v /\ (v = 0 \/ v = 1)
                 /\ init_single_use_barrier_ret e = 0
                 /\ launch_records e (Z.to_nat (num_tasks_of (count_lines content))) 1
                      lines = (tr, r)
                 /\ launch e arg content =
                      match r with
                      | inl o =>
                          (Stderr (verdict_notice arg v)
                             :: Init_single_use_barrier barrier_name
                                  (num_tasks_of (count_lines content))
                             :: tr,
                           inl o)
                      | inr _ =>
                          ((Stderr (verdict_notice arg v)
                              :: Init_single_use_barrier barrier_name
                                   (num_tasks_of (count_lines content))
                              :: tr ++ reaper_events e)%list,
                           inl (Returned 0))
                      end)).
Proof.
  destruct (line_count_ok (count_lines content)) eqn:Ok;
    [|left; split; [reflexivity|exact (launch_rejected e arg content Ok)]].
  right. destruct (line_count_ok_two_lines _ Ok) as (l1 & l2 & lines & L).
  exists l1, l2, lines. split; [exact L|]. split; [reflexivity|].
  pose proof (launch_accepted e arg content l1 l2 lines L Ok) as A.
  destruct (extract_unsigned l1) as [v|] eqn:V.
  - assert (D : v = 0 \/ v = 1 \/ (v <> 0 /\ v <> 1)) by lia.
    destruct D as [D|[D|[D0 D1]]].
    + right; right. pose proof (launch_goes_on e arg content l1 l2 lines v L Ok V
                                  (or_introl D)) as G.
      destruct (Z.eq_dec (init_single_use_barrier_ret e) 0) as [B|B].
      * right. destruct (launch_records e _ 1 lines) as [tr r] eqn:R.
        exists v, tr, r. repeat split; auto.
        rewrite G, (start_tasks_run e _ lines tr r B R). destruct r; reflexivity.
      * left. exists v. repeat split; auto.
        rewrite G, (start_tasks_barrier_failure e _ lines B). reflexivity.
    + right; right. pose proof (launch_goes_on e arg content l1 l2 lines v L Ok V
                                  (or_intror D)) as G.
      destruct (Z.eq_dec (init_single_use_barrier_ret e) 0) as [B|B].
      * right. destruct (launch_records e _ 1 lines) as [tr r] eqn:R.
        exists v, tr, r. repeat split; auto.
        rewrite G, (start_tasks_run e _ lines tr r B R). destruct r; reflexivity.
      * left. exists v. repeat split; auto.
        rewrite G, (start_tasks_barrier_failure e _ lines B). reflexivity.
    + right; left. exists v. repeat split; auto.
      rewrite A. unfold schedulability_gate. rewrite V.
      destruct (Z.eqb_spec v 0); [contradiction|].
      destruct (Z.eqb_spec v 1); [contradiction|]. reflexivity.
  - left. split; [reflexivity|]. rewrite A. unfold schedulability_gate.
    rewrite V. reflexivity.
Qed.



(** X3.  A process that runs [main] ends as another program only in this
    way: the verdict and the barrier were passed, the forks of the first [k]
    records (all well formed) returned pids, the [fork] of the next one
    returned 0, and the last call is [execv] on the program of that record
    with the argument vector of that record.  No task is started with the
    parameters of another. *)
Theorem X3_child_runs_its_record (e : environment) (arg content : string)
    (tr : list event) :
  launch e arg content = (tr, inl Image_replaced) ->
  exists verdict core records record rest v,
    file_lines content =
      (verdict :: core :: record_lines records ++ record_lines [record] ++ rest)%list
    /\ extract_unsigned verdict = Some v /\ (v = 0 \/ v = 1)
    /\ forallb well_formed records = true
    /\ well_formed record = true
    /\ (forall t, 1 <= t <= Z.of_nat (List.length records) ->
                  creates_child (task_fork e t) = true)
    /\ task_fork e (1 + Z.of_nat (List.length records)) = 0
    /\ Z.of_nat (List.length records) < num_tasks_of (count_lines content)
    /\ tr = (Stderr (verdict_notice arg v)
               :: Init_single_use_barrier barrier_name
                    (num_tasks_of (count_lines content))
               :: created_tasks e 1 (map program_of records)
               ++ [Stderr ("Forking and execv-ing task "
                           ++ c_str (program_of record) ++ nl);
                   Fork 0;
                   Execv (c_str (program_of record))
                     (map c_str (argvector_of record))])%list.
Proof.
  intros H.
  destruct (launch_cases e arg content)
    as [[_ E]|(l1 & l2 & lines & L & Ok & [[_ E]|[(v & _ & _ & _ & E)
         |[(v & _ & _ & _ & E)|(v & tr' & r & V & V01 & B & R & E)]]])];
    try (rewrite E in H; discriminate H).
  rewrite E in H.
  destruct (launch_records_shape e _ _ _ _ _ R)
    as (records & rest & last & -> & W & F & -> & St).
  pose proof (num_tasks_of_range (count_lines content)) as Rg.
  destruct St as [(N & -> & ->)|(Lt & o & -> & St)]; [discriminate H|].
  injection H as <- ->.
  destruct (launch_records_stop e _ _ _ _ St)
    as [(text & _ & X & _)|(c & tm & p & lines' & -> & W1 & [(_ & _ & X)
         |[(_ & _ & _ & X)|(T0 & _ & -> & _)]])];
    try after_kill_absurd X.
  exists l1, l2, records, (c, tm, p), lines', v.
  repeat split; auto.
  - intros t Ht. replace t with (1 + (t - 1)) by lia. apply F. lia.
  - lia.
Qed.

Lemma X3_child_runs_its_record_witness :
  launch (second_child two_task_file) "demo" two_task_file =
    ([Stderr ("WARNING: Taskset may not be schedulable: demo" ++ nl);
      Init_single_use_barrier barrier_name 2;
      Stderr ("Forking and execv-ing task workerA" ++ nl); Fork 4001;
      Stderr ("Forking and execv-ing task workerB" ++ nl); Fork 0;
      Execv "workerB"
        ["workerB"; "p"; "q"; "r"; "a"; "b"; "c"; "d"; "e"; "f"; "g";
         "RT_GOMP_CLUSTERING_BARRIER"; "workerB"]],
     inl Image_replaced)
  /\ exists records : list (string * string * string),
       forallb well_formed records = true
       /\ task_fork (second_child two_task_file) (1 + Z.of_nat (List.length records)) = 0.
Proof.
  split; [reflexivity|].
  destruct (X3_child_runs_its_record (second_child two_task_file) "demo"
              two_task_file _ eq_refl)
    as (verdict & core & records & record & rest & v & _ & _ & _ & W & _ & _ & T0 & _).
  exists records. split; [exact W|exact T0].
Defined.

(** ** Signals *)

Lemma created_tasks_no_kill (e : environment) (program_names : list string) :
  forall t, no_kill (created_tasks e t program_names).
Proof.
  induction program_names as [|p ps IH]; intros t; simpl.
  - constructor.
  - repeat constructor. apply IH.
Qed.

Lemma wait_events_no_kill (waits : list (Z * Z * Z)) : no_kill (map wait_event waits).
Proof.
  induction waits as [|[[r errno] status] waits IH]; simpl; constructor; auto.
Qed.

Lemma reaper_events_no_kill (e : environment) : no_kill (reaper_events e).
Proof.
  unfold reaper_events. constructor; [reflexivity|].
  apply Forall_app. split; [apply wait_events_no_kill|repeat constructor].
Qed.

Lemma check_schedule_no_kill (e : environment) (arg : string) :
  no_kill (trace (check_schedule e arg))
  /\ Forall (fun ev => is_init ev = false) (trace (check_schedule e arg)).
Proof.
  unfold check_schedule.
  destruct (schedule_out_of_date e); [|split; constructor].
  destruct (taskset_stat e); [|split; repeat constructor].
  destruct (scheduler_fork e =? 0).
  - destruct (exec_returns e); split; repeat constructor.
  - destruct (scheduler_fork e =? -1); [split; repeat constructor|].
    rewrite wait_for_children_spec. unfold bind, emit, trace. simpl.
    split; repeat constructor; apply Forall_app; split;
      try (repeat constructor; fail).
    + apply wait_events_no_kill.
    + induction (waits_before_echild (scheduler_waits e)) as [|[[r errno] st] ws IH];
        simpl; constructor; auto.
Qed.

Lemma no_kill_in (tr : list event) (pid sig : Z) :
  no_kill tr -> ~ In (Kill pid sig) tr.
Proof.
  intros F I. unfold no_kill in F. rewrite Forall_forall in F.
  specialize (F _ I). discriminate F.
Qed.

(** A run of [launch] either sends no signal, or ends by the broadcast after
    the barrier was initialised, on the way to the return of the parse or the
    fork/exec error. *)
Lemma launch_kill (e : environment) (arg content : string) :
  no_kill (trace (launch e arg content))
  \/ exists before c n,
       launch e arg content =
         ((before ++ [Kill 0 SIGTERM])%list, inl (after_kill e c))
       /\ (c = RT_GOMP_CLUSTERING_LAUNCHER_FILE_PARSE_ERROR
           \/ c = RT_GOMP_CLUSTERING_LAUNCHER_FORK_EXECV_ERROR)
       /\ no_kill before
       /\ In (Init_single_use_barrier barrier_name n) before
       /\ init_single_use_barrier_ret e = 0.
Proof.
  destruct (launch_cases e arg content)
    as [[_ E]|(l1 & l2 & lines & L & Ok & [[_ E]|[(v & _ & _ & _ & E)
         |[(v & _ & _ & _ & E)|(v & tr' & r & V & V01 & B & R & E)]]])];
    try (left; rewrite E; repeat constructor; fail).
  destruct (launch_records_shape e _ _ _ _ _ R)
    as (records & rest & last & -> & W & F & -> & St).
  destruct St as [(N & -> & ->)|(Lt & o & -> & St)].
  - left. rewrite E. unfold trace. simpl. repeat constructor.
    rewrite app_nil_r. apply Forall_app.
    split; [apply created_tasks_no_kill|apply reaper_events_no_kill].
  - set (N := num_tasks_of (count_lines content)) in *.
    set (created := created_tasks e 1 (map program_of records)) in *.
    assert (Pre : no_kill (Stderr (verdict_notice arg v)
                             :: Init_single_use_barrier barrier_name N :: created)).
    { repeat constructor. apply created_tasks_no_kill. }
    assert (Split : forall last0 : list event,
               last = (last0 ++ [Kill 0 SIGTERM])%list ->
               (Stderr (verdict_notice arg v)
                  :: Init_single_use_barrier barrier_name N :: created ++ last)%list =
               ((Stderr (verdict_notice arg v)
                   :: Init_single_use_barrier barrier_name N :: created ++ last0)
                  ++ [Kill 0 SIGTERM])%list).
    { intros last0 ->. simpl. rewrite <- app_assoc. reflexivity. }
    assert (Before : forall last0 : list event,
               no_kill last0 ->
               no_kill (Stderr (verdict_notice arg v)
                          :: Init_single_use_barrier barrier_name N :: created ++ last0)
               /\ In (Init_single_use_barrier barrier_name N)
                    (Stderr (verdict_notice arg v)
                       :: Init_single_use_barrier barrier_name N :: created ++ last0)).
    { intros last0 K. split; [|right; left; reflexivity].
      repeat constructor. apply Forall_app. split; [apply created_tasks_no_kill|exact K]. }
    rewrite E.
    destruct (launch_records_stop e _ _ _ _ St)
      as [(text & -> & -> & _)|(c & tm & p & lines' & -> & W1 & [(_ & -> & ->)
           |[(_ & _ & -> & ->)|(_ & _ & -> & ->)]])].
    + right. eexists _, _, N.
      rewrite (Split [Stderr text] eq_refl).
      split; [reflexivity|]. split; [left; reflexivity|].
      destruct (Before [Stderr text]) as [K I]; [repeat constructor|]. auto.
    + right. eexists _, _, N.
      rewrite (Split [_; _; _] eq_refl).
      split; [reflexivity|]. split; [right; reflexivity|].
      destruct (Before [Stderr ("Forking and execv-ing task "
                                ++ c_str (program_of (c, tm, p)) ++ nl);
                        Fork (-1); Perror "Forking a new process for task failed"])
        as [K I]; [repeat constructor|]. auto.
    + right. eexists _, _, N.
      rewrite (Split [_; _; _; _] eq_refl).
      split; [reflexivity|]. split; [right; reflexivity|].
      destruct (Before [Stderr ("Forking and execv-ing task "
                                ++ c_str (program_of (c, tm, p)) ++ nl);
                        Fork 0;
                        Execv (c_str (program_of (c, tm, p)))
                          (map c_str (argvector_of (c, tm, p)));
                        Perror "Execv-ing a new task failed"])
        as [K I]; [repeat constructor|]. auto.
    + left. unfold trace. simpl. repeat constructor.
      apply Forall_app. split; [apply created_tasks_no_kill|repeat constructor].
Qed.

(** ** C3: the failures of the launch loop and the broadcast of [SIGTERM] *)







(** X4.  The launcher signals at most once, by [kill(0, SIGTERM)] as its
    last act, and only from inside the launch loop: whenever a run of [main]
    holds a [kill], the barrier was initialised before it and the [kill]
    stands before the return of the parse error or of the fork/exec error.
    The process reaches that return where it outlives the signal ([SIGTERM]
    ignored or blocked) and is terminated by the signal otherwise.  The runs
    that end before the loop (bad arguments, files that cannot be opened, a
    failed scheduler step, a rejected line count or verdict, a barrier that
    fails) and the successful ones send no signal. *)
Theorem X4_signal_only_from_the_loop (e : environment) (pid sig : Z) :
  In (Kill pid sig) (trace (main e)) ->
  pid = 0 /\ sig = SIGTERM
  /\ exists before status n,
       main e =
         ((before ++ [Kill 0 SIGTERM])%list,
          inl (if kill_returns e then Returned status else Terminated SIGTERM))
       /\ (status = enum_value RT_GOMP_CLUSTERING_LAUNCHER_FILE_PARSE_ERROR
           \/ status = enum_value RT_GOMP_CLUSTERING_LAUNCHER_FORK_EXECV_ERROR)
       /\ no_kill before
       /\ In (Init_single_use_barrier barrier_name n) before
       /\ init_single_use_barrier_ret e = 0.
Proof.
  intros I.
  assert (D : exists before c n,
             main e = ((before ++ [Kill 0 SIGTERM])%list, inl (after_kill e c))
             /\ (c = RT_GOMP_CLUSTERING_LAUNCHER_FILE_PARSE_ERROR
                 \/ c = RT_GOMP_CLUSTERING_LAUNCHER_FORK_EXECV_ERROR)
             /\ no_kill before
             /\ In (Init_single_use_barrier barrier_name n) before
             /\ init_single_use_barrier_ret e = 0).
  { revert I. unfold main.
    destruct (argv e) as [|prog [|arg [|x args]]];
      try (intros [I|[]]; discriminate I).
    destruct (check_schedule_no_kill e arg) as [K _].
    destruct (check_schedule e arg) as [trc [o|[]]].
    - intros I. exfalso. exact (no_kill_in _ _ _ K I).
    - destruct (schedule_file e) as [content|].
      + destruct (launch_kill e arg content)
          as [K'|(before & c & n & E & S & K' & In' & B)].
        * intros I. exfalso. refine (no_kill_in _ pid sig _ I).
          unfold bind, trace. destruct (launch e arg content) as [trl rl]. simpl.
          apply Forall_app. split; [exact K|exact K'].
        * intros _. exists (trc ++ before)%list, c, n.
          rewrite E. unfold bind. rewrite app_assoc.
          split; [reflexivity|]. split; [exact S|].
          split; [apply Forall_app; split; [exact K|exact K']|].
          split; [apply in_or_app; right; exact In'|exact B].
      + intros I. exfalso. refine (no_kill_in _ pid sig _ I).
        unfold bind, trace. simpl. apply Forall_app. split; [exact K|repeat constructor]. }
  destruct D as (before & c & n & E & S & K & In' & B).
  rewrite E in I. unfold trace in I. simpl in I.
  apply in_app_or in I. destruct I as [I|[I|[]]].
  - exfalso. exact (no_kill_in _ _ _ K I).
  - injection I as <- <-. split; [reflexivity|]. split; [reflexivity|].
    exists before, (enum_value c), n.
    split; [exact E|]. split; [destruct S as [-> | ->]; auto|]. auto.
Qed.

Lemma X4_signal_only_from_the_loop_witness :
  main (second_fork_fails two_task_file) =
    ([Stderr ("WARNING: Taskset may not be schedulable: demo" ++ nl);
      Init_single_use_barrier barrier_name 2;
      Stderr ("Forking and execv-ing task workerA" ++ nl); Fork 4001;
      Stderr ("Forking and execv-ing task workerB" ++ nl); Fork (-1);
      Perror "Forking a new process for task failed";
      Kill 0 SIGTERM],
     inl (Terminated SIGTERM))
  /\ snd (main (ignoring_sigterm (second_fork_fails two_task_file))) =
       inl (Returned (enum_value RT_GOMP_CLUSTERING_LAUNCHER_FORK_EXECV_ERROR))
  /\ exists before n,
       no_kill before /\ In (Init_single_use_barrier barrier_name n) before.
Proof.
  split; [reflexivity|]. split; [reflexivity|].
  assert (I : In (Kill 0 SIGTERM) (trace (main (second_fork_fails two_task_file)))).
  { change (trace (main (second_fork_fails two_task_file))) with
      [Stderr ("WARNING: Taskset may not be schedulable: demo" ++ nl);
       Init_single_use_barrier barrier_name 2;
       Stderr ("Forking and execv-ing task workerA" ++ nl); Fork 4001;
       Stderr ("Forking and execv-ing task workerB" ++ nl); Fork (-1);
       Perror "Forking a new process for task failed";
       Kill 0 SIGTERM].
    do 7 right. left. reflexivity. }
  destruct (X4_signal_only_from_the_loop (second_fork_fails two_task_file) 0 SIGTERM I)
    as (_ & _ & before & status & n & _ & _ & K & In' & _).
  exists before, n. split; assumption.
Defined.

(** ** Exit statuses *)

Lemma wait_events_quiet (q : event -> bool) :
  (forall r errno, q (Wait r errno) = false) ->
  forall waits, Forall (fun ev => q ev = false) (map wait_event waits).
Proof.
  intros Q. induction waits as [|[[r errno] status] waits IH]; simpl; constructor; auto.
Qed.

(** The ways the scheduling step can end. *)
Lemma check_schedule_cases (e : environment) (arg : string) :
  (schedule_out_of_date e = false /\ check_schedule e arg = ([], inr tt))
  \/ (schedule_out_of_date e = true /\ taskset_stat e = None
      /\ check_schedule e arg =
           ([Stderr ("ERROR: Cannot open taskset file: " ++ c_str (arg ++ ".rtpt"))],
            inl (Returned (enum_value RT_GOMP_CLUSTERING_LAUNCHER_FILE_OPEN_ERROR))))
  \/ (schedule_out_of_date e = true /\ taskset_stat e <> None
      /\ let notice := Stderr ("Scheduling taskset " ++ arg ++ " ..." ++ nl) in
         let exec := Execvp "python" ["python"; "cluster.py"; arg] in
         (scheduler_fork e = 0 /\ exec_returns e = true
          /\ check_schedule e arg =
               ([notice; Fork 0; exec; Perror "Execv-ing scheduler script failed"],
                inl (Returned (enum_value RT_GOMP_CLUSTERING_LAUNCHER_FORK_EXECV_ERROR))))
         \/ (scheduler_fork e = 0 /\ exec_returns e = false
             /\ check_schedule e arg = ([notice; Fork 0; exec], inl Image_replaced))
         \/ (scheduler_fork e = -1
             /\ check_schedule e arg =
                  ([notice; Fork (-1);
                    Perror "Forking a new process for scheduler script failed"],
                   inl (Returned
                          (enum_value RT_GOMP_CLUSTERING_LAUNCHER_FORK_EXECV_ERROR))))
         \/ (scheduler_fork e <> 0 /\ scheduler_fork e <> -1
             /\ check_schedule e arg =
                  ((notice :: Fork (scheduler_fork e)
                      :: map wait_event (waits_before_echild (scheduler_waits e))
                      ++ [Wait (-1) ECHILD])%list,
                   inr tt))).
Proof.
  unfold check_schedule.
  destruct (schedule_out_of_date e); [|left; auto].
  destruct (taskset_stat e) as [tm|]; [|right; left; auto].
  right; right. split; [reflexivity|]. split; [discriminate|].
  destruct (Z.eqb_spec (scheduler_fork e) 0) as [F0|F0].
  - rewrite F0. destruct (exec_returns e); [left|right; left]; auto.
  - destruct (Z.eqb_spec (scheduler_fork e) (-1)) as [F1|F1].
    + rewrite F1. right; right; left. auto.
    + right; right; right. split; [exact F0|]. split; [exact F1|].
      rewrite wait_for_children_spec. reflexivity.
Qed.

(** How [launch] can end. *)
Lemma launch_ends (e : environment) (arg content : string) :
  exists o,
    snd (launch e arg content) = inl o
    /\ match o with
       | Returned status =>
           status = 0
           \/ status = enum_value RT_GOMP_CLUSTERING_LAUNCHER_FILE_PARSE_ERROR
           \/ status = enum_value RT_GOMP_CLUSTERING_LAUNCHER_UNSCHEDULABLE_ERROR
           \/ status = enum_value RT_GOMP_CLUSTERING_LAUNCHER_FORK_EXECV_ERROR
           \/ status = enum_value RT_GOMP_CLUSTERING_LAUNCHER_BARRIER_INITIALIZATION_ERROR
       | Image_replaced => exec_returns e = false /\ exists t, 1 <= t /\ task_fork e t = 0
       | Terminated sig =>
           sig = SIGTERM /\ kill_returns e = false
           /\ exists before,
                trace (launch e arg content) = (before ++ [Kill 0 SIGTERM])%list
       end.
Proof.
  destruct (launch_kill e arg content) as [K|(before & c & n & E & C & _)].
  - destruct (launch_cases e arg content)
      as [[_ E]|(l1 & l2 & lines & L & Ok & [[_ E]|[(v & _ & _ & _ & E)
           |[(v & _ & _ & _ & E)|(v & tr' & r & V & V01 & B & R & E)]]])];
      try (rewrite E; eexists; split; [reflexivity|]; simpl; tauto).
    rewrite E in *.
    destruct (launch_records_shape e _ _ _ _ _ R)
      as (records & rest & last & -> & W & F & -> & St).
    destruct St as [(N & -> & ->)|(Lt & o & -> & St)].
    + eexists; split; [reflexivity|]. simpl. tauto.
    + exists o. split; [reflexivity|].
      assert (NK : ~ In (Kill 0 SIGTERM) last).
      { intros I. refine (no_kill_in _ 0 SIGTERM K _). unfold trace. simpl.
        right; right. apply in_or_app. right. exact I. }
      destruct (launch_records_stop e _ _ _ _ St)
        as [(text & -> & _)|(c & tm & p & lines' & _ & _ & [(_ & -> & _)
             |[(_ & _ & -> & _)|(T0 & X & _ & ->)]])];
        try (exfalso; apply NK; simpl; tauto).
      split; [exact X|]. eexists. split; [|exact T0]. lia.
  - rewrite E. exists (after_kill e c). split; [reflexivity|].
    destruct (after_kill_cases e c) as [[_ ->]|[K ->]].
    + destruct C as [-> | ->]; simpl; tauto.
    + split; [reflexivity|]. split; [exact K|]. exists before. reflexivity.
Qed.



(** X6.  [main] returns the argument error exactly when it does not get one
    argument besides the program name, and then it has done nothing but
    print the usage diagnostic: no [stat], no [fork], no file opened. *)
Theorem X6_argument_error (e : environment) :
  (List.length (argv e) <> 2%nat ->
   main e =
     ([Stderr "ERROR: The program must receive a single argument which is the taskset/schedule filename without any extension."],
      inl (Returned (enum_value RT_GOMP_CLUSTERING_LAUNCHER_ARGUMENT_ERROR))))
  /\ (snd (main e) = inl (Returned (enum_value RT_GOMP_CLUSTERING_LAUNCHER_ARGUMENT_ERROR)) ->
      List.length (argv e) <> 2%nat).
Proof.
  unfold main. destruct (argv e) as [|prog [|arg [|x args]]];
    try (split; [reflexivity|discriminate]).
  split; [intros H; contradiction H; reflexivity|].
  intros H. exfalso. revert H.
  destruct (check_schedule_cases e arg)
    as [[_ E]|[(_ & _ & E)|(_ & _ & [(_ & _ & E)|[(_ & _ & E)|[(_ & E)|(_ & _ & E)]]])]];
    rewrite E; try discriminate.
  - destruct (schedule_file e) as [content|]; [|discriminate].
    destruct (launch_ends e arg content) as (o & Eo & Ho).
    unfold bind, ret. destruct (launch e arg content) as [tr r]. simpl in *.
    rewrite Eo. intros H. injection H as ->. simpl in Ho. lia.
  - destruct (schedule_file e) as [content|]; [|discriminate].
    destruct (launch_ends e arg content) as (o & Eo & Ho).
    unfold bind. destruct (launch e arg content) as [tr r]. simpl in *.
    rewrite Eo. intros H. injection H as ->. simpl in Ho. lia.
Qed.

Lemma X6_argument_error_witness :
  main no_argument =
    ([Stderr "ERROR: The program must receive a single argument which is the taskset/schedule filename without any extension."],
     inl (Returned (enum_value RT_GOMP_CLUSTERING_LAUNCHER_ARGUMENT_ERROR))).
Proof.
  refine (proj1 (X6_argument_error no_argument) _). discriminate.
Defined.

(** X7.  [launch] returns the barrier error exactly when the file passes the
    line-count check, the verdict line holds 0 or 1 and
    [init_single_use_barrier] returns a value other than 0; the run is then
    the verdict notice, the call with the task count and the diagnostic:
    no task is forked and no signal is sent. *)
Theorem X7_barrier_failure (e : environment) (arg content : string) :
  (snd (launch e arg content) =
     inl (Returned (enum_value RT_GOMP_CLUSTERING_LAUNCHER_BARRIER_INITIALIZATION_ERROR))
   <-> line_count_ok (count_lines content) = true
       /\ (exists l1 rest v,
             file_lines content = l1 :: rest
             /\ extract_unsigned l1 = Some v /\ (v = 0 \/ v = 1))
       /\ init_single_use_barrier_ret e <> 0)
  /\ (snd (launch e arg content) =
        inl (Returned (enum_value RT_GOMP_CLUSTERING_LAUNCHER_BARRIER_INITIALIZATION_ERROR)) ->
      exists v,
        launch e arg content =
          ([Stderr (verdict_notice arg v);
            Init_single_use_barrier barrier_name (num_tasks_of (count_lines content));
            Stderr "ERROR: Failed to initialize barrier"],
           inl (Returned
                  (enum_value RT_GOMP_CLUSTERING_LAUNCHER_BARRIER_INITIALIZATION_ERROR)))).
Proof.
  assert (Loop : forall turns lines tr r,
            launch_records e turns 1 lines = (tr, r) ->
            r <> inl (Returned
                        (enum_value RT_GOMP_CLUSTERING_LAUNCHER_BARRIER_INITIALIZATION_ERROR))).
  { intros turns lines tr r R.
    destruct (launch_records_shape e _ _ _ _ _ R)
      as (records & rest & last & _ & _ & _ & _ & St).
    destruct St as [(_ & _ & ->)|(_ & o & -> & St)]; [discriminate|].
    destruct (launch_records_stop e _ _ _ _ St)
      as [(text & _ & -> & _)|(c & tm & p & lines' & _ & _ & [(_ & _ & ->)
           |[(_ & _ & _ & ->)|(_ & _ & _ & ->)]])];
      unfold after_kill; try destruct (kill_returns e); discriminate. }
  destruct (launch_cases e arg content)
    as [[Ok E]|(l1 & l2 & lines & L & Ok & [[V E]|[(v & V & V0 & V1 & E)
         |[(v & V & V01 & B & E)|(v & tr' & r & V & V01 & B & R & E)]]])];
    rewrite E; simpl snd.
  - split; [split; [discriminate|]|discriminate].
    intros (Ok' & _). rewrite Ok in Ok'. discriminate.
  - split; [split; [discriminate|]|discriminate].
    intros (_ & (l1' & rest & v & L' & V' & _) & _).
    rewrite L in L'. injection L' as <- _. rewrite V in V'. discriminate.
  - split; [split; [discriminate|]|discriminate].
    intros (_ & (l1' & rest & v' & L' & V' & V01) & _).
    rewrite L in L'. injection L' as <- _. rewrite V in V'. injection V' as <-. lia.
  - split; [split; [intros _|reflexivity]|intros _; exists v; reflexivity].
    split; [exact Ok|]. split; [exists l1, (l2 :: lines), v; auto|exact B].
  - pose proof (Loop _ _ _ _ R) as NotB.
    assert (Ne : snd (match r with
                      | inl o =>
                          (Stderr (verdict_notice arg v)
                             :: Init_single_use_barrier barrier_name
                                  (num_tasks_of (count_lines content)) :: tr',
                           @inl outcome unit o)
                      | inr _ =>
                          ((Stderr (verdict_notice arg v)
                              :: Init_single_use_barrier barrier_name
                                   (num_tasks_of (count_lines content))
                              :: tr' ++ reaper_events e)%list,
                           inl (Returned 0))
                      end) <>
                 inl (Returned
                        (enum_value
                           RT_GOMP_CLUSTERING_LAUNCHER_BARRIER_INITIALIZATION_ERROR))).
    { destruct r as [o|[]]; [exact NotB|discriminate]. }
    split; [split; [intros H; contradiction|]|intros H; contradiction].
    intros (_ & _ & B'). contradiction.
Qed.

Lemma X7_barrier_failure_witness :
  launch (barrier_fails two_task_file) "demo" two_task_file =
    ([Stderr ("WARNING: Taskset may not be schedulable: demo" ++ nl);
      Init_single_use_barrier barrier_name 2;
      Stderr "ERROR: Failed to initialize barrier"],
     inl (Returned (enum_value RT_GOMP_CLUSTERING_LAUNCHER_BARRIER_INITIALIZATION_ERROR)))
  /\ init_single_use_barrier_ret (barrier_fails two_task_file) <> 0.
Proof.
  split; [reflexivity|].
  exact (proj2 (proj2 (proj1 (proj1 (X7_barrier_failure (barrier_fails two_task_file)
                                        "demo" two_task_file))
                         eq_refl))).
Defined.

(** X8.  [main] returns the file-open error exactly in two situations: the
    schedule is out of date and the taskset file is missing; or the
    scheduling step is over (not needed, or forked and waited for) and the
    schedule file cannot be opened.  In both the barrier is not initialised
    and no signal is sent. *)
Theorem X8_file_open_error (e : environment) :
  (snd (main e) = inl (Returned (enum_value RT_GOMP_CLUSTERING_LAUNCHER_FILE_OPEN_ERROR))
   <-> exists prog arg,
         argv e = [prog; arg]
         /\ ((schedule_out_of_date e = true /\ taskset_stat e = None)
             \/ (schedule_file e = None
                 /\ (schedule_out_of_date e = false
                     \/ (taskset_stat e <> None /\ scheduler_fork e <> 0
                         /\ scheduler_fork e <> -1)))))
  /\ (snd (main e) = inl (Returned (enum_value RT_GOMP_CLUSTERING_LAUNCHER_FILE_OPEN_ERROR)) ->
      Forall (fun ev => is_init ev = false) (trace (main e)) /\ no_kill (trace (main e))).
Proof.
  unfold main. destruct (argv e) as [|prog [|arg [|x args]]];
    try (split; [split; [discriminate|intros (p & a & H & _); discriminate H]
                |discriminate]).
  destruct (check_schedule_no_kill e arg) as [K I].
  assert (Launch : forall content (tr : list event),
            snd (bind (tr, @inr outcome unit tt) (fun _ => launch e arg content)) <>
            inl (Returned (enum_value RT_GOMP_CLUSTERING_LAUNCHER_FILE_OPEN_ERROR))).
  { intros content tr. destruct (launch_ends e arg content) as (o & Eo & Ho).
    unfold bind. destruct (launch e arg content) as [trl r]. simpl in *.
    rewrite Eo. intros H. injection H as ->. simpl in Ho. lia. }
  destruct (check_schedule_cases e arg)
    as [[O E]|[(O & T & E)|(O & T & [(F0 & _ & E)|[(F0 & _ & E)|[(F1 & E)|(F0 & F1 & E)]]])]];
    rewrite E in *.
  - destruct (schedule_file e) as [content|] eqn:Sf.
    + split; [split; [intros H; contradiction (Launch content [] H)|]
             |intros H; contradiction (Launch content [] H)].
      intros (p & a & _ & [[O' _]|[S' _]]); [rewrite O in O'|]; discriminate.
    + split; [split; [intros _; exists prog, arg; auto|reflexivity]|].
      intros _. split; repeat constructor.
  - split; [split; [intros _; exists prog, arg; auto|reflexivity]|].
    intros _. split; [exact I|exact K].
  - split; [split; [discriminate|]|discriminate].
    intros (p & a & _ & [[_ T']|[_ [O'|(_ & F0' & _)]]]);
      [contradiction|rewrite O in O'; discriminate|contradiction].
  - split; [split; [discriminate|]|discriminate].
    intros (p & a & _ & [[_ T']|[_ [O'|(_ & F0' & _)]]]);
      [contradiction|rewrite O in O'; discriminate|contradiction].
  - split; [split; [discriminate|]|discriminate].
    intros (p & a & _ & [[_ T']|[_ [O'|(_ & _ & F1')]]]);
      [contradiction|rewrite O in O'; discriminate|contradiction].
  - destruct (schedule_file e) as [content|] eqn:Sf.
    + split; [split; [intros H; contradiction (Launch content _ H)|]
             |intros H; contradiction (Launch content _ H)].
      intros (p & a & _ & [[_ T']|[S' _]]); [contradiction|discriminate].
    + split; [split; [intros _; exists prog, arg; auto 7|reflexivity]|].
      intros _. unfold no_kill. rewrite trace_bind. cbn [snd].
      split; (apply Forall_app; split; [assumption|repeat constructor]).
Qed.

Lemma X8_file_open_error_witness :
  main schedule_unreadable =
    ([Stderr "ERROR: Cannot open schedule file"],
     inl (Returned (enum_value RT_GOMP_CLUSTERING_LAUNCHER_FILE_OPEN_ERROR)))
  /\ no_kill (trace (main schedule_unreadable)).
Proof.
  split; [reflexivity|].
  exact (proj2 (proj2 (X8_file_open_error schedule_unreadable) eq_refl)).
Defined.

(** ** Round trips: writing a schedule and reading it back *)

Lemma string_app_nil_r (s : string) : s ++ EmptyString = s.
Proof. induction s as [|c s IH]; simpl; [|rewrite IH]; reflexivity. Qed.

Lemma string_app_assoc (a b c : string) : (a ++ b) ++ c = a ++ (b ++ c).
Proof. induction a as [|x a IH]; simpl; [|rewrite IH]; reflexivity. Qed.

Lemma tokens_token_app (w s : string) :
  is_token w = true -> starts_word s = false -> tokens (w ++ s) = w :: tokens s.
Proof.
  induction w as [|c w IH]; [discriminate|].
  unfold is_token. simpl no_space. intros H Hs.
  apply andb_true_iff in H. destruct H as [Hc Hw]. apply negb_true_iff in Hc.
  destruct w as [|c' w].
  - change (tokens (String c EmptyString ++ s)) with
      (if isspace c then tokens s
       else if starts_word s then
         match tokens s with
         | x :: xs => String c x :: xs
         | [] => [String c EmptyString]
         end
       else String c EmptyString :: tokens s).
    rewrite Hc, Hs. reflexivity.
  - change (tokens (String c (String c' w) ++ s)) with
      (if isspace c then tokens (String c' w ++ s)
       else if starts_word (String c' w ++ s) then
         match tokens (String c' w ++ s) with
         | x :: xs => String c x :: xs
         | [] => [String c EmptyString]
         end
       else String c EmptyString :: tokens (String c' w ++ s)).
    rewrite Hc, (IH Hw Hs).
    simpl in Hw. apply andb_true_iff in Hw. destruct Hw as [Hc' _].
    simpl starts_word. rewrite Hc'. reflexivity.
Qed.

Lemma tokens_join (ws : list string) :
  forallb is_token ws = true -> tokens (join_tokens ws) = ws.
Proof.
  induction ws as [|w ws IH]; [reflexivity|].
  intros H. simpl in H. apply andb_true_iff in H. destruct H as [Hw Hws].
  destruct ws as [|w' ws].
  - simpl join_tokens. rewrite <- (string_app_nil_r w) at 1.
    rewrite (tokens_token_app w EmptyString Hw eq_refl). reflexivity.
  - change (join_tokens (w :: w' :: ws)) with (w ++ String " " (join_tokens (w' :: ws))).
    rewrite (tokens_token_app w (String " " (join_tokens (w' :: ws))) Hw eq_refl).
    change (tokens (String " " (join_tokens (w' :: ws))))
      with (tokens (join_tokens (w' :: ws))).
    rewrite (IH Hws). reflexivity.
Qed.

(** X9.  A task record written from tokens, one space between two of them,
    is read back to the same tokens, and the projector accepts it when there
    are 3 partition tokens and 11 timing tokens: it returns the program name
    and the vector [program name, partition tokens, timing tokens 5 to 11,
    barrier name, program name, remaining arguments], every token as it was
    written. *)
Theorem X9_record_round_trip (e : environment) (program_name : string)
    (task_args partition timing : list string) :
  forallb is_token (program_name :: task_args) = true ->
  forallb is_token partition = true ->
  forallb is_token timing = true ->
  List.length partition = 3%nat ->
  List.length timing = 11%nat ->
  tokens (join_tokens (program_name :: task_args)) = program_name :: task_args
  /\ tokens (join_tokens partition) = partition
  /\ tokens (join_tokens timing) = timing
  /\ task_manager_argvector e (join_tokens (program_name :: task_args))
       (join_tokens timing) (join_tokens partition) =
       ret (program_name,
            ([program_name] ++ partition ++ skipn 4 timing
               ++ [barrier_name; program_name] ++ task_args)%list).
Proof.
  intros Hc Hp Ht Lp Lt.
  pose proof (tokens_join _ Hc) as Tc.
  pose proof (tokens_join _ Hp) as Tp.
  pose proof (tokens_join _ Ht) as Tt.
  repeat split; try assumption.
  rewrite task_manager_argvector_spec. unfold project_record.
  rewrite Tc, Tp, Tt, Lp, Lt. reflexivity.
Qed.

Lemma X9_record_round_trip_witness :
  join_tokens ["workerA"; "-x"; "input.dat"] = "workerA -x input.dat"
  /\ task_manager_argvector (launcher_process two_task_file)
       "workerA -x input.dat" "0 0 0 0 1 2 3 4 5 6 7" "p q r" =
       ret ("workerA",
            ["workerA"; "p"; "q"; "r"; "1"; "2"; "3"; "4"; "5"; "6"; "7";
             "RT_GOMP_CLUSTERING_BARRIER"; "workerA"; "-x"; "input.dat"]).
Proof.
  split; [reflexivity|].
  exact (proj2 (proj2 (proj2
           (X9_record_round_trip (launcher_process two_task_file)
              "workerA" ["-x"; "input.dat"] ["p"; "q"; "r"]
              ["0"; "0"; "0"; "0"; "1"; "2"; "3"; "4"; "5"; "6"; "7"]
              eq_refl eq_refl eq_refl eq_refl eq_refl)))).
Defined.

Lemma file_lines_line (line s : string) :
  newline_free line = true ->
  file_lines (line ++ String newline s) = line :: file_lines s.
Proof.
  induction line as [|c line IH]; intros H.
  - reflexivity.
  - simpl in H. apply andb_true_iff in H. destruct H as [Hc Hl].
    apply negb_true_iff in Hc.
    change (file_lines (String c line ++ String newline s)) with
      (if is_newline c then EmptyString :: file_lines (line ++ String newline s)
       else match file_lines (line ++ String newline s) with
            | [] => [String c EmptyString]
            | l :: ls => String c l :: ls
            end).
    rewrite Hc, (IH Hl). reflexivity.
Qed.

Lemma file_lines_unterminated (line : string) :
  newline_free line = true -> line <> EmptyString -> file_lines line = [line].
Proof.
  induction line as [|c line IH]; intros H Ne; [contradiction|].
  simpl in H. apply andb_true_iff in H. destruct H as [Hc Hl].
  apply negb_true_iff in Hc.
  destruct line as [|c' line].
  - simpl. rewrite Hc. reflexivity.
  - change (file_lines (String c (String c' line))) with
      (if is_newline c then EmptyString :: file_lines (String c' line)
       else match file_lines (String c' line) with
            | [] => [String c EmptyString]
            | l :: ls => String c l :: ls
            end).
    rewrite Hc, (IH Hl); [reflexivity|discriminate].
Qed.

Lemma file_lines_join (lines : list string) (tail : string) :
  forallb newline_free lines = true ->
  file_lines (join_lines lines ++ tail) = (lines ++ file_lines tail)%list.
Proof.
  induction lines as [|line lines IH]; intros H; [reflexivity|].
  simpl in H. apply andb_true_iff in H. destruct H as [Hl Hls].
  change (join_lines (line :: lines)) with (line ++ String newline (join_lines lines)).
  rewrite string_app_assoc.
  change (String newline (join_lines lines) ++ tail)
    with (String newline (join_lines lines ++ tail)).
  rewrite (file_lines_line _ _ Hl), (IH Hls). reflexivity.
Qed.

(** X10.  A file written as [n] lines, each ended by a newline, is read back
    by [getline] as these [n] lines, empty ones included, and the counting
    loop of line 111 counts [n] (in [unsigned]): the final newline adds no
    line.  A last line without a newline is read and counted as one more
    line. *)
Theorem X10_lines_round_trip (lines : list string) :
  forallb newline_free lines = true ->
  file_lines (join_lines lines) = lines
  /\ count_lines (join_lines lines) = wrap32 (Z.of_nat (List.length lines))
  /\ forall last,
       newline_free last = true -> last <> EmptyString ->
       file_lines (join_lines lines ++ last) = (lines ++ [last])%list
       /\ count_lines (join_lines lines ++ last) =
            wrap32 (Z.of_nat (List.length lines) + 1).
Proof.
  intros H.
  assert (E : file_lines (join_lines lines) = lines).
  { rewrite <- (string_app_nil_r (join_lines lines)), (file_lines_join _ _ H).
    apply app_nil_r. }
  split; [exact E|]. split; [rewrite count_lines_spec, E; reflexivity|].
  intros last Hl Ne.
  assert (E' : file_lines (join_lines lines ++ last) = (lines ++ [last])%list).
  { rewrite (file_lines_join _ _ H), (file_lines_unterminated _ Hl Ne). reflexivity. }
  split; [exact E'|].
  rewrite count_lines_spec, E', length_app. simpl List.length.
  f_equal. lia.
Qed.

Lemma X10_lines_round_trip_witness :
  file_lines (join_lines ["0"; EmptyString; "workerA"]) = ["0"; EmptyString; "workerA"]
  /\ count_lines (join_lines ["0"; EmptyString; "workerA"]) = 3
  /\ count_lines (join_lines ["0"; EmptyString; "workerA"] ++ "tail") = 4.
Proof.
  destruct (X10_lines_round_trip ["0"; EmptyString; "workerA"] eq_refl) as (L & C & U).
  split; [exact L|]. split; [exact C|].
  refine (proj2 (U "tail" eq_refl _)). discriminate.
Defined.

(** ** The verdict line, the wait loop, the line counter and the barrier *)

(** ** C4 beyond the range of the line counter *)

Lemma padded_scenario_lines (n : nat) :
  file_lines (padded_scenario n) =
    ("0" :: "0-3" :: "workerA -x" :: "0 0 0 0 1 2 3 4 5 6 7" :: "part1 part2 part3"
       :: repeat EmptyString n)%list.
Proof.
  unfold padded_scenario.
  rewrite <- (string_app_nil_r (join_lines _)), file_lines_join.
  - apply app_nil_r.
  - rewrite forallb_app. apply andb_true_iff. split; [reflexivity|].
    induction n as [|n IH]; [reflexivity|exact IH].
Qed.

Lemma padded_scenario_total (n : nat) :
  Z.of_nat (List.length (file_lines (padded_scenario n))) = 5 + Z.of_nat n.
Proof.
  rewrite padded_scenario_lines.
  change (Z.of_nat (5 + List.length (repeat EmptyString n)) = 5 + Z.of_nat n).
  rewrite repeat_length. lia.
Qed.

(** The run on the padded scenario when the counter comes back to 5. *)
Lemma padded_scenario_run (n : nat) (content : string) :
  wrap32 (5 + Z.of_nat n) = 5 ->
  launch (launcher_process content) "demo" (padded_scenario n) =
    ([Stderr ("Taskset is schedulable: demo" ++ nl);
      Init_single_use_barrier "RT_GOMP_CLUSTERING_BARRIER" 1;
      Stderr ("Forking and execv-ing task workerA" ++ nl);
      Fork 4001;
      Stderr ("All tasks started" ++ nl);
      Wait 4001 0;
      Wait (-1) ECHILD;
      Stderr ("All tasks finished" ++ nl)],
     inl (Returned 0)).
Proof.
  intros Hw.
  assert (C : count_lines (padded_scenario n) = 5).
  { rewrite count_lines_spec, padded_scenario_total. exact Hw. }
  rewrite (launch_accepted _ _ _ _ _ _ (padded_scenario_lines n)) by (rewrite C; reflexivity).
  rewrite C. reflexivity.
Qed.

(** The claim as written speaks of every schedule file.  The scenario
    followed by [2^32] empty lines has [2^32 + 5] lines, and [2^32 + 3] is
    not divisible by 3; the launcher's [unsigned] counter holds 5, the file
    is accepted, the barrier is initialised with 1 (not with
    [(2^32 + 3) / 3 = 1431655766]) and the run ends with status 0. *)
Lemma C4_counterexample :
  Z.of_nat (List.length (file_lines wrapping_scenario_file)) = 4294967301
  /\ (4294967301 - 2) mod 3 = 1
  /\ (4294967301 - 2) / 3 = 1431655766
  /\ count_lines wrapping_scenario_file = 5
  /\ line_count_ok (count_lines wrapping_scenario_file) = true
  /\ launch (launcher_process wrapping_scenario_file) "demo" wrapping_scenario_file =
       ([Stderr ("Taskset is schedulable: demo" ++ nl);
         Init_single_use_barrier "RT_GOMP_CLUSTERING_BARRIER" 1;
         Stderr ("Forking and execv-ing task workerA" ++ nl);
         Fork 4001;
         Stderr ("All tasks started" ++ nl);
         Wait 4001 0;
         Wait (-1) ECHILD;
         Stderr ("All tasks finished" ++ nl)],
        inl (Returned 0)).
Proof.
  assert (T : Z.of_nat (List.length (file_lines wrapping_scenario_file)) = 4294967301).
  { unfold wrapping_scenario_file. rewrite padded_scenario_total, Z2Nat.id by lia.
    reflexivity. }
  assert (C : count_lines wrapping_scenario_file = 5).
  { rewrite count_lines_spec, T. reflexivity. }
  split; [exact T|]. split; [reflexivity|]. split; [reflexivity|].
  split; [exact C|]. split; [rewrite C; reflexivity|].
  unfold wrapping_scenario_file at 2. apply padded_scenario_run.
  rewrite Z2Nat.id by lia. reflexivity.
Qed.

(** X11.  The run depends on the first line only through what the
    extraction of an [unsigned] makes of it: two schedule files with the same
    other lines and first lines that extract alike (same value, or both
    fail) give the same run, and so do two first lines with values other
    than 0 and 1. *)
Theorem X11_verdict_line_value (e : environment)
    (arg content content' l1 l1' : string) (rest : list string) :
  file_lines content = l1 :: rest ->
  file_lines content' = l1' :: rest ->
  extract_unsigned l1 = extract_unsigned l1'
  \/ (exists v v',
        extract_unsigned l1 = Some v /\ extract_unsigned l1' = Some v'
        /\ v <> 0 /\ v <> 1 /\ v' <> 0 /\ v' <> 1) ->
  launch e arg content = launch e arg content'.
Proof.
  intros L L' H. rewrite !launch_lines_refines, L, L'. unfold launch_lines.
  simpl List.length. destruct (negb (line_count_ok _)); [reflexivity|].
  unfold schedulability_gate.
  destruct H as [->|(v & v' & -> & -> & V0 & V1 & V0' & V1')]; [reflexivity|].
  destruct (Z.eqb_spec v 0); [contradiction|].
  destruct (Z.eqb_spec v 1); [contradiction|].
  destruct (Z.eqb_spec v' 0); [contradiction|].
  destruct (Z.eqb_spec v' 1); [contradiction|]. reflexivity.
Qed.

Lemma X11_verdict_line_value_witness :
  extract_unsigned "  +01 # marginal" = extract_unsigned "1"
  /\ launch (launcher_process two_task_file) "demo" two_task_file =
       launch (launcher_process two_task_file) "demo"
         (join_lines ("1" :: "0-7" :: record_lines two_task_records)).
Proof.
  split; [reflexivity|].
  exact (X11_verdict_line_value (launcher_process two_task_file) "demo" two_task_file
           (join_lines ("1" :: "0-7" :: record_lines two_task_records))
           "  +01 # marginal" "1" ("0-7" :: record_lines two_task_records)
           eq_refl eq_refl (or_introl eq_refl)).
Defined.

(** X12.  The wait loop of lines 97 and 327 calls [wait] until a call
    returns -1 with [errno] equal to [ECHILD]: it goes past every other
    result, a reaped child as well as a failure with another [errno], makes
    one call more than there are such results, and then lets [main] go on. *)
Theorem X12_wait_loop (waits : list (Z * Z * Z)) :
  exists reaped rest,
    waits = (reaped ++ rest)%list
    /\ Forall (fun w => no_more_children w = false) reaped
    /\ (rest = [] \/ exists w rest', rest = w :: rest' /\ no_more_children w = true)
    /\ wait_for_children waits =
         ((map wait_event reaped ++ [Wait (-1) ECHILD])%list, inr tt)
    /\ List.length (trace (wait_for_children waits)) = S (List.length reaped).
Proof.
  assert (P : exists reaped rest,
            waits = (reaped ++ rest)%list
            /\ reaped = waits_before_echild waits
            /\ Forall (fun w => no_more_children w = false) reaped
            /\ (rest = [] \/ exists w rest', rest = w :: rest' /\ no_more_children w = true)).
  { induction waits as [|w waits IH].
    - exists [], []. repeat split; auto.
    - destruct IH as (reaped & rest & E & R & F & T).
      simpl waits_before_echild. destruct (no_more_children w) eqn:N.
      + exists [], (w :: waits). repeat split; auto. right. eauto.
      + exists (w :: reaped), rest. rewrite <- R. rewrite E at 1.
        repeat split; auto. }
  destruct P as (reaped & rest & E & R & F & T).
  exists reaped, rest. rewrite wait_for_children_spec, <- R.
  repeat split; auto.
  unfold trace. simpl. rewrite length_app, length_map. simpl. lia.
Qed.

Lemma X12_wait_loop_witness :
  wait_for_children interrupted_waits =
    ([Wait 4001 0; Wait (-1) EINTR; Wait 4002 0; Wait (-1) ECHILD], inr tt)
  /\ exists reaped,
       Forall (fun w => no_more_children w = false) reaped
       /\ List.length (trace (wait_for_children interrupted_waits)) = S (List.length reaped).
Proof.
  split; [reflexivity|].
  destruct (X12_wait_loop interrupted_waits) as (reaped & rest & _ & F & _ & _ & N).
  exists reaped. split; [exact F|exact N].
Defined.

(** X13.  The line count is kept in an [unsigned]: the check of line 113
    and the task count of line 112 are computed from the number of lines
    modulo [2^32].  Whatever the file, a barrier the launcher initialises has
    the count [(counted - 2) / 3], at most 1431655765, and [3 * count + 2]
    never exceeds the number of lines of the file. *)
Theorem X13_unsigned_line_count (e : environment) (arg content : string) :
  let total := Z.of_nat (List.length (file_lines content)) in
  let counted := total mod 4294967296 in
  count_lines content = counted
  /\ (line_count_ok (count_lines content) = true
      <-> 2 <= counted /\ (counted - 2) mod 3 = 0)
  /\ (line_count_ok (count_lines content) = false ->
      launch e arg content =
        ([Stderr "ERROR: Invalid number of lines in schedule file"],
         inl (Returned (enum_value RT_GOMP_CLUSTERING_LAUNCHER_FILE_PARSE_ERROR))))
  /\ (forall name n,
        In (Init_single_use_barrier name n) (trace (launch e arg content)) ->
        n = (counted - 2) / 3 /\ 0 <= n <= 1431655765 /\ 3 * n + 2 <= total).
Proof.
  intros total counted.
  assert (C : count_lines content = counted) by apply count_lines_spec.
  pose proof (count_lines_range content) as R.
  split; [exact C|]. split; [rewrite <- C; apply line_count_ok_spec; exact R|].
  split; [apply launch_rejected|].
  intros name n I.
  pose proof (launch_barrier_events e arg content) as F.
  rewrite Forall_forall in F. specialize (F _ I). simpl in F. destruct F as [_ ->].
  destruct (line_count_ok (count_lines content)) eqn:Ok.
  - destruct (num_tasks_of_exact _ R Ok) as [E1 E2].
    pose proof (num_tasks_of_range (count_lines content)) as Rg.
    pose proof (count_lines_le content) as Le. fold total in Le.
    rewrite <- C. split; [exact E1|]. split; [exact Rg|lia].
  - rewrite (launch_rejected e arg content Ok) in I.
    destruct I as [I|[]]. discriminate I.
Qed.

Lemma X13_unsigned_line_count_witness :
  count_lines two_task_file = 8
  /\ forall name n,
       In (Init_single_use_barrier name n)
         (trace (launch (launcher_process two_task_file) "demo" two_task_file)) ->
       n = 2.
Proof.
  destruct (X13_unsigned_line_count (launcher_process two_task_file) "demo" two_task_file)
    as (C & _ & _ & B).
  split; [exact C|].
  intros name n I. exact (proj1 (B name n I)).
Defined.

(** X14.  The barrier is initialised at most once in a run of [launch], as
    the second event, right after the verdict notice: before any task is
    forked, and never again. *)
Theorem X14_barrier_first (e : environment) (arg content : string)
    (tr1 tr2 : list event) (name : string) (n : Z) :
  trace (launch e arg content) = (tr1 ++ Init_single_use_barrier name n :: tr2)%list ->
  (exists v, tr1 = [Stderr (verdict_notice arg v)])
  /\ Forall (fun ev => is_fork ev = false) tr1
  /\ Forall (fun ev => is_init ev = false) tr2.
Proof.
  assert (Created : forall names t,
             Forall (fun ev => is_init ev = false) (created_tasks e t names)).
  { induction names as [|p ps IH]; intros t; simpl; repeat constructor. apply IH. }
  assert (Shape : forall v N rest,
             Forall (fun ev => is_init ev = false) rest ->
             (Stderr (verdict_notice arg v) :: Init_single_use_barrier barrier_name N
                :: rest = tr1 ++ Init_single_use_barrier name n :: tr2)%list ->
             (exists v, tr1 = [Stderr (verdict_notice arg v)])
             /\ Forall (fun ev => is_fork ev = false) tr1
             /\ Forall (fun ev => is_init ev = false) tr2).
  { intros v N rest F E.
    destruct tr1 as [|ev1 [|ev2 tr1]].
    - discriminate E.
    - simpl in E. injection E as <- _ _ <-.
      split; [eauto|]. split; [repeat constructor|exact F].
    - exfalso. simpl in E. injection E as _ _ E. rewrite E in F.
      apply Forall_app in F. destruct F as [_ F].
      apply Forall_inv in F. discriminate F. }
  intros H.
  destruct (launch_cases e arg content)
    as [[_ E]|(l1 & l2 & lines & L & Ok & [[_ E]|[(v & _ & _ & _ & E)
         |[(v & _ & _ & _ & E)|(v & tr' & r & V & V01 & B & R & E)]]])];
    rewrite E in H; unfold trace in H; simpl in H.
  - destruct tr1 as [|? [|? ?]]; discriminate H.
  - destruct tr1 as [|? [|? ?]]; discriminate H.
  - destruct tr1 as [|? [|? ?]]; discriminate H.
  - refine (Shape v _ [Stderr "ERROR: Failed to initialize barrier"] _ H).
    repeat constructor.
  - destruct (launch_records_shape e _ _ _ _ _ R)
      as (records & rest & last & _ & _ & _ & -> & St).
    assert (Last : Forall (fun ev => is_init ev = false) last).
    { destruct St as [(_ & -> & _)|(_ & o & _ & St)]; [constructor|].
      destruct (launch_records_stop e _ _ _ _ St)
        as [(text & -> & _)|(c & tm & p & lines' & _ & _ & [(_ & -> & _)
             |[(_ & _ & -> & _)|(_ & _ & -> & _)]])]; repeat constructor. }
    destruct r as [o|[]]; simpl in H.
    + refine (Shape v _ _ _ H). apply Forall_app. split; [apply Created|exact Last].
    + refine (Shape v _ _ _ H).
      apply Forall_app. split; [apply Forall_app; split; [apply Created|exact Last]|].
      unfold reaper_events. constructor; [reflexivity|].
      apply Forall_app. split; [apply wait_events_quiet; reflexivity|repeat constructor].
Qed.

Lemma X14_barrier_first_witness :
  exists v, [Stderr ("WARNING: Taskset may not be schedulable: demo" ++ nl)]
            = [Stderr (verdict_notice "demo" v)].
Proof.
  exact (proj1 (X14_barrier_first (launcher_process two_task_file) "demo" two_task_file
                  [Stderr ("WARNING: Taskset may not be schedulable: demo" ++ nl)]
                  [Stderr ("Forking and execv-ing task workerA" ++ nl); Fork 4001;
                   Stderr ("Forking and execv-ing task workerB" ++ nl); Fork 4002;
                   Stderr ("All tasks started" ++ nl);
                   Wait 4001 0; Wait (-1) ECHILD;
                   Stderr ("All tasks finished" ++ nl)]
                  barrier_name 2 eq_refl)).
Defined.

(** X15.  Records are checked one at a time, in the turn that forks their
    task: when the first [k] records are well formed and their forks succeed
    and record [k + 1] is not well formed, the launcher has created the first
    [k] tasks before it prints the diagnostic of that record and broadcasts
    [SIGTERM] to its process group, itself included.  It then returns the
    parse error where it outlives the signal ([SIGTERM] ignored or blocked)
    and is terminated by the signal otherwise. *)
Theorem X15_tasks_before_a_bad_record (e : environment) (arg content verdict core : string)
    (records : list (string * string * string)) (c tm p : string)
    (rest : list string) (v : Z) :
  file_lines content =
    (verdict :: core :: record_lines records ++ c :: tm :: p :: rest)%list ->
  line_count_ok (count_lines content) = true ->
  Z.of_nat (List.length records) < num_tasks_of (count_lines content) ->
  extract_unsigned verdict = Some v -> v = 0 \/ v = 1 ->
  init_single_use_barrier_ret e = 0 ->
  forallb well_formed records = true ->
  (forall t, 1 <= t <= Z.of_nat (List.length records) ->
             creates_child (task_fork e t) = true) ->
  well_formed (c, tm, p) = false ->
  exists text,
    launch e arg content =
      ((Stderr (verdict_notice arg v)
          :: Init_single_use_barrier barrier_name (num_tasks_of (count_lines content))
          :: created_tasks e 1 (map program_of records)
          ++ [Stderr text; Kill 0 SIGTERM])%list,
       inl (if kill_returns e
            then Returned (enum_value RT_GOMP_CLUSTERING_LAUNCHER_FILE_PARSE_ERROR)
            else Terminated SIGTERM)).
Proof.
  intros L Ok Lt V V01 B W F Bad.
  destruct (project_record_cases e c tm p) as [[text P]|(prog & vec & P)];
    [|destruct (project_ret_well_formed _ _ _ _ _ _ P) as [W1 _];
      rewrite W1 in Bad; discriminate].
  exists text.
  rewrite (launch_goes_on e arg content verdict core _ v L Ok V V01).
  set (N := num_tasks_of (count_lines content)) in *.
  assert (T : Z.to_nat N = (List.length records + S (Z.to_nat N - List.length records - 1))%nat)
    by lia.
  assert (R : launch_records e (Z.to_nat N) 1 (record_lines records ++ c :: tm :: p :: rest) =
              ((created_tasks e 1 (map program_of records)
                  ++ [Stderr text; Kill 0 SIGTERM])%list,
               inl (after_kill e RT_GOMP_CLUSTERING_LAUNCHER_FILE_PARSE_ERROR))).
  { rewrite T, (launch_records_created e records _ 1 _ W).
    - simpl launch_records. rewrite P. reflexivity.
    - intros i Hi. apply F. lia. }
  rewrite (start_tasks_run e N _ _ _ B R). reflexivity.
Qed.

Lemma X15_tasks_before_a_bad_record_witness :
  exists text,
    launch (launcher_process (join_lines ("0" :: "0-7" :: broken_second_task :: nil)))
      "demo" ("0" ++ nl ++ "0-7" ++ nl ++ broken_second_task) =
      ([Stderr ("Taskset is schedulable: demo" ++ nl);
        Init_single_use_barrier barrier_name 2;
        Stderr ("Forking and execv-ing task workerA" ++ nl); Fork 4001;
        Stderr text; Kill 0 SIGTERM],
       inl (Terminated SIGTERM)).
Proof.
  refine (X15_tasks_before_a_bad_record
            (launcher_process (join_lines ("0" :: "0-7" :: broken_second_task :: nil)))
            "demo" ("0" ++ nl ++ "0-7" ++ nl ++ broken_second_task) "0" "0-7"
            [("workerA -x", "0 0 0 0 1 2 3 4 5 6 7", "part1 part2 part3")]
            "workerB" "0 0 0 0 1 2 3 4 5 6 7" "part1 part2" [] 0
            eq_refl eq_refl eq_refl eq_refl (or_introl eq_refl) eq_refl eq_refl _ eq_refl).
  intros t Ht. change (1 <= t <= 1) in Ht.
  change (negb (4000 + t =? 0) && negb (4000 + t =? -1) = true).
  apply andb_true_iff. split; apply negb_true_iff, Z.eqb_neq; lia.
Defined.

(** ** White space *)

Lemma tokens_are_tokens (s : string) : forallb is_token (tokens s) = true.
Proof.
  induction s as [|c s IH]; [reflexivity|].
  simpl tokens. destruct (isspace c) eqn:Hc; [exact IH|].
  destruct (starts_word s).
  - destruct (tokens s) as [|w ws]; [simpl; rewrite Hc; reflexivity|].
    simpl in IH |- *. apply andb_true_iff in IH. destruct IH as [Hw Hws].
    rewrite Hc, Hws. destruct w as [|c' w]; [discriminate|].
    simpl in Hw. simpl. rewrite Hw. reflexivity.
  - simpl. rewrite Hc, IH. reflexivity.
Qed.

(** X16.  Only the tokens of the three lines of a record matter to the
    projector, not the white space around them: two records whose lines have
    the same tokens get the same result, and a line can be replaced by its
    tokens joined by single spaces (so a carriage return at the end of a
    line, or tabs between the fields, change nothing). *)
Theorem X16_white_space_insensitive (e : environment) (cmd timing part : string) :
  (forall cmd' timing' part',
     tokens cmd' = tokens cmd -> tokens timing' = tokens timing ->
     tokens part' = tokens part ->
     task_manager_argvector e cmd' timing' part' = task_manager_argvector e cmd timing part)
  /\ tokens (join_tokens (tokens cmd)) = tokens cmd
  /\ task_manager_argvector e (join_tokens (tokens cmd)) (join_tokens (tokens timing))
       (join_tokens (tokens part)) =
     task_manager_argvector e cmd timing part.
Proof.
  assert (Same : forall cmd' timing' part',
             tokens cmd' = tokens cmd -> tokens timing' = tokens timing ->
             tokens part' = tokens part ->
             task_manager_argvector e cmd' timing' part' =
               task_manager_argvector e cmd timing part).
  { intros cmd' timing' part' Hc Ht Hp. rewrite !task_manager_argvector_spec.
    unfold project_record. rewrite Hc, Ht, Hp. reflexivity. }
  split; [exact Same|].
  split; [apply tokens_join, tokens_are_tokens|].
  apply Same; apply tokens_join, tokens_are_tokens.
Qed.

Lemma X16_white_space_insensitive_witness :
  task_manager_argvector (launcher_process two_task_file)
    ("workerA" ++ String (ascii_of_nat 9) ("-x" ++ String (ascii_of_nat 13) EmptyString))
    ("0 0 0 0   1 2 3 4 5 6 7" ++ String (ascii_of_nat 13) EmptyString)
    ("  part1 part2" ++ String (ascii_of_nat 9) "part3") =
  task_manager_argvector (launcher_process two_task_file)
    "workerA -x" "0 0 0 0 1 2 3 4 5 6 7" "part1 part2 part3".
Proof.
  refine (proj1 (X16_white_space_insensitive (launcher_process two_task_file)
                  "workerA -x" "0 0 0 0 1 2 3 4 5 6 7" "part1 part2 part3")
           ("workerA" ++ String (ascii_of_nat 9) ("-x" ++ String (ascii_of_nat 13) EmptyString))
           ("0 0 0 0   1 2 3 4 5 6 7" ++ String (ascii_of_nat 13) EmptyString)
           ("  part1 part2" ++ String (ascii_of_nat 9) "part3")
           _ _ _); vm_compute; reflexivity.
Defined.

(** X17.  Every entry of an argument vector the projector assembles is a
    non-empty string without white space, and the vector has 13 entries
    besides the arguments of the command line. *)
Theorem X17_argvector_entries (e : environment)
    (cmd timing part program_name : string) (argvector : list string) :
  task_manager_argvector e cmd timing part = ret (program_name, argvector) ->
  forallb is_token argvector = true
  /\ is_token program_name = true
  /\ hd_error argvector = Some program_name
  /\ List.length argvector = (13 + (List.length (tokens cmd) - 1))%nat.
Proof.
  rewrite task_manager_argvector_spec. intros P.
  destruct (project_ret_well_formed _ _ _ _ _ _ P) as (W & -> & ->).
  unfold well_formed in W. unfold program_of, argvector_of.
  pose proof (tokens_are_tokens cmd) as Tc.
  pose proof (tokens_are_tokens timing) as Tt.
  pose proof (tokens_are_tokens part) as Tp.
  destruct (tokens cmd) as [|p task_args]; [discriminate|].
  apply andb_true_iff in W. destruct W as [Lp Lt]. apply Nat.eqb_eq in Lp, Lt.
  simpl in Tc. apply andb_true_iff in Tc. destruct Tc as [Hp Hargs].
  unfold projected_argvector.
  split; [|split; [exact Hp|split; [reflexivity|]]].
  - assert (S : forallb is_token (skipn num_skipped_timing_params (tokens timing)) = true).
    { rewrite <- (firstn_skipn num_skipped_timing_params (tokens timing)) in Tt.
      rewrite forallb_app in Tt. apply andb_true_iff in Tt. tauto. }
    rewrite !forallb_app. rewrite Tp, S, Hargs.
    change (forallb is_token [p]) with (is_token p && true).
    change (forallb is_token [barrier_name; p]) with (true && (is_token p && true)).
    rewrite Hp. reflexivity.
  - rewrite !length_app, length_skipn, Lp, Lt. simpl. params_lia.
Qed.

Lemma X17_argvector_entries_witness :
  forallb is_token
    ["workerA"; "part1"; "part2"; "part3"; "1"; "2"; "3"; "4"; "5"; "6"; "7";
     "RT_GOMP_CLUSTERING_BARRIER"; "workerA"; "-x"] = true.
Proof.
  exact (proj1 (X17_argvector_entries (launcher_process two_task_file)
                  "workerA -x" "0 0 0 0 1 2 3 4 5 6 7"
                  "part1 part2 part3" "workerA" _ eq_refl)).
Defined.
